(** * The GL quad renderer (cc/output/gl_renderer.cc): batching, draw state
      and per-material dispatch

    A shallow embedding of [GLRenderer] as a state-and-failure monad over the
    renderer's members.  Every call the renderer makes on its graphics
    context is appended to a trace, so that draw calls can be counted and
    state changes located.

    Conventions.
    - [int] and [unsigned] values are integers in [Z]; the conversions the
      source performs between the two are written out ([to_int32],
      [to_uint32]).  Coordinate arithmetic on [gfx::Rect] is carried out in
      [Z] (signed overflow is undefined behaviour in C++).
    - [float] is a parameter ([GfxLib]): the renderer never inspects the
      bits of a float, it only passes them through arithmetic and on to the
      graphics context, so every result below holds for IEEE binary32 as
      well as for exact arithmetic.
    - [DCHECK]s are debug-only and compile to nothing in release builds; they
      are recorded in comments.  Dereferencing a null pointer is a failure of
      the monad. *)

From Stdlib Require Import ZArith QArith Qminmax Qabs Qround Bool List Lia.
From stdpp Require Import base option list gmap.
Import ListNotations.

Local Open Scope Z_scope.

(** ** Machine integers *)

Definition to_uint32 (z : Z) : Z := z mod 2 ^ 32.
Definition to_int32 (z : Z) : Z := (z + 2 ^ 31) mod 2 ^ 32 - 2 ^ 31.

Definition is_uint32 (z : Z) : Prop := 0 <= z < 2 ^ 32.
Definition is_int32 (z : Z) : Prop := - 2 ^ 31 <= z < 2 ^ 31.

(** ** SkColor (Skia, third_party): a 32-bit ARGB word *)

Definition SkColor := Z.

Definition SkColorGetA (color : SkColor) : Z := Z.land (Z.shiftr color 24) 255.
Definition SkColorGetR (color : SkColor) : Z := Z.land (Z.shiftr color 16) 255.
Definition SkColorGetG (color : SkColor) : Z := Z.land (Z.shiftr color 8) 255.
Definition SkColorGetB (color : SkColor) : Z := Z.land (Z.shiftr color 0) 255.

Definition SkColorSetARGB (a r g b : Z) : SkColor :=
  Z.lor (Z.lor (Z.lor (Z.shiftl a 24) (Z.shiftl r 16)) (Z.shiftl g 8)) b.

(** ** Integer geometry (gfx::Point, gfx::Size, gfx::Rect) *)

Record Point := mkPoint { pt_x : Z; pt_y : Z }.
Record Size := mkSize { sz_width : Z; sz_height : Z }.
Record Rect := mkRect { r_x : Z; r_y : Z; r_width : Z; r_height : Z }.

Definition Rect_right (r : Rect) : Z := r_x r + r_width r.
Definition Rect_bottom (r : Rect) : Z := r_y r + r_height r.
Definition Rect_origin (r : Rect) : Point := mkPoint (r_x r) (r_y r).
Definition Rect_top_right (r : Rect) : Point := mkPoint (Rect_right r) (r_y r).
Definition Rect_bottom_left (r : Rect) : Point := mkPoint (r_x r) (Rect_bottom r).
Definition Rect_bottom_right (r : Rect) : Point :=
  mkPoint (Rect_right r) (Rect_bottom r).
Definition Rect_size (r : Rect) : Size := mkSize (r_width r) (r_height r).
Definition Rect_of_Size (s : Size) : Rect := mkRect 0 0 (sz_width s) (sz_height s).
Definition Size_bottom_right (s : Size) : Point :=
  mkPoint (sz_width s) (sz_height s).

Definition Rect_eqb (a b : Rect) : bool :=
  (r_x a =? r_x b) && (r_y a =? r_y b) &&
  (r_width a =? r_width b) && (r_height a =? r_height b).

Definition Size_eqb (a b : Size) : bool :=
  (sz_width a =? sz_width b) && (sz_height a =? sz_height b).

(** ** Float geometry (gfx::PointF, gfx::RectF, gfx::QuadF), over any float *)

Section FloatGeometry.
Variable F : Type.

Record PointF := mkPointF { pf_x : F; pf_y : F }.
Record SizeF := mkSizeF { sf_width : F; sf_height : F }.
Record RectF := mkRectF { rf_x : F; rf_y : F; rf_width : F; rf_height : F }.
Record QuadF := mkQuadF { p1 : PointF; p2 : PointF; p3 : PointF; p4 : PointF }.
End FloatGeometry.

Arguments mkPointF {F}.
Arguments pf_x {F}.
Arguments pf_y {F}.
Arguments mkSizeF {F}.
Arguments sf_width {F}.
Arguments sf_height {F}.
Arguments mkRectF {F}.
Arguments rf_x {F}.
Arguments rf_y {F}.
Arguments rf_width {F}.
Arguments rf_height {F}.
Arguments mkQuadF {F}.
Arguments p1 {F}.
Arguments p2 {F}.
Arguments p3 {F}.
Arguments p4 {F}.

(** ** Library code the renderer calls

    ui/gfx, cc/base/math_util and cc/resources/layer_quad are not part of the
    sources at hand.  Their operations are parameters: the float type and its
    arithmetic, [gfx::Transform], the [MathUtil] mappings, the [QuadF] and
    [RectF] algorithms and [LayerQuad]. *)

Class GfxLib := {
  float : Type;
  float_of_int : Z -> float;               (* static_cast<float>(int) *)
  float_lit : Q -> float;                  (* a literal such as 0.5f *)
  fadd : float -> float -> float;
  fsub : float -> float -> float;
  fmul : float -> float -> float;
  fdiv : float -> float -> float;
  fmin : float -> float -> float;          (* std::min *)
  fneg : float -> float;
  fneb : float -> float -> bool;           (* operator!= *)

  Transform : Type;
  Transform_identity : Transform;          (* gfx::Transform() *)
  Transform_mul : Transform -> Transform -> Transform;   (* operator* *)
  FlattenTo2d : Transform -> Transform;
  IsInvertible : Transform -> bool;
  GetInverse : Transform -> bool * Transform;
  Translate : Transform -> float -> float -> Transform;
  Scale : Transform -> float -> float -> Transform;
  PreconcatTransform : Transform -> Transform -> Transform;
  IsIdentityOrIntegerTranslation : Transform -> bool;
  asColMajorf : Transform -> list float;   (* the 16 entries, column major *)

  MapQuad : Transform -> QuadF float -> QuadF float * bool;   (* quad, clipped *)
  MapPoint : Transform -> PointF float -> PointF float * bool;
  MapClippedRect : Transform -> RectF float -> RectF float;

  QuadF_BoundingBox : QuadF float -> RectF float;
  QuadF_IsRectilinear : QuadF float -> bool;
  QuadF_IsCounterClockwise : QuadF float -> bool;
  QuadF_Scale : QuadF float -> float -> float -> QuadF float;
  RectF_Inset : RectF float -> float -> float -> float -> float -> RectF float;
  IsNearestRectWithinDistance : RectF float -> float -> bool;
  ToEnclosingRect : RectF float -> Rect;
  Rect_Inset : Rect -> Z -> Z -> Z -> Z -> Rect;
  Rect_Intersect : Rect -> Rect -> Rect;

  LayerQuad : Type;
  LayerQuad_Edge : Type;
  LayerQuad_of_QuadF : QuadF float -> LayerQuad;
  LayerQuad_of_edges :
    LayerQuad_Edge -> LayerQuad_Edge -> LayerQuad_Edge -> LayerQuad_Edge ->
    LayerQuad;                              (* left, top, right, bottom *)
  Edge_of_points : PointF float -> PointF float -> LayerQuad_Edge;
  Edge_scale : LayerQuad_Edge -> float -> LayerQuad_Edge;
  InflateAntiAliasingDistance : LayerQuad -> LayerQuad;
  LayerQuad_left : LayerQuad -> LayerQuad_Edge;
  LayerQuad_top : LayerQuad -> LayerQuad_Edge;
  LayerQuad_right : LayerQuad -> LayerQuad_Edge;
  LayerQuad_bottom : LayerQuad -> LayerQuad_Edge;
  LayerQuad_ToQuadF : LayerQuad -> QuadF float;
  LayerQuad_ToFloatArray : LayerQuad -> list float;   (* 12 floats *)
}.

Section Renderer.
Context {G : GfxLib}.

(** Constructors and accessors of the float geometry. *)

Definition PointF_of_Point (p : Point) : PointF float :=
  mkPointF (float_of_int (pt_x p)) (float_of_int (pt_y p)).

Definition RectF_of_Rect (r : Rect) : RectF float :=
  mkRectF (float_of_int (r_x r)) (float_of_int (r_y r))
          (float_of_int (r_width r)) (float_of_int (r_height r)).

Definition RectF_right (r : RectF float) : float := fadd (rf_x r) (rf_width r).
Definition RectF_bottom (r : RectF float) : float := fadd (rf_y r) (rf_height r).

Definition QuadF_of_RectF (r : RectF float) : QuadF float :=
  mkQuadF (mkPointF (rf_x r) (rf_y r))
          (mkPointF (RectF_right r) (rf_y r))
          (mkPointF (RectF_right r) (RectF_bottom r))
          (mkPointF (rf_x r) (RectF_bottom r)).

Definition QuadF_of_Rect (r : Rect) : QuadF float := QuadF_of_RectF (RectF_of_Rect r).

(** Smallest unit that impacts anti-aliasing output. *)
Definition kAntiAliasingEpsilon : float := fdiv (float_lit 1) (float_lit 1024).

(** ** Collaborators

    The resource provider, the filter evaluators (Skia and
    [RenderSurfaceFilters]), the precision policy of the shader module and
    the matrix set-up of [DirectRenderer] are consumed through their
    interfaces only. *)

Definition ResourceId := Z.          (* unsigned *)
Definition RenderPassId := (Z * Z)%type.   (* layer id, index *)

Inductive TexCoordPrecision :=
  TexCoordPrecisionNA | TexCoordPrecisionMedium | TexCoordPrecisionHigh.

Inductive GLenum :=
  | GL_BLEND | GL_SCISSOR_TEST | GL_DEPTH_TEST | GL_CULL_FACE
  | GL_TRIANGLES | GL_LINE_LOOP | GL_UNSIGNED_SHORT
  | GL_TEXTURE_2D | GL_TEXTURE_RECTANGLE_ARB | GL_TEXTURE_EXTERNAL_OES
  | GL_TEXTURE0 | GL_TEXTURE1 | GL_TEXTURE2 | GL_TEXTURE3
  | GL_ONE | GL_ZERO | GL_SRC_ALPHA | GL_ONE_MINUS_SRC_ALPHA
  | GL_FRAMEBUFFER | GL_COLOR_ATTACHMENT0 | GL_COLOR_BUFFER_BIT
  | GL_RGB | GL_RGBA | GL_LINEAR | GL_NEAREST
  | GL_TEXTURE_POOL_UNMANAGED_CHROMIUM
  | GL_NONE.                         (* the value 0 *)

Inductive TextureUsageHint := TextureUsageAny | TextureUsageFramebuffer.

Class Platform := {
  ResourceProvider : Type;
  (* ScopedReadLockGL / ScopedWriteLockGL: the GL name behind a resource *)
  texture_id : ResourceProvider -> ResourceId -> Z;
  (* ResourceProvider::CreateTexture, as used by ScopedResource::Allocate *)
  CreateTexture :
    ResourceProvider -> Size -> GLenum -> TextureUsageHint ->
    ResourceId * ResourceProvider;
  CreateGLTexture :
    ResourceProvider -> Size -> GLenum -> GLenum -> TextureUsageHint ->
    ResourceId * ResourceProvider;
  DeleteResource : ResourceProvider -> ResourceId -> ResourceProvider;
  (* offscreen_context_provider() is non-null and has a GrContext *)
  has_offscreen_GrContext : ResourceProvider -> bool;

  (* WebKit::WebFilterOperations *)
  FilterOperations : Type;
  isEmpty : FilterOperations -> bool;
  getOutsets : FilterOperations -> Z * Z * Z * Z;   (* top, right, bottom, left *)
  (* RenderSurfaceFilters::Apply; None when the bitmap has no texture *)
  RenderSurfaceFilters_Apply : FilterOperations -> Z -> Size -> option Z;

  (* SkImageFilter *)
  ImageFilter : Type;
  (* asColorFilter(&cf) && cf->asColorMatrix(m): the 20 entries of m *)
  asColorMatrix : ImageFilter -> option (list float);
  has_input0 : ImageFilter -> bool;                 (* getInput(0) != NULL *)
  (* the sprite drawn through the filter into a scratch texture *)
  drawSprite_through : ImageFilter -> Z -> Size -> option Z;

  (* cc::PicturePileImpl *)
  PicturePile : Type;

  TexCoordPrecisionRequired : Z -> Point -> TexCoordPrecision;

  (* DirectRenderer::InitializeMatrices: the two matrices it computes *)
  projection_for : Rect -> bool -> Transform;
  window_for : Rect -> bool -> Transform;
  (* DirectRenderer::QuadRectTransform *)
  QuadRectTransform : Transform -> RectF float -> Transform;
  (* DirectRenderer::RenderPassTextureSize / RenderPassTextureFormat *)
  RenderPassTextureSize : Rect -> Size;
}.

Context {P : Platform}.

(** ** Quads, passes and the drawing frame *)

Record SharedQuadState := {
  content_to_target_transform : Transform;
  visible_content_rect : Rect;
  sqs_opacity : float;
}.

Record ContentDrawQuadBase := {
  tex_coord_rect : RectF float;
  texture_size : Size;
  swizzle_contents : bool;
}.

Inductive IOSurfaceOrientation := FLIPPED | UNFLIPPED.

Record RenderPassDrawQuad := {
  render_pass_id : RenderPassId;
  mask_resource_id : ResourceId;
  mask_uv_rect : RectF float;
  quad_filter : option ImageFilter;   (* filter *)
  filters : FilterOperations;
  background_filters : FilterOperations;
}.

Record TextureDrawQuad := {
  resource_id : ResourceId;
  premultiplied_alpha : bool;
  uv_top_left : PointF float;
  uv_bottom_right : PointF float;
  vertex_opacity : float * float * float * float;
  flipped : bool;
}.

Record PictureDrawQuad := {
  picture_base : ContentDrawQuadBase;
  picture_pile : PicturePile;
  content_rect : Rect;
  contents_scale : float;
}.

(** The material of a quad together with the fields of the subclass that
    [MaterialCast] gives access to. *)
Inductive Material :=
  | INVALID
  | CHECKERBOARD (color : SkColor)
  | DEBUG_BORDER (color : SkColor) (width : Z)
  | IO_SURFACE_CONTENT (io_surface_size : Size)
      (io_surface_resource_id : ResourceId) (orientation : IOSurfaceOrientation)
  | PICTURE_CONTENT (quad : PictureDrawQuad)
  | RENDER_PASS (quad : RenderPassDrawQuad)
  | SOLID_COLOR (color : SkColor)
  | STREAM_VIDEO_CONTENT (resource : ResourceId) (matrix : Transform)
  | TEXTURE_CONTENT (quad : TextureDrawQuad)
  | TILED_CONTENT (base : ContentDrawQuadBase) (resource : ResourceId)
  | YUV_VIDEO_CONTENT (tex_scale : SizeF float)
      (y_plane_resource_id u_plane_resource_id v_plane_resource_id : ResourceId).

(** cc::DrawQuad.  The class is declared in cc/quads/draw_quad.h, which is
    not at hand: what its predicates return ([ShouldDrawWithBlending],
    [IsEdge] and the four edge tests) is carried by the quad. *)
Record DrawQuad := {
  material : Material;
  rect : Rect;
  opaque_rect : Rect;
  visible_rect : Rect;
  needs_blending : bool;
  shared_quad_state : SharedQuadState;
  ShouldDrawWithBlending : bool;
  IsEdge : bool;
  IsTopEdge : bool;
  IsLeftEdge : bool;
  IsRightEdge : bool;
  IsBottomEdge : bool;
}.

Definition quadTransform (q : DrawQuad) : Transform :=
  content_to_target_transform (shared_quad_state q).
Definition opacity (q : DrawQuad) : float := sqs_opacity (shared_quad_state q).
Definition visibleContentRect (q : DrawQuad) : Rect :=
  visible_content_rect (shared_quad_state q).

Definition is_TEXTURE_CONTENT (m : Material) : bool :=
  match m with TEXTURE_CONTENT _ => true | _ => false end.

Record RenderPass := {
  pass_id : RenderPassId;            (* id *)
  output_rect : Rect;
  has_transparent_background : bool;
}.

(** ScopedResource and CachedResource: a texture owned by the renderer;
    [res_id] is 0 until it has been allocated. *)
Record ScopedResource := {
  res_id : ResourceId;
  res_size : Size;
  res_format : GLenum;
}.

Record DrawingFrame := {
  root_render_pass : RenderPass;
  current_render_pass : option RenderPass;      (* a pointer, possibly null *)
  current_texture : option ScopedResource;
  root_damage_rect : RectF float;
  projection_matrix : Transform;
  window_matrix : Transform;
  flipped_y : bool;
}.

(** ** Shader programs

    [ProgramBinding] (cc/output/program_binding.h) is not at hand.  A program
    is seen through its GL name, [program], which is 0 as long as the program
    has not been linked (a lost context leaves it so), and through the
    uniform locations of its two shaders. *)

Inductive Uniform :=
  | matrix_location | color_location | tex_transform_location
  | frequency_location | alpha_location | sampler_location | point_location
  | tex_scale_location | edge_location | mask_sampler_location
  | mask_tex_coord_scale_location | mask_tex_coord_offset_location
  | color_matrix_location | color_offset_location
  | vertex_tex_transform_location | fragment_tex_transform_location
  | vertex_opacity_location | tex_matrix_location
  | y_texture_location | u_texture_location | v_texture_location
  | yuv_matrix_location | yuv_adj_location.

#[local] Instance Uniform_eq_dec : EqDecision Uniform.
Proof. solve_decision. Defined.

Record ProgramBinding := {
  program : Z;                       (* unsigned *)
  initialized : bool;
  location : Uniform -> Z;           (* int, -1 when absent *)
}.

Inductive ProgramKind :=
  | TileCheckerboardProgram | DebugBorderProgram
  | SolidColorProgram | SolidColorProgramAA
  | RenderPassProgram | RenderPassProgramAA
  | RenderPassMaskProgram | RenderPassMaskProgramAA
  | RenderPassColorMatrixProgram | RenderPassColorMatrixProgramAA
  | RenderPassMaskColorMatrixProgram | RenderPassMaskColorMatrixProgramAA
  | TileProgram | TileProgramOpaque | TileProgramAA
  | TileProgramSwizzle | TileProgramSwizzleOpaque | TileProgramSwizzleAA
  | TextureProgram | TextureProgramFlip | TextureIOSurfaceProgram
  | VideoYUVProgram | VideoStreamTextureProgram.

(** ** The graphics context and the other collaborators, as a trace *)

Inductive Call :=
  (* WebGraphicsContext3D *)
  | enable (cap : GLenum)
  | disable (cap : GLenum)
  | colorMask (r g b a : bool)
  | blendFunc (sfactor dfactor : GLenum)
  | blendFuncSeparate (src_rgb dst_rgb src_alpha dst_alpha : GLenum)
  | activeTexture (texture : GLenum)
  | bindTexture (target : GLenum) (texture : Z)
  | useProgram (name : Z)
  | uniform1i (loc : Z) (v : Z)
  | uniform1f (loc : Z) (v : float)
  | uniform2f (loc : Z) (x y : float)
  | uniform4f (loc : Z) (x y z w : float)
  | uniform1fv (loc : Z) (count : Z) (v : list float)
  | uniform2fv (loc : Z) (count : Z) (v : list float)
  | uniform3fv (loc : Z) (count : Z) (v : list float)
  | uniform4fv (loc : Z) (count : Z) (v : list float)
  | uniformMatrix3fv (loc : Z) (count : Z) (transpose : bool) (v : list float)
  | uniformMatrix4fv (loc : Z) (count : Z) (transpose : bool) (v : list float)
  | lineWidth (w : float)
  | drawElements (mode : GLenum) (count : Z) (type : GLenum) (offset : Z)
  | clearColor (r g b a : Z)
  | clear (mask : GLenum)
  | flush
  | bindFramebuffer (target : GLenum) (framebuffer : Z)
  | framebufferTexture2D (target attachment textarget : GLenum) (texture level : Z)
  | copyTexImage2D (target : GLenum) (level : Z) (internalformat : GLenum)
      (x y w h border : Z)
  | scissor (x y w h : Z)
  | viewport (x y w h : Z)
  | makeContextCurrent
  (* ResourceProvider *)
  | BindForSampling (resource : ResourceId) (target filter : GLenum)
  | ResourceProvider_Flush
  | SetPixels (resource : ResourceId) (image : Size)
  (* the offscreen context provider and Skia *)
  | Offscreen_makeContextCurrent
  | Offscreen_GrContext_flush
  | Offscreen_Context3d_flush
  | Raster (pile : PicturePile) (content : Rect) (scale : float)
  (* OutputSurface and GeometryBinding *)
  | OutputSurface_BindFramebuffer
  | OutputSurface_Reshape (size : Size)
  | OutputSurface_EnsureBackbuffer
  | PrepareForDraw.

Definition is_draw_call (c : Call) : bool :=
  match c with drawElements _ _ _ _ => true | _ => false end.

(** ** The texture batching cache (TexturedQuadDrawCache) *)

Definition Float4 := (float * float * float * float)%type.
Definition Float16 := list float.

Record TexturedQuadDrawCache := {
  program_id : Z;                    (* int *)
  cache_resource_id : Z;             (* int *)
  use_premultiplied_alpha : bool;
  cache_needs_blending : bool;
  uv_xform_location : Z;
  cache_vertex_opacity_location : Z;
  cache_matrix_location : Z;
  cache_sampler_location : Z;
  uv_xform_data : list Float4;
  vertex_opacity_data : list float;
  matrix_data : list Float16;
}.

(** One entry of the trace: the call, and (as a history variable that the
    source does not have) the batching cache as it stood when the call was
    issued. *)
Record Issued := {
  call : Call;
  issued_with : TexturedQuadDrawCache;
}.

(** ** The renderer's members *)

Record Settings := {
  programs : ProgramKind -> TexCoordPrecision -> ProgramBinding;
  highp_threshold_min_ : Z;
  using_egl_image : bool;            (* capabilities_.using_egl_image *)
  offscreen_framebuffer_id_ : Z;
  ViewportSize : Size;               (* client_->DeviceViewportSize() *)
  SharedGeometryQuad : QuadF float;  (* shared_geometry_quad_ *)
}.

Record GLRenderer := mkGLRenderer {
  context_ : list Issued;
  blend_shadow_ : bool;
  program_shadow_ : Z;               (* unsigned *)
  draw_cache_ : TexturedQuadDrawCache;
  is_scissor_enabled_ : bool;
  scissor_rect_ : Rect;
  render_pass_textures_ : gmap RenderPassId ScopedResource;
  resource_provider_ : ResourceProvider;
  current_framebuffer_lock_ : option ResourceId;
  on_demand_tile_raster_bitmap_ : Size;
  on_demand_tile_raster_resource_id_ : ResourceId;
  is_viewport_changed_ : bool;
  is_backbuffer_discarded_ : bool;
  settings : Settings;
}.

Definition set_context_ v (r : GLRenderer) : GLRenderer :=
  mkGLRenderer v (blend_shadow_ r) (program_shadow_ r) (draw_cache_ r)
    (is_scissor_enabled_ r) (scissor_rect_ r) (render_pass_textures_ r)
    (resource_provider_ r) (current_framebuffer_lock_ r)
    (on_demand_tile_raster_bitmap_ r) (on_demand_tile_raster_resource_id_ r)
    (is_viewport_changed_ r) (is_backbuffer_discarded_ r) (settings r).
Definition set_blend_shadow_ v (r : GLRenderer) : GLRenderer :=
  mkGLRenderer (context_ r) v (program_shadow_ r) (draw_cache_ r)
    (is_scissor_enabled_ r) (scissor_rect_ r) (render_pass_textures_ r)
    (resource_provider_ r) (current_framebuffer_lock_ r)
    (on_demand_tile_raster_bitmap_ r) (on_demand_tile_raster_resource_id_ r)
    (is_viewport_changed_ r) (is_backbuffer_discarded_ r) (settings r).
Definition set_program_shadow_ v (r : GLRenderer) : GLRenderer :=
  mkGLRenderer (context_ r) (blend_shadow_ r) v (draw_cache_ r)
    (is_scissor_enabled_ r) (scissor_rect_ r) (render_pass_textures_ r)
    (resource_provider_ r) (current_framebuffer_lock_ r)
    (on_demand_tile_raster_bitmap_ r) (on_demand_tile_raster_resource_id_ r)
    (is_viewport_changed_ r) (is_backbuffer_discarded_ r) (settings r).
Definition set_draw_cache_ v (r : GLRenderer) : GLRenderer :=
  mkGLRenderer (context_ r) (blend_shadow_ r) (program_shadow_ r) v
    (is_scissor_enabled_ r) (scissor_rect_ r) (render_pass_textures_ r)
    (resource_provider_ r) (current_framebuffer_lock_ r)
    (on_demand_tile_raster_bitmap_ r) (on_demand_tile_raster_resource_id_ r)
    (is_viewport_changed_ r) (is_backbuffer_discarded_ r) (settings r).
Definition set_is_scissor_enabled_ v (r : GLRenderer) : GLRenderer :=
  mkGLRenderer (context_ r) (blend_shadow_ r) (program_shadow_ r) (draw_cache_ r)
    v (scissor_rect_ r) (render_pass_textures_ r)
    (resource_provider_ r) (current_framebuffer_lock_ r)
    (on_demand_tile_raster_bitmap_ r) (on_demand_tile_raster_resource_id_ r)
    (is_viewport_changed_ r) (is_backbuffer_discarded_ r) (settings r).
Definition set_scissor_rect_ v (r : GLRenderer) : GLRenderer :=
  mkGLRenderer (context_ r) (blend_shadow_ r) (program_shadow_ r) (draw_cache_ r)
    (is_scissor_enabled_ r) v (render_pass_textures_ r)
    (resource_provider_ r) (current_framebuffer_lock_ r)
    (on_demand_tile_raster_bitmap_ r) (on_demand_tile_raster_resource_id_ r)
    (is_viewport_changed_ r) (is_backbuffer_discarded_ r) (settings r).
Definition set_render_pass_textures_ v (r : GLRenderer) : GLRenderer :=
  mkGLRenderer (context_ r) (blend_shadow_ r) (program_shadow_ r) (draw_cache_ r)
    (is_scissor_enabled_ r) (scissor_rect_ r) v
    (resource_provider_ r) (current_framebuffer_lock_ r)
    (on_demand_tile_raster_bitmap_ r) (on_demand_tile_raster_resource_id_ r)
    (is_viewport_changed_ r) (is_backbuffer_discarded_ r) (settings r).
Definition set_resource_provider_ v (r : GLRenderer) : GLRenderer :=
  mkGLRenderer (context_ r) (blend_shadow_ r) (program_shadow_ r) (draw_cache_ r)
    (is_scissor_enabled_ r) (scissor_rect_ r) (render_pass_textures_ r)
    v (current_framebuffer_lock_ r)
    (on_demand_tile_raster_bitmap_ r) (on_demand_tile_raster_resource_id_ r)
    (is_viewport_changed_ r) (is_backbuffer_discarded_ r) (settings r).
Definition set_current_framebuffer_lock_ v (r : GLRenderer) : GLRenderer :=
  mkGLRenderer (context_ r) (blend_shadow_ r) (program_shadow_ r) (draw_cache_ r)
    (is_scissor_enabled_ r) (scissor_rect_ r) (render_pass_textures_ r)
    (resource_provider_ r) v
    (on_demand_tile_raster_bitmap_ r) (on_demand_tile_raster_resource_id_ r)
    (is_viewport_changed_ r) (is_backbuffer_discarded_ r) (settings r).
Definition set_on_demand_tile_raster_bitmap_ v (r : GLRenderer) : GLRenderer :=
  mkGLRenderer (context_ r) (blend_shadow_ r) (program_shadow_ r) (draw_cache_ r)
    (is_scissor_enabled_ r) (scissor_rect_ r) (render_pass_textures_ r)
    (resource_provider_ r) (current_framebuffer_lock_ r)
    v (on_demand_tile_raster_resource_id_ r)
    (is_viewport_changed_ r) (is_backbuffer_discarded_ r) (settings r).
Definition set_on_demand_tile_raster_resource_id_ v (r : GLRenderer) : GLRenderer :=
  mkGLRenderer (context_ r) (blend_shadow_ r) (program_shadow_ r) (draw_cache_ r)
    (is_scissor_enabled_ r) (scissor_rect_ r) (render_pass_textures_ r)
    (resource_provider_ r) (current_framebuffer_lock_ r)
    (on_demand_tile_raster_bitmap_ r) v
    (is_viewport_changed_ r) (is_backbuffer_discarded_ r) (settings r).
Definition set_is_viewport_changed_ v (r : GLRenderer) : GLRenderer :=
  mkGLRenderer (context_ r) (blend_shadow_ r) (program_shadow_ r) (draw_cache_ r)
    (is_scissor_enabled_ r) (scissor_rect_ r) (render_pass_textures_ r)
    (resource_provider_ r) (current_framebuffer_lock_ r)
    (on_demand_tile_raster_bitmap_ r) (on_demand_tile_raster_resource_id_ r)
    v (is_backbuffer_discarded_ r) (settings r).
Definition set_is_backbuffer_discarded_ v (r : GLRenderer) : GLRenderer :=
  mkGLRenderer (context_ r) (blend_shadow_ r) (program_shadow_ r) (draw_cache_ r)
    (is_scissor_enabled_ r) (scissor_rect_ r) (render_pass_textures_ r)
    (resource_provider_ r) (current_framebuffer_lock_ r)
    (on_demand_tile_raster_bitmap_ r) (on_demand_tile_raster_resource_id_ r)
    (is_viewport_changed_ r) v (settings r).

(** ** The monad: renderer state, and failure on a null dereference *)

Definition M (A : Type) : Type := GLRenderer -> option (A * GLRenderer).

#[export] Instance M_ret : MRet M := fun A a s => Some (a, s).
#[export] Instance M_bind : MBind M := fun A B f m s =>
  match m s with
  | Some (a, s') => f a s'
  | None => None
  end.

Definition get {A} (f : GLRenderer -> A) : M A := fun s => Some (f s, s).
Definition modify (f : GLRenderer -> GLRenderer) : M unit := fun s => Some (tt, f s).
Definition crash {A} : M A := fun _ => None.

(** GLC(context, x): issue [x] on the context. *)
Definition GLC (c : Call) : M unit :=
  modify (fun s => set_context_ (context_ s ++ [Build_Issued c (draw_cache_ s)]) s).

Definition when (b : bool) (m : M unit) : M unit := if b then m else mret tt.

(** The calls issued so far, and how many of them draw. *)
Definition calls (s : GLRenderer) : list Call := map call (context_ s).
Definition draw_calls (s : GLRenderer) : list Call :=
  List.filter is_draw_call (calls s).

Arguments calls : simpl never.
Arguments draw_calls : simpl never.

Definition SetBlendEnabled (enabled : bool) : M unit :=
  shadow ← get blend_shadow_;
  if eqb enabled shadow then mret tt
  else
    (if enabled then GLC (enable GL_BLEND) else GLC (disable GL_BLEND));;
    modify (set_blend_shadow_ enabled).

Definition SetUseProgram (prog : Z) : M unit :=
  shadow ← get program_shadow_;
  if prog =? shadow then mret tt
  else GLC (useProgram prog);; modify (set_program_shadow_ prog).

Definition ToGLMatrix (transform : Transform) : list float := asColMajorf transform.

Definition SetShaderQuadF (quad : QuadF float) (quad_location : Z) : M unit :=
  if quad_location =? -1 then mret tt
  else
    GLC (uniform2fv quad_location 4
           [pf_x (p1 quad); pf_y (p1 quad); pf_x (p2 quad); pf_y (p2 quad);
            pf_x (p3 quad); pf_y (p3 quad); pf_x (p4 quad); pf_y (p4 quad)]).

Definition SetShaderOpacity (opacity : float) (alpha_loc : Z) : M unit :=
  when (negb (alpha_loc =? -1)) (GLC (uniform1f alpha_loc opacity)).

Definition DrawQuadGeometry (frame : DrawingFrame) (draw_transform : Transform)
    (quad_rect : RectF float) (matrix_loc : Z) : M unit :=
  let quad_rect_matrix := QuadRectTransform draw_transform quad_rect in
  let gl_matrix :=
    ToGLMatrix (Transform_mul (projection_matrix frame) quad_rect_matrix) in
  GLC (uniformMatrix4fv matrix_loc 1 false gl_matrix);;
  GLC (drawElements GL_TRIANGLES 6 GL_UNSIGNED_SHORT 0).

(** *** Program getters

    Each getter creates its program on first use and initialises it if need
    be, then returns it; creation and initialisation happen inside
    [ProgramBinding].  [programs] holds the binding each getter returns.  A
    getter with a precision argument keeps two programs, the high-precision
    one and the other. *)

Definition slot (precision : TexCoordPrecision) : TexCoordPrecision :=
  match precision with
  | TexCoordPrecisionHigh => TexCoordPrecisionHigh
  | _ => TexCoordPrecisionMedium
  end.

Definition GetProgram (kind : ProgramKind) (precision : TexCoordPrecision)
  : M ProgramBinding :=
  get (fun s => programs (settings s) kind (slot precision)).

Definition GetTileCheckerboardProgram : M ProgramBinding :=
  get (fun s => programs (settings s) TileCheckerboardProgram TexCoordPrecisionNA).
Definition GetDebugBorderProgram : M ProgramBinding :=
  get (fun s => programs (settings s) DebugBorderProgram TexCoordPrecisionNA).
Definition GetSolidColorProgram : M ProgramBinding :=
  get (fun s => programs (settings s) SolidColorProgram TexCoordPrecisionNA).
Definition GetSolidColorProgramAA : M ProgramBinding :=
  get (fun s => programs (settings s) SolidColorProgramAA TexCoordPrecisionNA).
Definition GetRenderPassProgram := GetProgram RenderPassProgram.
Definition GetRenderPassProgramAA := GetProgram RenderPassProgramAA.
Definition GetRenderPassMaskProgram := GetProgram RenderPassMaskProgram.
Definition GetRenderPassMaskProgramAA := GetProgram RenderPassMaskProgramAA.
Definition GetRenderPassColorMatrixProgram := GetProgram RenderPassColorMatrixProgram.
Definition GetRenderPassColorMatrixProgramAA :=
  GetProgram RenderPassColorMatrixProgramAA.
Definition GetRenderPassMaskColorMatrixProgram :=
  GetProgram RenderPassMaskColorMatrixProgram.
Definition GetRenderPassMaskColorMatrixProgramAA :=
  GetProgram RenderPassMaskColorMatrixProgramAA.
Definition GetTileProgram := GetProgram TileProgram.
Definition GetTileProgramOpaque := GetProgram TileProgramOpaque.
Definition GetTileProgramAA := GetProgram TileProgramAA.
Definition GetTileProgramSwizzle := GetProgram TileProgramSwizzle.
Definition GetTileProgramSwizzleOpaque := GetProgram TileProgramSwizzleOpaque.
Definition GetTileProgramSwizzleAA := GetProgram TileProgramSwizzleAA.
Definition GetTextureProgram := GetProgram TextureProgram.
Definition GetTextureProgramFlip := GetProgram TextureProgramFlip.
Definition GetTextureIOSurfaceProgram := GetProgram TextureIOSurfaceProgram.
Definition GetVideoYUVProgram := GetProgram VideoYUVProgram.

(** Returns NULL unless EGL images are in use. *)
Definition GetVideoStreamTextureProgram (precision : TexCoordPrecision)
  : M (option ProgramBinding) :=
  egl ← get (fun s => using_egl_image (settings s));
  if negb egl then mret None
  else p ← GetProgram VideoStreamTextureProgram precision; mret (Some p).

(** TexCoordPrecisionRequired(context_, highp_threshold_min_, point) *)
Definition RequiredPrecision (point : Point) : M TexCoordPrecision :=
  get (fun s => TexCoordPrecisionRequired (highp_threshold_min_ (settings s)) point).

(** SkColorGetX(color) * (1.0f / 255.0f) *)
Definition channel (c : Z) : float :=
  fmul (float_of_int c) (fdiv (float_lit 1) (float_lit 255)).

(** *** Checkerboard and debug border quads *)

Definition DrawCheckerboardQuad (frame : DrawingFrame) (quad : DrawQuad)
    (color : SkColor) : M unit :=
  SetBlendEnabled (ShouldDrawWithBlending quad);;
  prog ← GetTileCheckerboardProgram;
  (* DCHECK(program && (program->initialized() || IsContextLost())) *)
  SetUseProgram (program prog);;
  GLC (uniform4f (location prog color_location)
         (channel (SkColorGetR color))
         (channel (SkColorGetG color))
         (channel (SkColorGetB color))
         (float_of_int 1));;
  let checkerboard_width := 16 in
  let frequency := fdiv (float_lit 1) (float_of_int checkerboard_width) in
  let tile_rect := rect quad in
  let tex_offset_x := float_of_int (Z.rem (r_x tile_rect) checkerboard_width) in
  let tex_offset_y := float_of_int (Z.rem (r_y tile_rect) checkerboard_width) in
  let tex_scale_x := float_of_int (r_width tile_rect) in
  let tex_scale_y := float_of_int (r_height tile_rect) in
  GLC (uniform4f (location prog tex_transform_location)
         tex_offset_x tex_offset_y tex_scale_x tex_scale_y);;
  GLC (uniform1f (location prog frequency_location) frequency);;
  SetShaderOpacity (opacity quad) (location prog alpha_location);;
  DrawQuadGeometry frame (quadTransform quad) (RectF_of_Rect (rect quad))
    (location prog matrix_location).

Definition DrawDebugBorderQuad (frame : DrawingFrame) (quad : DrawQuad)
    (color : SkColor) (width : Z) : M unit :=
  SetBlendEnabled (ShouldDrawWithBlending quad);;
  prog ← GetDebugBorderProgram;
  (* DCHECK(program && (program->initialized() || IsContextLost())) *)
  SetUseProgram (program prog);;
  (* Use the full quad_rect for debug quads to not move the edges based on
     partial swaps. *)
  let layer_rect := rect quad in
  let render_matrix := quadTransform quad in
  let render_matrix :=
    Translate render_matrix
      (fadd (fmul (float_lit 0.5) (float_of_int (r_width layer_rect)))
            (float_of_int (r_x layer_rect)))
      (fadd (fmul (float_lit 0.5) (float_of_int (r_height layer_rect)))
            (float_of_int (r_y layer_rect))) in
  let render_matrix :=
    Scale render_matrix (float_of_int (r_width layer_rect))
                        (float_of_int (r_height layer_rect)) in
  let gl_matrix :=
    ToGLMatrix (Transform_mul (projection_matrix frame) render_matrix) in
  GLC (uniformMatrix4fv (location prog matrix_location) 1 false gl_matrix);;
  let alpha := channel (SkColorGetA color) in
  GLC (uniform4f (location prog color_location)
         (fmul (channel (SkColorGetR color)) alpha)
         (fmul (channel (SkColorGetG color)) alpha)
         (fmul (channel (SkColorGetB color)) alpha)
         alpha);;
  GLC (lineWidth (float_of_int width));;
  (* The indices for the line are stored in the same array as the triangle
     indices. *)
  GLC (drawElements GL_LINE_LOOP 4 GL_UNSIGNED_SHORT 0).

(** *** Scoped resources

    ScopedResource (cc/resources/scoped_resource.h) is not at hand; it is
    used through create, Allocate and its destructor, which hand the work to
    the resource provider.  [Allocate] succeeds when the provider returns a
    non-zero id; the destructor deletes the resource if there is one. *)

Definition ScopedResource_create : ScopedResource :=
  {| res_id := 0; res_size := mkSize 0 0; res_format := GL_NONE |}.

Definition Allocate (texture : ScopedResource) (size : Size) (format : GLenum)
    (hint : TextureUsageHint) : M (bool * ScopedResource) :=
  (* DCHECK(!id()) *)
  rp ← get resource_provider_;
  let '(new_id, rp') := CreateTexture rp size format hint in
  modify (set_resource_provider_ rp');;
  mret (negb (new_id =? 0),
        {| res_id := new_id; res_size := size; res_format := format |}).

Definition Free (texture : ScopedResource) : M unit :=
  when (negb (res_id texture =? 0))
    (modify (fun s =>
       set_resource_provider_ (DeleteResource (resource_provider_ s) (res_id texture)) s)).

(** ScopedReadLockGL / ScopedWriteLockGL (resource_provider_, id).texture_id() *)
Definition lock_texture_id (resource : ResourceId) : M Z :=
  get (fun s => texture_id (resource_provider_ s) resource).

(** *** Off-screen filter evaluation *)

Definition ApplyFilters (filters : FilterOperations)
    (source_texture_resource : ScopedResource) : M (option Z) :=
  if isEmpty filters then mret None
  else
    offscreen ← get (fun s => has_offscreen_GrContext (resource_provider_ s));
    if negb offscreen then mret None
    else
      lock ← lock_texture_id (res_id source_texture_resource);
      (* Flush the compositor context to ensure that textures there are
         available in the shared context. *)
      GLC ResourceProvider_Flush;;
      (* Make sure skia uses the correct GL context. *)
      GLC Offscreen_makeContextCurrent;;
      let source :=
        RenderSurfaceFilters_Apply filters lock (res_size source_texture_resource) in
      GLC Offscreen_GrContext_flush;;
      GLC Offscreen_Context3d_flush;;
      (* Use the compositor's GL context again. *)
      GLC makeContextCurrent;;
      mret source.

Definition ApplyImageFilter (filter : option ImageFilter)
    (source_texture_resource : ScopedResource) : M (option Z) :=
  match filter with
  | None => mret None
  | Some filter =>
    offscreen ← get (fun s => has_offscreen_GrContext (resource_provider_ s));
    if negb offscreen then mret None
    else
      lock ← lock_texture_id (res_id source_texture_resource);
      GLC ResourceProvider_Flush;;
      GLC Offscreen_makeContextCurrent;;
      (* Wrap the source texture, create a scratch texture for backing store
         and draw the source bitmap through the filter to the canvas. *)
      let backing := drawSprite_through filter lock (res_size source_texture_resource) in
      GLC Offscreen_GrContext_flush;;
      GLC Offscreen_Context3d_flush;;
      GLC makeContextCurrent;;
      mret backing
  end.

(** *** Framebuffer binding and matrices *)

Definition set_matrices (proj win : Transform) (flip : bool) (f : DrawingFrame)
  : DrawingFrame :=
  {| root_render_pass := root_render_pass f;
     current_render_pass := current_render_pass f;
     current_texture := current_texture f;
     root_damage_rect := root_damage_rect f;
     projection_matrix := proj;
     window_matrix := win;
     flipped_y := flip |}.

Definition set_target (pass : option RenderPass) (texture : option ScopedResource)
    (f : DrawingFrame) : DrawingFrame :=
  {| root_render_pass := root_render_pass f;
     current_render_pass := pass;
     current_texture := texture;
     root_damage_rect := root_damage_rect f;
     projection_matrix := projection_matrix f;
     window_matrix := window_matrix f;
     flipped_y := flipped_y f |}.

(** Modelled from the spec: DirectRenderer::InitializeMatrices, whose source
    (cc/output/direct_renderer.cc) is missing.  "InitializeMatrices(frame,
    rect, flipped) computes projection and window matrices for a target of
    given size"; the flag is kept in the frame. *)
Definition InitializeMatrices (frame : DrawingFrame) (draw_rect : Rect)
    (flip_y : bool) : DrawingFrame :=
  set_matrices (projection_for draw_rect flip_y) (window_for draw_rect flip_y)
    flip_y frame.

Definition SetDrawViewportSize (viewport_size : Size) : M unit :=
  GLC (viewport 0 0 (sz_width viewport_size) (sz_height viewport_size)).

Definition FlippedFramebuffer (r : GLRenderer) : bool := true.

Definition BindFramebufferToOutputSurface (frame : DrawingFrame) : M unit :=
  modify (set_current_framebuffer_lock_ None);;
  GLC OutputSurface_BindFramebuffer.

Definition BindFramebufferToTexture (frame : DrawingFrame)
    (texture : ScopedResource) (framebuffer_rect : Rect)
  : M (bool * DrawingFrame) :=
  (* DCHECK(texture->id()) *)
  fbo ← get (fun s => offscreen_framebuffer_id_ (settings s));
  GLC (bindFramebuffer GL_FRAMEBUFFER fbo);;
  modify (set_current_framebuffer_lock_ (Some (res_id texture)));;
  tex_id ← lock_texture_id (res_id texture);
  GLC (framebufferTexture2D GL_FRAMEBUFFER GL_COLOR_ATTACHMENT0 GL_TEXTURE_2D
         tex_id 0);;
  (* DCHECK(checkFramebufferStatus(GL_FRAMEBUFFER) == GL_FRAMEBUFFER_COMPLETE
            || IsContextLost()) *)
  let frame := InitializeMatrices frame framebuffer_rect false in
  SetDrawViewportSize (Rect_size framebuffer_rect);;
  mret (true, frame).

Definition UseScopedTexture (frame : DrawingFrame) (texture : ScopedResource)
    (viewport_rect : Rect) : M (bool * DrawingFrame) :=
  (* DCHECK(texture->id()) *)
  let frame := set_target None (Some texture) frame in
  BindFramebufferToTexture frame texture viewport_rect.

(** Modelled from the spec: DirectRenderer::UseRenderPass, whose source
    (cc/output/direct_renderer.cc) is missing.  "a render pass is selected,
    framebuffer bound (target texture or output surface), matrices computed";
    "render-to-texture targets are never Y-flipped in this step; the final
    output-surface target is always treated as Y-flipped"; the texture of a
    pass is the entry of the cached resource texture table under the pass
    identifier, allocated on first use, and "failure at any allocation"
    fails the binding. *)
Definition UseRenderPass (frame : DrawingFrame) (render_pass : RenderPass)
  : M (bool * DrawingFrame) :=
  let frame := set_target (Some render_pass) None frame in
  if bool_decide (pass_id render_pass = pass_id (root_render_pass frame)) then
    BindFramebufferToOutputSurface frame;;
    flip ← get FlippedFramebuffer;
    let frame := InitializeMatrices frame (output_rect render_pass) flip in
    SetDrawViewportSize (Rect_size (output_rect render_pass));;
    mret (true, frame)
  else
    textures ← get render_pass_textures_;
    match textures !! pass_id render_pass with
    | None => crash
    | Some texture =>
      if res_id texture =? 0 then
        '(ok, texture) ← Allocate texture
            (RenderPassTextureSize (output_rect render_pass)) GL_RGBA
            TextureUsageFramebuffer;
        modify (fun s => set_render_pass_textures_
                  (<[pass_id render_pass := texture]> (render_pass_textures_ s)) s);;
        if negb ok then mret (false, frame)
        else BindFramebufferToTexture frame texture (output_rect render_pass)
      else BindFramebufferToTexture frame texture (output_rect render_pass)
    end.

Definition GetFramebufferTexture (texture : ScopedResource) (device_rect : Rect)
  : M (bool * ScopedResource) :=
  (* DCHECK(!texture->id() || (texture->size() == device_rect.size() &&
                               texture->format() == GL_RGB)) *)
  '(ok, texture) ←
    (if res_id texture =? 0
     then Allocate texture (Rect_size device_rect) GL_RGB TextureUsageAny
     else mret (true, texture));
  if negb ok then mret (false, texture)
  else
    lock ← lock_texture_id (res_id texture);
    GLC (bindTexture GL_TEXTURE_2D lock);;
    GLC (copyTexImage2D GL_TEXTURE_2D 0 (res_format texture)
           (r_x device_rect) (r_y device_rect)
           (r_width device_rect) (r_height device_rect) 0);;
    mret (true, texture).

Definition CopyTextureToFramebuffer (frame : DrawingFrame) (tex_id : Z)
    (rect : Rect) (draw_matrix : Transform) : M unit :=
  tex_coord_precision ← RequiredPrecision (Rect_bottom_right rect);
  prog ← GetRenderPassProgram tex_coord_precision;
  GLC (bindTexture GL_TEXTURE_2D tex_id);;
  SetUseProgram (program prog);;
  GLC (uniform1i (location prog sampler_location) 0);;
  GLC (uniform4f (location prog tex_transform_location)
         (float_lit 0) (float_lit 0) (float_lit 1) (float_lit 1));;
  SetShaderOpacity (float_of_int 1) (location prog alpha_location);;
  DrawQuadGeometry frame draw_matrix (RectF_of_Rect rect)
    (location prog matrix_location).

(** *** Background filters

    Draws a background filter: reads the pixels behind the quad into a
    texture, applies the filter to them, and maps the result into the quad's
    content space.  Returns the background texture, if there is one.  The
    local [device_background_texture] is destroyed on every way out, the
    local [background_texture] on those that do not return it. *)
Definition DrawBackgroundFilters (frame : DrawingFrame) (quad : DrawQuad)
    (rp : RenderPassDrawQuad)
    (contents_device_transform contents_device_transform_inverse : Transform)
  : M (DrawingFrame * option ScopedResource) :=
  let filters := background_filters rp in
  (* DCHECK(!filters.isEmpty()) *)
  match current_render_pass frame with
  | None => crash
  | Some pass =>
  (* FIXME: We only allow background filters on an opaque render surface
     because other surfaces may contain translucent pixels, and the contents
     behind those translucent pixels wouldn't have the filter applied. *)
  if has_transparent_background pass then mret (frame, None)
  else
    (* DCHECK(!frame->current_texture) *)
    shared ← get (fun s => SharedGeometryQuad (settings s));
    let device_rect :=
      ToEnclosingRect
        (MapClippedRect contents_device_transform (QuadF_BoundingBox shared)) in
    let '(o_top, o_right, o_bottom, o_left) := getOutsets filters in
    let device_rect :=
      Rect_Inset device_rect (- o_left) (- o_top) (- o_right) (- o_bottom) in
    let device_rect := Rect_Intersect device_rect (output_rect pass) in
    '(ok, device_background_texture) ←
      GetFramebufferTexture ScopedResource_create device_rect;
    if negb ok then Free device_background_texture;; mret (frame, None)
    else
      filtered_device_background ← ApplyFilters filters device_background_texture;
      match filtered_device_background with
      | None => Free device_background_texture;; mret (frame, None)
      | Some filtered_device_background_texture_id =>
        '(ok, background_texture) ←
          Allocate ScopedResource_create (Rect_size (rect quad)) GL_RGBA
            TextureUsageFramebuffer;
        if negb ok then
          Free background_texture;; Free device_background_texture;;
          mret (frame, None)
        else
          let target_render_pass := pass in
          '(using_background_texture, frame) ←
            UseScopedTexture frame background_texture (rect quad);
          when using_background_texture
            ((* Copy the readback pixels from device to the background
                texture for the surface. *)
             let t := Transform_identity in
             let t := Translate t
               (fadd (fmul (float_of_int (r_width (rect quad))) (float_lit 0.5))
                     (float_of_int (r_x (rect quad))))
               (fadd (fmul (float_of_int (r_height (rect quad))) (float_lit 0.5))
                     (float_of_int (r_y (rect quad)))) in
             let t := Scale t (float_of_int (r_width (rect quad)))
                              (float_of_int (r_height (rect quad))) in
             let device_to_framebuffer_transform :=
               PreconcatTransform t contents_device_transform_inverse in
             (* debug builds clear the texture to blue here *)
             CopyTextureToFramebuffer frame filtered_device_background_texture_id
               device_rect device_to_framebuffer_transform);;
          '(_, frame) ← UseRenderPass frame target_render_pass;
          if negb using_background_texture then
            Free background_texture;; Free device_background_texture;;
            mret (frame, None)
          else
            Free device_background_texture;;
            mret (frame, Some background_texture)
      end
  end.

(** *** Anti-aliasing set-up

    [local_quad] and [edge] are the two out-parameters: the result carries
    their values on return. *)
Definition SetupQuadForAntialiasing (device_transform : Transform)
    (quad : DrawQuad) (local_quad : QuadF float) (edge : list float)
  : bool * QuadF float * list float :=
  let tile_rect := visible_rect quad in
  let '(device_layer_quad, clipped) :=
    MapQuad device_transform (QuadF_of_Rect (visibleContentRect quad)) in
  (* DCHECK(!clipped) *)
  let is_axis_aligned_in_target := QuadF_IsRectilinear device_layer_quad in
  let is_nearest_rect_within_epsilon :=
    is_axis_aligned_in_target &&
    IsNearestRectWithinDistance (QuadF_BoundingBox device_layer_quad)
      kAntiAliasingEpsilon in
  let use_aa :=
    negb clipped && negb is_nearest_rect_within_epsilon && IsEdge quad in
  if negb use_aa then (false, local_quad, edge)
  else
    let device_layer_bounds :=
      InflateAntiAliasingDistance
        (LayerQuad_of_QuadF (QuadF_of_RectF (QuadF_BoundingBox device_layer_quad))) in
    let device_layer_edges :=
      InflateAntiAliasingDistance (LayerQuad_of_QuadF device_layer_quad) in
    let edge :=
      LayerQuad_ToFloatArray device_layer_edges ++
      LayerQuad_ToFloatArray device_layer_bounds in
    (* Map points to device space. *)
    let bottom_right :=
      fst (MapPoint device_transform (PointF_of_Point (Rect_bottom_right tile_rect))) in
    let bottom_left :=
      fst (MapPoint device_transform (PointF_of_Point (Rect_bottom_left tile_rect))) in
    let top_left :=
      fst (MapPoint device_transform (PointF_of_Point (Rect_origin tile_rect))) in
    let top_right :=
      fst (MapPoint device_transform (PointF_of_Point (Rect_top_right tile_rect))) in
    let bottom_edge := Edge_of_points bottom_right bottom_left in
    let left_edge := Edge_of_points bottom_left top_left in
    let top_edge := Edge_of_points top_left top_right in
    let right_edge := Edge_of_points top_right bottom_right in
    (* Only apply anti-aliasing to edges not clipped by culling or
       scissoring. *)
    let top_edge :=
      if IsTopEdge quad && (r_y tile_rect =? r_y (rect quad))
      then LayerQuad_top device_layer_edges else top_edge in
    let left_edge :=
      if IsLeftEdge quad && (r_x tile_rect =? r_x (rect quad))
      then LayerQuad_left device_layer_edges else left_edge in
    let right_edge :=
      if IsRightEdge quad && (Rect_right tile_rect =? Rect_right (rect quad))
      then LayerQuad_right device_layer_edges else right_edge in
    let bottom_edge :=
      if IsBottomEdge quad && (Rect_bottom tile_rect =? Rect_bottom (rect quad))
      then LayerQuad_bottom device_layer_edges else bottom_edge in
    let sign :=
      if QuadF_IsCounterClockwise (QuadF_of_Rect tile_rect)
      then float_of_int (-1) else float_of_int 1 in
    let bottom_edge := Edge_scale bottom_edge sign in
    let left_edge := Edge_scale left_edge sign in
    let top_edge := Edge_scale top_edge sign in
    let right_edge := Edge_scale right_edge sign in
    (* Create device space quad. *)
    let device_quad := LayerQuad_of_edges left_edge top_edge right_edge bottom_edge in
    (* Map device space quad to local space. *)
    let '(did_invert, inverse_device_transform) := GetInverse device_transform in
    (* DCHECK(did_invert) *)
    let local_quad :=
      fst (MapQuad inverse_device_transform (LayerQuad_ToQuadF device_quad)) in
    (true, local_quad, edge).

(** An [int] location stored in an [unsigned] field of a uniforms struct and
    read back where an [int] is expected. *)
Definition via_unsigned (loc : Z) : Z := to_int32 (to_uint32 loc).

(** window_matrix * projection_matrix * transform, flattened *)
Definition device_transform_of (frame : DrawingFrame) (transform : Transform)
  : Transform :=
  FlattenTo2d
    (Transform_mul (Transform_mul (window_matrix frame) (projection_matrix frame))
       transform).

(** gfx::RectF(gfx::PointF(-0.5f * w, -0.5f * h), tile_rect.size()) *)
Definition centered_rect_of (tile_rect : Rect) : RectF float :=
  mkRectF (fmul (float_lit (-0.5)) (float_of_int (r_width tile_rect)))
          (fmul (float_lit (-0.5)) (float_of_int (r_height tile_rect)))
          (float_of_int (r_width tile_rect)) (float_of_int (r_height tile_rect)).

(** local_quad.Scale(1.0f / tile_rect.width(), 1.0f / tile_rect.height()) *)
Definition normalize_to (tile_rect : Rect) (local_quad : QuadF float) : QuadF float :=
  QuadF_Scale local_quad
    (fdiv (float_lit 1) (float_of_int (r_width tile_rect)))
    (fdiv (float_lit 1) (float_of_int (r_height tile_rect))).

(** *** Solid colour quads *)

Definition DrawSolidColorQuad (frame : DrawingFrame) (quad : DrawQuad)
    (color : SkColor) : M unit :=
  SetBlendEnabled (ShouldDrawWithBlending quad);;
  let tile_rect := visible_rect quad in
  let device_transform := device_transform_of frame (quadTransform quad) in
  if negb (IsInvertible device_transform) then mret tt
  else
    let local_quad := QuadF_of_Rect tile_rect in
    (* float edge[24], not initialised *)
    let '(use_aa, local_quad, edge) :=
      SetupQuadForAntialiasing device_transform quad local_quad [] in
    prog ← (if use_aa then GetSolidColorProgramAA else GetSolidColorProgram);
    let uniforms := fun u => via_unsigned (location prog u) in
    SetUseProgram (program prog);;
    let alpha := fmul (channel (SkColorGetA color)) (opacity quad) in
    GLC (uniform4f (uniforms color_location)
           (fmul (channel (SkColorGetR color)) alpha)
           (fmul (channel (SkColorGetG color)) alpha)
           (fmul (channel (SkColorGetB color)) alpha)
           alpha);;
    when use_aa (GLC (uniform3fv (uniforms edge_location) 8 edge));;
    (* Enable blending when the quad properties require it or if we decided
       to use antialiasing. *)
    SetBlendEnabled (ShouldDrawWithBlending quad || use_aa);;
    (* Normalize to tile_rect. *)
    let local_quad := normalize_to tile_rect local_quad in
    SetShaderQuadF local_quad (uniforms point_location);;
    DrawQuadGeometry frame (quadTransform quad) (centered_rect_of tile_rect)
      (uniforms matrix_location).

(** *** Content quads (tiles and pictures) *)

Definition DrawContentQuad (frame : DrawingFrame) (quad : DrawQuad)
    (base : ContentDrawQuadBase) (resource : ResourceId) : M unit :=
  let tile_rect := visible_rect quad in
  let tex_coord_rect := tex_coord_rect base in
  let tex_to_geom_scale_x :=
    fdiv (float_of_int (r_width (rect quad))) (rf_width tex_coord_rect) in
  let tex_to_geom_scale_y :=
    fdiv (float_of_int (r_height (rect quad))) (rf_height tex_coord_rect) in
  (* tex_coord_rect corresponds to quad_rect, but quad_visible_rect may be
     smaller than quad_rect due to occlusion or clipping. *)
  let top_left_diff_x := r_x tile_rect - r_x (rect quad) in
  let top_left_diff_y := r_y tile_rect - r_y (rect quad) in
  let bottom_right_diff_x := Rect_right tile_rect - Rect_right (rect quad) in
  let bottom_right_diff_y := Rect_bottom tile_rect - Rect_bottom (rect quad) in
  let tex_coord_rect :=
    RectF_Inset tex_coord_rect
      (fdiv (float_of_int top_left_diff_x) tex_to_geom_scale_x)
      (fdiv (float_of_int top_left_diff_y) tex_to_geom_scale_y)
      (fdiv (float_of_int (- bottom_right_diff_x)) tex_to_geom_scale_x)
      (fdiv (float_of_int (- bottom_right_diff_y)) tex_to_geom_scale_y) in
  let clamp_geom_rect := RectF_of_Rect tile_rect in
  let clamp_tex_rect := tex_coord_rect in
  (* Clamp texture coordinates to avoid sampling outside the layer by
     deflating the tile region half a texel or half a texel minus epsilon
     for one pixel layers. *)
  let tex_clamp_x :=
    fmin (float_lit 0.5)
      (fsub (fmul (float_lit 0.5) (rf_width clamp_tex_rect)) kAntiAliasingEpsilon) in
  let tex_clamp_y :=
    fmin (float_lit 0.5)
      (fsub (fmul (float_lit 0.5) (rf_height clamp_tex_rect)) kAntiAliasingEpsilon) in
  let geom_clamp_x :=
    fmin (fmul tex_clamp_x tex_to_geom_scale_x)
      (fsub (fmul (float_lit 0.5) (rf_width clamp_geom_rect)) kAntiAliasingEpsilon) in
  let geom_clamp_y :=
    fmin (fmul tex_clamp_y tex_to_geom_scale_y)
      (fsub (fmul (float_lit 0.5) (rf_height clamp_geom_rect)) kAntiAliasingEpsilon) in
  let clamp_geom_rect :=
    RectF_Inset clamp_geom_rect geom_clamp_x geom_clamp_y geom_clamp_x geom_clamp_y in
  let clamp_tex_rect :=
    RectF_Inset clamp_tex_rect tex_clamp_x tex_clamp_y tex_clamp_x tex_clamp_y in
  (* Map clamping rectangle to unit square. *)
  let vertex_tex_translate_x :=
    fdiv (fneg (rf_x clamp_geom_rect)) (rf_width clamp_geom_rect) in
  let vertex_tex_translate_y :=
    fdiv (fneg (rf_y clamp_geom_rect)) (rf_height clamp_geom_rect) in
  let vertex_tex_scale_x :=
    fdiv (float_of_int (r_width tile_rect)) (rf_width clamp_geom_rect) in
  let vertex_tex_scale_y :=
    fdiv (float_of_int (r_height tile_rect)) (rf_height clamp_geom_rect) in
  tex_coord_precision ← RequiredPrecision (Size_bottom_right (texture_size base));
  (* Map to normalized texture coordinates. *)
  let texture_size := texture_size base in
  let fragment_tex_translate_x :=
    fdiv (rf_x clamp_tex_rect) (float_of_int (sz_width texture_size)) in
  let fragment_tex_translate_y :=
    fdiv (rf_y clamp_tex_rect) (float_of_int (sz_height texture_size)) in
  let fragment_tex_scale_x :=
    fdiv (rf_width clamp_tex_rect) (float_of_int (sz_width texture_size)) in
  let fragment_tex_scale_y :=
    fdiv (rf_height clamp_tex_rect) (float_of_int (sz_height texture_size)) in
  let device_transform := device_transform_of frame (quadTransform quad) in
  if negb (IsInvertible device_transform) then mret tt
  else
    let local_quad := QuadF_of_Rect tile_rect in
    (* float edge[24], not initialised *)
    let '(use_aa, local_quad, edge) :=
      SetupQuadForAntialiasing device_transform quad local_quad [] in
    prog ←
      (if use_aa then
         if swizzle_contents base
         then GetTileProgramSwizzleAA tex_coord_precision
         else GetTileProgramAA tex_coord_precision
       else if ShouldDrawWithBlending quad then
         if swizzle_contents base
         then GetTileProgramSwizzle tex_coord_precision
         else GetTileProgram tex_coord_precision
       else
         if swizzle_contents base
         then GetTileProgramSwizzleOpaque tex_coord_precision
         else GetTileProgramOpaque tex_coord_precision);
    let uniforms := fun u => via_unsigned (location prog u) in
    SetUseProgram (program prog);;
    GLC (uniform1i (uniforms sampler_location) 0);;
    let scaled :=
      fneb tex_to_geom_scale_x (float_lit 1) || fneb tex_to_geom_scale_y (float_lit 1) in
    let filter :=
      if use_aa || scaled || negb (IsIdentityOrIntegerTranslation (quadTransform quad))
      then GL_LINEAR else GL_NEAREST in
    GLC (BindForSampling resource GL_TEXTURE_2D filter);;
    (if use_aa then
       GLC (uniform3fv (uniforms edge_location) 8 edge);;
       GLC (uniform4f (uniforms vertex_tex_transform_location)
              vertex_tex_translate_x vertex_tex_translate_y
              vertex_tex_scale_x vertex_tex_scale_y);;
       GLC (uniform4f (uniforms fragment_tex_transform_location)
              fragment_tex_translate_x fragment_tex_translate_y
              fragment_tex_scale_x fragment_tex_scale_y)
     else
       (* Move fragment shader transform to vertex shader. *)
       let vertex_tex_scale_x := fmul vertex_tex_scale_x fragment_tex_scale_x in
       let vertex_tex_scale_y := fmul vertex_tex_scale_y fragment_tex_scale_y in
       let vertex_tex_translate_x := fmul vertex_tex_translate_x fragment_tex_scale_x in
       let vertex_tex_translate_y := fmul vertex_tex_translate_y fragment_tex_scale_y in
       let vertex_tex_translate_x := fadd vertex_tex_translate_x fragment_tex_translate_x in
       let vertex_tex_translate_y := fadd vertex_tex_translate_y fragment_tex_translate_y in
       GLC (uniform4f (uniforms vertex_tex_transform_location)
              vertex_tex_translate_x vertex_tex_translate_y
              vertex_tex_scale_x vertex_tex_scale_y));;
    (* Enable blending when the quad properties require it or if we decided
       to use antialiasing. *)
    SetBlendEnabled (ShouldDrawWithBlending quad || use_aa);;
    (* Normalize to tile_rect. *)
    let local_quad := normalize_to tile_rect local_quad in
    SetShaderOpacity (opacity quad) (uniforms alpha_location);;
    SetShaderQuadF local_quad (uniforms point_location);;
    DrawQuadGeometry frame (quadTransform quad) (centered_rect_of tile_rect)
      (uniforms matrix_location).

Definition DrawTileQuad (frame : DrawingFrame) (quad : DrawQuad)
    (base : ContentDrawQuadBase) (resource : ResourceId) : M unit :=
  DrawContentQuad frame quad base resource.

Definition DrawPictureQuad (frame : DrawingFrame) (quad : DrawQuad)
    (picture : PictureDrawQuad) : M unit :=
  let texture_size := texture_size (picture_base picture) in
  bitmap ← get on_demand_tile_raster_bitmap_;
  when (negb (sz_width bitmap =? sz_width texture_size) ||
        negb (sz_height bitmap =? sz_height texture_size))
    (modify (set_on_demand_tile_raster_bitmap_ texture_size);;
     old ← get on_demand_tile_raster_resource_id_;
     when (negb (old =? 0))
       (modify (fun s =>
          set_resource_provider_ (DeleteResource (resource_provider_ s) old) s));;
     rp ← get resource_provider_;
     let '(new_id, rp') :=
       CreateGLTexture rp texture_size GL_RGBA GL_TEXTURE_POOL_UNMANAGED_CHROMIUM
         TextureUsageAny in
     modify (set_resource_provider_ rp');;
     modify (set_on_demand_tile_raster_resource_id_ new_id));;
  GLC (Raster (picture_pile picture) (content_rect picture) (contents_scale picture));;
  resource ← get on_demand_tile_raster_resource_id_;
  GLC (SetPixels resource texture_size);;
  DrawContentQuad frame quad (picture_base picture) resource.

(** *** Render pass quads *)

(** The program variant a render pass quad is drawn with, and the locations
    the routine takes from it; every other shader_*_location stays -1. *)
Definition render_pass_variant (use_aa has_mask use_color_matrix : bool)
  : ProgramKind * list Uniform :=
  if use_aa && has_mask && negb use_color_matrix then
    (RenderPassMaskProgramAA,
     [point_location; edge_location; mask_sampler_location;
      mask_tex_coord_scale_location; mask_tex_coord_offset_location;
      matrix_location; alpha_location; tex_scale_location])
  else if negb use_aa && has_mask && negb use_color_matrix then
    (RenderPassMaskProgram,
     [mask_sampler_location; mask_tex_coord_scale_location;
      mask_tex_coord_offset_location; matrix_location; alpha_location;
      tex_transform_location])
  else if use_aa && negb has_mask && negb use_color_matrix then
    (RenderPassProgramAA,
     [point_location; edge_location; matrix_location; alpha_location;
      tex_scale_location])
  else if use_aa && has_mask && use_color_matrix then
    (RenderPassMaskColorMatrixProgramAA,
     [matrix_location; point_location; tex_scale_location; edge_location;
      alpha_location; mask_sampler_location; mask_tex_coord_scale_location;
      mask_tex_coord_offset_location; color_matrix_location;
      color_offset_location])
  else if use_aa && negb has_mask && use_color_matrix then
    (RenderPassColorMatrixProgramAA,
     [matrix_location; point_location; tex_scale_location; edge_location;
      alpha_location; color_matrix_location; color_offset_location])
  else if negb use_aa && has_mask && use_color_matrix then
    (RenderPassMaskColorMatrixProgram,
     [matrix_location; tex_transform_location; mask_sampler_location;
      mask_tex_coord_scale_location; mask_tex_coord_offset_location;
      alpha_location; color_matrix_location; color_offset_location])
  else if negb use_aa && negb has_mask && use_color_matrix then
    (RenderPassColorMatrixProgram,
     [matrix_location; tex_transform_location; alpha_location;
      color_matrix_location; color_offset_location])
  else
    (RenderPassProgram,
     [matrix_location; alpha_location; tex_transform_location]).

Definition DrawRenderPassQuad (frame : DrawingFrame) (quad : DrawQuad)
    (rp : RenderPassDrawQuad) : M DrawingFrame :=
  SetBlendEnabled (ShouldDrawWithBlending quad);;
  textures ← get render_pass_textures_;
  match textures !! render_pass_id rp with
  | None => mret frame
  | Some contents_texture =>
  if res_id contents_texture =? 0 then mret frame
  else
    let quad_rect_matrix :=
      QuadRectTransform (quadTransform quad) (RectF_of_Rect (rect quad)) in
    let contents_device_transform := device_transform_of frame quad_rect_matrix in
    (* Can only draw surface if device matrix is invertible. *)
    let '(invertible, contents_device_transform_inverse) :=
      GetInverse contents_device_transform in
    if negb invertible then mret frame
    else
      '(frame, background_texture) ←
        (if negb (isEmpty (background_filters rp)) then
           (* The pixels from the filtered background should completely
              replace the current pixel values. *)
           disable_blending ← get blend_shadow_;
           when disable_blending (SetBlendEnabled false);;
           r ← DrawBackgroundFilters frame quad rp contents_device_transform
                 contents_device_transform_inverse;
           when disable_blending (SetBlendEnabled true);;
           mret r
         else mret (frame, None));
      (* Apply filters to the contents texture. *)
      let color_matrix :=
        match quad_filter rp with
        | Some f => default [] (asColorMatrix f)
        | None => []
        end in
      let use_color_matrix :=
        match quad_filter rp with
        | Some f => bool_decide (is_Some (asColorMatrix f)) && negb (has_input0 f)
        | None => false
        end in
      filter_bitmap ←
        match quad_filter rp with
        | Some f =>
          if use_color_matrix then mret None
          else ApplyImageFilter (Some f) contents_texture
        | None => ApplyFilters (filters rp) contents_texture
        end;
      (* Draw the background texture if there is one. *)
      match background_texture with
      | Some background_texture =>
        (* DCHECK(background_texture->size() == quad->rect.size()) *)
        lock ← lock_texture_id (res_id background_texture);
        CopyTextureToFramebuffer frame lock (rect quad) (quadTransform quad)
      | None => mret tt
      end;;
      shared ← get (fun s => SharedGeometryQuad (settings s));
      let '(device_quad, clipped) := MapQuad contents_device_transform shared in
      (* DCHECK(!clipped) *)
      let device_layer_bounds :=
        LayerQuad_of_QuadF (QuadF_of_RectF (QuadF_BoundingBox device_quad)) in
      let device_layer_edges := LayerQuad_of_QuadF device_quad in
      (* Use anti-aliasing programs only when necessary. *)
      let use_aa :=
        negb (QuadF_IsRectilinear device_quad) ||
        negb (IsNearestRectWithinDistance (QuadF_BoundingBox device_quad)
                kAntiAliasingEpsilon) in
      let device_layer_bounds :=
        if use_aa then InflateAntiAliasingDistance device_layer_bounds
        else device_layer_bounds in
      let device_layer_edges :=
        if use_aa then InflateAntiAliasingDistance device_layer_edges
        else device_layer_edges in
      mask_texture_id ←
        (if negb (mask_resource_id rp =? 0)
         then lock_texture_id (mask_resource_id rp) else mret 0);
      match filter_bitmap with
      | Some texture_handle => GLC (bindTexture GL_TEXTURE_2D texture_handle)
      | None => GLC (BindForSampling (res_id contents_texture) GL_TEXTURE_2D GL_LINEAR)
      end;;
      tex_coord_precision ←
        RequiredPrecision (Rect_bottom_right (visibleContentRect quad));
      let '(kind, taken) :=
        render_pass_variant use_aa (negb (mask_texture_id =? 0)) use_color_matrix in
      prog ← GetProgram kind tex_coord_precision;
      SetUseProgram (program prog);;
      GLC (uniform1i (location prog sampler_location) 0);;
      let shader := fun u =>
        if bool_decide (u ∈ taken) then location prog u else -1 in
      let tex_scale_x :=
        fdiv (float_of_int (r_width (rect quad)))
             (float_of_int (sz_width (res_size contents_texture))) in
      let tex_scale_y :=
        fdiv (float_of_int (r_height (rect quad)))
             (float_of_int (sz_height (res_size contents_texture))) in
      (* DCHECK_LE(tex_scale_x, 1.0f); DCHECK_LE(tex_scale_y, 1.0f) *)
      (if negb (shader tex_transform_location =? -1) then
         GLC (uniform4f (shader tex_transform_location)
                (float_lit 0) (float_lit 0) tex_scale_x tex_scale_y)
       else if negb (shader tex_scale_location =? -1) then
         GLC (uniform2f (shader tex_scale_location) tex_scale_x tex_scale_y)
       else mret tt (* DCHECK(IsContextLost()) *));;
      when (negb (shader mask_sampler_location =? -1))
        (GLC (activeTexture GL_TEXTURE1);;
         GLC (uniform1i (shader mask_sampler_location) 1);;
         GLC (uniform2f (shader mask_tex_coord_offset_location)
                (rf_x (mask_uv_rect rp)) (rf_y (mask_uv_rect rp)));;
         GLC (uniform2f (shader mask_tex_coord_scale_location)
                (fdiv (rf_width (mask_uv_rect rp)) tex_scale_x)
                (fdiv (rf_height (mask_uv_rect rp)) tex_scale_y));;
         GLC (BindForSampling (mask_resource_id rp) GL_TEXTURE_2D GL_LINEAR);;
         GLC (activeTexture GL_TEXTURE0));;
      when (negb (shader edge_location =? -1))
        (GLC (uniform3fv (shader edge_location) 8
                (LayerQuad_ToFloatArray device_layer_edges ++
                 LayerQuad_ToFloatArray device_layer_bounds)));;
      let entry := fun k : nat => nth k color_matrix (float_lit 0) in
      when (negb (shader color_matrix_location =? -1))
        (GLC (uniformMatrix4fv (shader color_matrix_location) 1 false
                (flat_map (fun i => map (fun j => entry (j * 5 + i)%nat) (seq 0 4))
                          (seq 0 4))));;
      let kScale := fdiv (float_lit 1) (float_lit 255) in
      when (negb (shader color_offset_location =? -1))
        (GLC (uniform4fv (shader color_offset_location) 1
                (map (fun i => fmul (entry (i * 5 + 4)%nat) kScale) (seq 0 4))));;
      (* Map device space quad to surface space. *)
      let surface_quad :=
        fst (MapQuad contents_device_transform_inverse
               (LayerQuad_ToQuadF device_layer_edges)) in
      SetShaderOpacity (opacity quad) (shader alpha_location);;
      SetShaderQuadF surface_quad (shader point_location);;
      DrawQuadGeometry frame (quadTransform quad) (RectF_of_Rect (rect quad))
        (shader matrix_location);;
      (* Flush the compositor context before the filter bitmap goes out of
         scope. *)
      when (bool_decide (is_Some filter_bitmap)) (GLC flush);;
      match background_texture with
      | Some background_texture => Free background_texture
      | None => mret tt
      end;;
      mret frame
  end.

(** *** The texture batching cache *)

Definition set_program_id v (c : TexturedQuadDrawCache) : TexturedQuadDrawCache :=
  {| program_id := v;
     cache_resource_id := cache_resource_id c;
     use_premultiplied_alpha := use_premultiplied_alpha c;
     cache_needs_blending := cache_needs_blending c;
     uv_xform_location := uv_xform_location c;
     cache_vertex_opacity_location := cache_vertex_opacity_location c;
     cache_matrix_location := cache_matrix_location c;
     cache_sampler_location := cache_sampler_location c;
     uv_xform_data := uv_xform_data c;
     vertex_opacity_data := vertex_opacity_data c;
     matrix_data := matrix_data c |}.

Definition set_data uv vo m (c : TexturedQuadDrawCache) : TexturedQuadDrawCache :=
  {| program_id := program_id c;
     cache_resource_id := cache_resource_id c;
     use_premultiplied_alpha := use_premultiplied_alpha c;
     cache_needs_blending := cache_needs_blending c;
     uv_xform_location := uv_xform_location c;
     cache_vertex_opacity_location := cache_vertex_opacity_location c;
     cache_matrix_location := cache_matrix_location c;
     cache_sampler_location := cache_sampler_location c;
     uv_xform_data := uv;
     vertex_opacity_data := vo;
     matrix_data := m |}.

Definition Float4_data (v : Float4) : list float :=
  let '(a, b, c, d) := v in [a; b; c; d].

Definition FlushTextureQuadCache : M unit :=
  cache ← get draw_cache_;
  (* Check to see if we have anything to draw. *)
  if program_id cache =? 0 then mret tt
  else
    (* Set the correct blending mode. *)
    SetBlendEnabled (cache_needs_blending cache);;
    (* Bind the program to the GL state. *)
    SetUseProgram (to_uint32 (program_id cache));;
    (* Bind the correct texture sampler location. *)
    GLC (uniform1i (cache_sampler_location cache) 0);;
    (* Assume the current active textures is 0. *)
    locked_quad ← lock_texture_id (to_uint32 (cache_resource_id cache));
    GLC (bindTexture GL_TEXTURE_2D locked_quad);;
    (* set up premultiplied alpha. *)
    when (negb (use_premultiplied_alpha cache))
      (GLC (blendFuncSeparate GL_SRC_ALPHA GL_ONE_MINUS_SRC_ALPHA GL_ZERO GL_ONE));;
    (* Upload the tranforms for both points and uvs. *)
    GLC (uniformMatrix4fv (cache_matrix_location cache)
           (Z.of_nat (length (matrix_data cache))) false
           (concat (matrix_data cache)));;
    GLC (uniform4fv (uv_xform_location cache)
           (Z.of_nat (length (uv_xform_data cache)))
           (flat_map Float4_data (uv_xform_data cache)));;
    GLC (uniform1fv (cache_vertex_opacity_location cache)
           (Z.of_nat (length (vertex_opacity_data cache)))
           (vertex_opacity_data cache));;
    (* Draw the quads! *)
    GLC (drawElements GL_TRIANGLES (6 * Z.of_nat (length (matrix_data cache)))
           GL_UNSIGNED_SHORT 0);;
    (* Clean up after ourselves (reset state set above). *)
    when (negb (use_premultiplied_alpha cache))
      (GLC (blendFunc GL_ONE GL_ONE_MINUS_SRC_ALPHA));;
    (* Clear the cache. *)
    modify (fun s => set_draw_cache_ (set_data [] [] [] (set_program_id 0 (draw_cache_ s))) s).

(** TexTransformTextureProgramBinding::Set: the program's GL name and the
    locations the texture routines use, as [int]s. *)
Record TexTransformTextureProgramBinding := {
  binding_program_id : Z;
  binding_sampler_location : Z;
  binding_matrix_location : Z;
  binding_alpha_location : Z;
  binding_tex_transform_location : Z;
  binding_vertex_opacity_location : Z;
}.

Definition binding_Set (prog : ProgramBinding) : TexTransformTextureProgramBinding :=
  (* DCHECK(program && (program->initialized() || context->isContextLost())) *)
  {| binding_program_id := to_int32 (program prog);
     binding_sampler_location := location prog sampler_location;
     binding_matrix_location := location prog matrix_location;
     binding_alpha_location := location prog alpha_location;
     binding_tex_transform_location := location prog tex_transform_location;
     binding_vertex_opacity_location := location prog vertex_opacity_location |}.

(** The binding a textured quad selects. *)
Definition texture_binding (quad : DrawQuad) (tq : TextureDrawQuad)
  : M TexTransformTextureProgramBinding :=
  tex_coord_precision ← RequiredPrecision (Rect_bottom_right (visibleContentRect quad));
  prog ← (if flipped tq then GetTextureProgramFlip tex_coord_precision
           else GetTextureProgram tex_coord_precision);
  mret (binding_Set prog).

(** The test that decides whether the quad can join the batch in the cache. *)
Definition must_flush (cache : TexturedQuadDrawCache)
    (binding : TexTransformTextureProgramBinding) (resource : Z)
    (premultiplied needs_blend : bool) : bool :=
  negb (program_id cache =? binding_program_id binding) ||
  negb (cache_resource_id cache =? resource) ||
  negb (eqb (use_premultiplied_alpha cache) premultiplied) ||
  negb (eqb (cache_needs_blending cache) needs_blend) ||
  (8 <=? Z.of_nat (length (matrix_data cache))).

Definition start_batch (binding : TexTransformTextureProgramBinding)
    (resource : Z) (premultiplied needs_blend : bool)
    (c : TexturedQuadDrawCache) : TexturedQuadDrawCache :=
  {| program_id := binding_program_id binding;
     cache_resource_id := resource;
     use_premultiplied_alpha := premultiplied;
     cache_needs_blending := needs_blend;
     uv_xform_location := binding_tex_transform_location binding;
     cache_vertex_opacity_location := binding_vertex_opacity_location binding;
     cache_matrix_location := binding_matrix_location binding;
     cache_sampler_location := binding_sampler_location binding;
     uv_xform_data := uv_xform_data c;
     vertex_opacity_data := vertex_opacity_data c;
     matrix_data := matrix_data c |}.

Definition EnqueueTextureQuad (frame : DrawingFrame) (quad : DrawQuad)
    (tq : TextureDrawQuad) : M unit :=
  (* Choose the correct texture program binding *)
  binding ← texture_binding quad tq;
  let resource := to_int32 (resource_id tq) in
  cache ← get draw_cache_;
  when (must_flush cache binding resource (premultiplied_alpha tq)
          (ShouldDrawWithBlending quad))
    (FlushTextureQuadCache;;
     modify (fun s => set_draw_cache_
               (start_batch binding resource (premultiplied_alpha tq)
                  (ShouldDrawWithBlending quad) (draw_cache_ s)) s));;
  (* Generate the uv-transform *)
  let uv0 := uv_top_left tq in
  let uv1 := uv_bottom_right tq in
  let uv : Float4 :=
    (pf_x uv0, pf_y uv0, fsub (pf_x uv1) (pf_x uv0), fsub (pf_y uv1) (pf_y uv0)) in
  (* Generate the vertex opacity *)
  let opacity := opacity quad in
  let '(vo0, vo1, vo2, vo3) := vertex_opacity tq in
  (* Generate the transform matrix *)
  let quad_rect_matrix :=
    QuadRectTransform (quadTransform quad) (RectF_of_Rect (rect quad)) in
  let quad_rect_matrix := Transform_mul (projection_matrix frame) quad_rect_matrix in
  let m : Float16 := asColMajorf quad_rect_matrix in
  modify (fun s =>
    let c := draw_cache_ s in
    set_draw_cache_
      (set_data (uv_xform_data c ++ [uv])
         (vertex_opacity_data c ++
          [fmul vo0 opacity; fmul vo1 opacity; fmul vo2 opacity; fmul vo3 opacity])
         (matrix_data c ++ [m]) c) s).

(** The unbatched way of drawing a textured quad. *)
Definition DrawTextureQuad (frame : DrawingFrame) (quad : DrawQuad)
    (tq : TextureDrawQuad) : M unit :=
  binding ← texture_binding quad tq;
  SetUseProgram (to_uint32 (binding_program_id binding));;
  GLC (uniform1i (binding_sampler_location binding) 0);;
  let uv0 := uv_top_left tq in
  let uv1 := uv_bottom_right tq in
  GLC (uniform4f (binding_tex_transform_location binding)
         (pf_x uv0) (pf_y uv0) (fsub (pf_x uv1) (pf_x uv0)) (fsub (pf_y uv1) (pf_y uv0)));;
  let '(vo0, vo1, vo2, vo3) := vertex_opacity tq in
  GLC (uniform1fv (binding_vertex_opacity_location binding) 4 [vo0; vo1; vo2; vo3]);;
  GLC (BindForSampling (resource_id tq) GL_TEXTURE_2D GL_LINEAR);;
  when (negb (premultiplied_alpha tq))
    (GLC (blendFuncSeparate GL_SRC_ALPHA GL_ONE_MINUS_SRC_ALPHA GL_ZERO GL_ONE));;
  DrawQuadGeometry frame (quadTransform quad) (RectF_of_Rect (rect quad))
    (binding_matrix_location binding);;
  when (negb (premultiplied_alpha tq))
    (GLC (blendFunc GL_ONE GL_ONE_MINUS_SRC_ALPHA)).

(** *** Video and IOSurface quads *)

Definition DrawYUVVideoQuad (frame : DrawingFrame) (quad : DrawQuad)
    (tex_scale : SizeF float) (y_plane u_plane v_plane : ResourceId) : M unit :=
  SetBlendEnabled (ShouldDrawWithBlending quad);;
  tex_coord_precision ← RequiredPrecision (Rect_bottom_right (visibleContentRect quad));
  prog ← GetVideoYUVProgram tex_coord_precision;
  (* DCHECK(program && (program->initialized() || IsContextLost())) *)
  GLC (activeTexture GL_TEXTURE1);;
  GLC (BindForSampling y_plane GL_TEXTURE_2D GL_LINEAR);;
  GLC (activeTexture GL_TEXTURE2);;
  GLC (BindForSampling u_plane GL_TEXTURE_2D GL_LINEAR);;
  GLC (activeTexture GL_TEXTURE3);;
  GLC (BindForSampling v_plane GL_TEXTURE_2D GL_LINEAR);;
  SetUseProgram (program prog);;
  GLC (uniform2f (location prog tex_scale_location)
         (sf_width tex_scale) (sf_height tex_scale));;
  GLC (uniform1i (location prog y_texture_location) 1);;
  GLC (uniform1i (location prog u_texture_location) 2);;
  GLC (uniform1i (location prog v_texture_location) 3);;
  (* These values are magic numbers that are used in the transformation from
     YUV to RGB color values. *)
  let yuv_to_rgb :=
    [float_lit 1.164; float_lit 1.164; float_lit 1.164;
     float_lit 0; float_lit (-0.391); float_lit 2.018;
     float_lit 1.596; float_lit (-0.813); float_lit 0] in
  GLC (uniformMatrix3fv (location prog yuv_matrix_location) 1 false yuv_to_rgb);;
  (* These values map to 16, 128, and 128 respectively, and are computed as
     a fraction over 256. *)
  let yuv_adjust := [float_lit (-0.0625); float_lit (-0.5); float_lit (-0.5)] in
  GLC (uniform3fv (location prog yuv_adj_location) 1 yuv_adjust);;
  SetShaderOpacity (opacity quad) (location prog alpha_location);;
  DrawQuadGeometry frame (quadTransform quad) (RectF_of_Rect (rect quad))
    (location prog matrix_location);;
  (* Reset active texture back to texture 0. *)
  GLC (activeTexture GL_TEXTURE0).

Definition DrawStreamVideoQuad (frame : DrawingFrame) (quad : DrawQuad)
    (resource : ResourceId) (matrix : Transform) : M unit :=
  SetBlendEnabled (ShouldDrawWithBlending quad);;
  (* DCHECK(capabilities_.using_egl_image) *)
  tex_coord_precision ← RequiredPrecision (Rect_bottom_right (visibleContentRect quad));
  prog ← GetVideoStreamTextureProgram tex_coord_precision;
  match prog with
  | None => crash
  | Some prog =>
    SetUseProgram (program prog);;
    GLC (uniformMatrix4fv (location prog tex_matrix_location) 1 false
           (ToGLMatrix matrix));;
    lock ← lock_texture_id resource;
    GLC (bindTexture GL_TEXTURE_EXTERNAL_OES lock);;
    GLC (uniform1i (location prog sampler_location) 0);;
    SetShaderOpacity (opacity quad) (location prog alpha_location);;
    DrawQuadGeometry frame (quadTransform quad) (RectF_of_Rect (rect quad))
      (location prog matrix_location)
  end.

Definition DrawIOSurfaceQuad (frame : DrawingFrame) (quad : DrawQuad)
    (io_surface_size : Size) (io_surface_resource_id : ResourceId)
    (orientation : IOSurfaceOrientation) : M unit :=
  SetBlendEnabled (ShouldDrawWithBlending quad);;
  tex_coord_precision ← RequiredPrecision (Rect_bottom_right (visibleContentRect quad));
  prog ← GetTextureIOSurfaceProgram tex_coord_precision;
  let binding := binding_Set prog in
  SetUseProgram (to_uint32 (binding_program_id binding));;
  GLC (uniform1i (binding_sampler_location binding) 0);;
  match orientation with
  | FLIPPED =>
    GLC (uniform4f (binding_tex_transform_location binding)
           (float_of_int 0)
           (float_of_int (sz_height io_surface_size))
           (float_of_int (sz_width io_surface_size))
           (fmul (float_of_int (sz_height io_surface_size)) (float_lit (-1))))
  | UNFLIPPED =>
    GLC (uniform4f (binding_tex_transform_location binding)
           (float_of_int 0) (float_of_int 0)
           (float_of_int (sz_width io_surface_size))
           (float_of_int (sz_height io_surface_size)))
  end;;
  GLC (uniform1fv (binding_vertex_opacity_location binding) 4
         [opacity quad; opacity quad; opacity quad; opacity quad]);;
  lock ← lock_texture_id io_surface_resource_id;
  GLC (bindTexture GL_TEXTURE_RECTANGLE_ARB lock);;
  DrawQuadGeometry frame (quadTransform quad) (RectF_of_Rect (rect quad))
    (binding_matrix_location binding);;
  GLC (bindTexture GL_TEXTURE_RECTANGLE_ARB 0).

(** *** Dispatch *)

(** The switch of [DoDrawQuad]: one routine per material. *)
Definition DrawMaterial (frame : DrawingFrame) (quad : DrawQuad) : M DrawingFrame :=
  match material quad with
  | INVALID => (* NOTREACHED() *) mret frame
  | CHECKERBOARD color => DrawCheckerboardQuad frame quad color;; mret frame
  | DEBUG_BORDER color width => DrawDebugBorderQuad frame quad color width;; mret frame
  | IO_SURFACE_CONTENT size resource orientation =>
    DrawIOSurfaceQuad frame quad size resource orientation;; mret frame
  | PICTURE_CONTENT picture => DrawPictureQuad frame quad picture;; mret frame
  | RENDER_PASS rp => DrawRenderPassQuad frame quad rp
  | SOLID_COLOR color => DrawSolidColorQuad frame quad color;; mret frame
  | STREAM_VIDEO_CONTENT resource matrix =>
    DrawStreamVideoQuad frame quad resource matrix;; mret frame
  | TEXTURE_CONTENT tq => EnqueueTextureQuad frame quad tq;; mret frame
  | TILED_CONTENT base resource => DrawTileQuad frame quad base resource;; mret frame
  | YUV_VIDEO_CONTENT tex_scale y u v =>
    DrawYUVVideoQuad frame quad tex_scale y u v;; mret frame
  end.

Definition DoDrawQuad (frame : DrawingFrame) (quad : DrawQuad) : M DrawingFrame :=
  (* DCHECK(quad->rect.Contains(quad->visible_rect)) *)
  when (negb (is_TEXTURE_CONTENT (material quad))) FlushTextureQuadCache;;
  DrawMaterial frame quad.

Definition FinishDrawingQuadList : M unit := FlushTextureQuadCache.

(** *** Scissor state *)

Definition EnsureScissorTestEnabled : M unit :=
  enabled ← get is_scissor_enabled_;
  if (enabled : bool) then mret tt
  else
    FlushTextureQuadCache;;
    GLC (enable GL_SCISSOR_TEST);;
    modify (set_is_scissor_enabled_ true).

Definition EnsureScissorTestDisabled : M unit :=
  enabled ← get is_scissor_enabled_;
  if negb enabled then mret tt
  else
    FlushTextureQuadCache;;
    GLC (disable GL_SCISSOR_TEST);;
    modify (set_is_scissor_enabled_ false).

Definition SetScissorTestRect (scissor_rect : Rect) : M unit :=
  EnsureScissorTestEnabled;;
  (* Don't unnecessarily ask the context to change the scissor, because it
     may cause undesired GPU pipeline flushes. *)
  current ← get scissor_rect_;
  if Rect_eqb scissor_rect current then mret tt
  else
    modify (set_scissor_rect_ scissor_rect);;
    FlushTextureQuadCache;;
    GLC (scissor (r_x scissor_rect) (r_y scissor_rect)
           (r_width scissor_rect) (r_height scissor_rect)).

(** *** Start of a frame *)

Definition EnsureBackbuffer : M unit :=
  discarded ← get is_backbuffer_discarded_;
  if negb discarded then mret tt
  else
    GLC OutputSurface_EnsureBackbuffer;;
    modify (set_is_backbuffer_discarded_ false).

Definition BeginDrawingFrame (frame : DrawingFrame) : M unit :=
  EnsureBackbuffer;;
  size ← get (fun s => ViewportSize (settings s));
  if (sz_width size <=? 0) || (sz_height size <=? 0) then mret tt
  else
    changed ← get is_viewport_changed_;
    when changed
      ((* Only reshape when we know we are going to draw. *)
       modify (set_is_viewport_changed_ false);;
       GLC (OutputSurface_Reshape size));;
    GLC makeContextCurrent;;
    (* Bind the common vertex attributes used for drawing all the layers. *)
    GLC PrepareForDraw;;
    GLC (disable GL_DEPTH_TEST);;
    GLC (disable GL_CULL_FACE);;
    GLC (colorMask true true true true);;
    GLC (enable GL_BLEND);;
    modify (set_blend_shadow_ true);;
    GLC (blendFunc GL_ONE GL_ONE_MINUS_SRC_ALPHA);;
    GLC (activeTexture GL_TEXTURE0);;
    modify (set_program_shadow_ 0).

(** * Vocabulary of the properties *)

Definition is_blend_toggle (c : Call) : Prop :=
  c = enable GL_BLEND \/ c = disable GL_BLEND.

(** [emits s s' l]: going from [s] to [s'] issued exactly the calls [l] and
    left the draw state, the batching cache and the tables alone. *)
Definition emits (s s' : GLRenderer) (l : list Call) : Prop :=
  calls s' = calls s ++ l /\
  blend_shadow_ s' = blend_shadow_ s /\
  draw_cache_ s' = draw_cache_ s /\
  render_pass_textures_ s' = render_pass_textures_ s /\
  settings s' = settings s.

(** The pass a render pass quad refers to has no usable texture. *)
Definition texture_missing (s : GLRenderer) (rp : RenderPassDrawQuad) : Prop :=
  render_pass_textures_ s !! render_pass_id rp = None \/
  exists t, render_pass_textures_ s !! render_pass_id rp = Some t /\ res_id t = 0.

Definition respects (R : relation GLRenderer) {A} (m : M A) : Prop :=
  forall s a s', m s = Some (a, s') -> R s s'.

Definition total {A} (m : M A) : Prop := forall s, is_Some (m s).

(** The blend shadow is left alone. *)
Definition same_blend : relation GLRenderer :=
  fun s s' => blend_shadow_ s' = blend_shadow_ s.

(** [leaves_blend b m]: [m] returns, and with the blend shadow at [b]. *)
Definition leaves_blend (b : bool) {A} (m : M A) : Prop :=
  forall s, exists a s', m s = Some (a, s') /\ blend_shadow_ s' = b.

(** What the anti-aliasing set-up answers for the quad, as the two routines
    call it. *)
Definition use_aa_of (frame : DrawingFrame) (quad : DrawQuad) : bool :=
  fst (fst (SetupQuadForAntialiasing
              (device_transform_of frame (quadTransform quad)) quad
              (QuadF_of_Rect (visible_rect quad)) [])).

Definition cache_empty (c : TexturedQuadDrawCache) : Prop :=
  program_id c = 0 /\ uv_xform_data c = [] /\
  vertex_opacity_data c = [] /\ matrix_data c = [].

Definition TexturedQuad := (DrawQuad * TextureDrawQuad)%type.

(** The program a textured quad selects: the flipped or the plain texture
    program, in the precision its visible content rect requires. *)
Definition selected_program (cfg : Settings) (q : TexturedQuad) : ProgramBinding :=
  programs cfg
    (if flipped (snd q) then TextureProgramFlip else TextureProgram)
    (slot (TexCoordPrecisionRequired (highp_threshold_min_ cfg)
             (Rect_bottom_right (visibleContentRect (fst q))))).

(** Batch compatibility as [EnqueueTextureQuad] tests it: same GL name of
    the selected program (binding.program_id), same texture resource, same
    premultiplied-alpha flag, same blending requirement. *)
Definition batch_compatible (cfg : Settings) (a b : TexturedQuad) : Prop :=
  program (selected_program cfg a) = program (selected_program cfg b) /\
  resource_id (snd a) = resource_id (snd b) /\
  premultiplied_alpha (snd a) = premultiplied_alpha (snd b) /\
  ShouldDrawWithBlending (fst a) = ShouldDrawWithBlending (fst b).

(** The program variant a textured quad selects: which of the two texture
    programs, and in which precision. *)
Definition selected_variant (cfg : Settings) (q : TexturedQuad)
  : ProgramKind * TexCoordPrecision :=
  (if flipped (snd q) then TextureProgramFlip else TextureProgram,
   slot (TexCoordPrecisionRequired (highp_threshold_min_ cfg)
           (Rect_bottom_right (visibleContentRect (fst q))))).

(** Agreement on the selected program variant, the texture resource, the
    premultiplied-alpha flag and the blending requirement. *)
Definition variant_compatible (cfg : Settings) (a b : TexturedQuad) : Prop :=
  selected_variant cfg a = selected_variant cfg b /\
  resource_id (snd a) = resource_id (snd b) /\
  premultiplied_alpha (snd a) = premultiplied_alpha (snd b) /\
  ShouldDrawWithBlending (fst a) = ShouldDrawWithBlending (fst b).

(** The GL names tell the variants of the texture program apart: the plain
    and the flipped program, in either precision, have four different
    names. *)
Definition names_tell_variants_apart (cfg : Settings) : Prop :=
  forall k k' p p',
    k = TextureProgram \/ k = TextureProgramFlip ->
    k' = TextureProgram \/ k' = TextureProgramFlip ->
    program (programs cfg k (slot p)) = program (programs cfg k' (slot p')) ->
    k = k' /\ slot p = slot p'.

(** The program name and the resource id of the quad are [unsigned]. *)
Definition well_formed (cfg : Settings) (q : TexturedQuad) : Prop :=
  is_uint32 (program (selected_program cfg q)) /\ is_uint32 (resource_id (snd q)).

(** The cache with the data of one more quad. *)
Definition append_quad (frame : DrawingFrame) (q : TexturedQuad)
    (c : TexturedQuadDrawCache) : TexturedQuadDrawCache :=
  let '(quad, tq) := q in
  let uv0 := uv_top_left tq in
  let uv1 := uv_bottom_right tq in
  let '(vo0, vo1, vo2, vo3) := vertex_opacity tq in
  set_data
    (uv_xform_data c ++
     [(pf_x uv0, pf_y uv0, fsub (pf_x uv1) (pf_x uv0), fsub (pf_y uv1) (pf_y uv0))])
    (vertex_opacity_data c ++
     [fmul vo0 (opacity quad); fmul vo1 (opacity quad);
      fmul vo2 (opacity quad); fmul vo3 (opacity quad)])
    (matrix_data c ++
     [asColMajorf
        (Transform_mul (projection_matrix frame)
           (QuadRectTransform (quadTransform quad) (RectF_of_Rect (rect quad))))])
    c.

(** The test of [EnqueueTextureQuad], for a quad and the cache it meets. *)
Definition flushes_first (cfg : Settings) (c : TexturedQuadDrawCache)
    (q : TexturedQuad) : bool :=
  must_flush c (binding_Set (selected_program cfg q))
    (to_int32 (resource_id (snd q))) (premultiplied_alpha (snd q))
    (ShouldDrawWithBlending (fst q)).

Definition new_batch (cfg : Settings) (q : TexturedQuad)
    (c : TexturedQuadDrawCache) : TexturedQuadDrawCache :=
  start_batch (binding_Set (selected_program cfg q))
    (to_int32 (resource_id (snd q))) (premultiplied_alpha (snd q))
    (ShouldDrawWithBlending (fst q)) c.

Fixpoint enqueue_all (frame : DrawingFrame) (qs : list TexturedQuad) : M unit :=
  match qs with
  | [] => mret tt
  | q :: qs => EnqueueTextureQuad frame (fst q) (snd q);; enqueue_all frame qs
  end.

(** The cache holds a batch of [n] quads that [q] is compatible with. *)
Definition holds_batch (cfg : Settings) (c : TexturedQuadDrawCache)
    (q : TexturedQuad) (n : nat) : Prop :=
  program_id c = to_int32 (program (selected_program cfg q)) /\
  cache_resource_id c = to_int32 (resource_id (snd q)) /\
  use_premultiplied_alpha c = premultiplied_alpha (snd q) /\
  cache_needs_blending c = ShouldDrawWithBlending (fst q) /\
  length (matrix_data c) = n.

(** [untouched s s']: the batching cache is the same in [s'] as in [s], and
    every call issued in between was issued with the cache as it is in
    [s]. *)
Definition untouched : relation GLRenderer :=
  fun s s' =>
    draw_cache_ s' = draw_cache_ s /\
    exists l, context_ s' = context_ s ++ l /\
              Forall (fun i => issued_with i = draw_cache_ s) l.

(** The cache is well formed: when its program id is 0 its arrays are
    empty.  This holds of the empty cache, and keeps holding as long as the
    textured quads that are enqueued select programs whose GL name is not
    0. *)
Definition cache_wf (c : TexturedQuadDrawCache) : Prop :=
  program_id c = 0 -> cache_empty c.

Definition is_scissor_change (c : Call) : Prop :=
  c = enable GL_SCISSOR_TEST \/ c = disable GL_SCISSOR_TEST \/
  exists x y w h, c = scissor x y w h.

(** The entries [l] are those of a flush: no scissor change among them. *)
Definition flush_entries (l : list Issued) : Prop :=
  Forall (fun i => ~ is_scissor_change (call i)) l.

Definition scissor_changes_on_empty_cache (l : list Issued) : Prop :=
  Forall (fun i => is_scissor_change (call i) -> cache_empty (issued_with i)) l.

(** The device-space quad of [SetupQuadForAntialiasing]. *)
Definition device_layer_quad_of (device_transform : Transform) (quad : DrawQuad)
  : QuadF float :=
  fst (MapQuad device_transform (QuadF_of_Rect (visibleContentRect quad))).

(** ** GL state as the trace leaves it *)

(** The value the last call of [l] that sets a piece of context state gave
    it, if there is such a call. *)
Definition last_set {A} (sets : Call -> option A) (l : list Call) : option A :=
  fold_left (fun acc c => match sets c with Some v => Some v | None => acc end)
    l None.

(** The state of the context after the calls [l], from its [initial]
    value. *)
Definition gl_state {A} (sets : Call -> option A) (initial : A) (l : list Call) : A :=
  default initial (last_set sets l).

Definition sets_blend (c : Call) : option bool :=
  match c with
  | enable GL_BLEND => Some true
  | disable GL_BLEND => Some false
  | _ => None
  end.

Definition sets_program (c : Call) : option Z :=
  match c with useProgram name => Some name | _ => None end.

Definition sets_scissor_test (c : Call) : option bool :=
  match c with
  | enable GL_SCISSOR_TEST => Some true
  | disable GL_SCISSOR_TEST => Some false
  | _ => None
  end.

Definition sets_scissor_rect (c : Call) : option Rect :=
  match c with scissor x y w h => Some (mkRect x y w h) | _ => None end.

Definition sets_active_texture (c : Call) : option GLenum :=
  match c with activeTexture t => Some t | _ => None end.

Definition sets_blend_func (c : Call) : option (GLenum * GLenum * GLenum * GLenum) :=
  match c with
  | blendFunc s d => Some (s, d, s, d)
  | blendFuncSeparate s d sa da => Some (s, d, sa, da)
  | _ => None
  end.

(** The blend function of premultiplied alpha, which [BeginDrawingFrame]
    sets. *)
Definition premultiplied_blend : GLenum * GLenum * GLenum * GLenum :=
  (GL_ONE, GL_ONE_MINUS_SRC_ALPHA, GL_ONE, GL_ONE_MINUS_SRC_ALPHA).

(** The active texture unit of the context ([GL_TEXTURE0] in a new
    context). *)
Definition active_texture (s : GLRenderer) : GLenum :=
  gl_state sets_active_texture GL_TEXTURE0 (calls s).

(** The blend function of the context ([GL_ONE], [GL_ZERO] in a new
    context). *)
Definition blend_func (s : GLRenderer) : GLenum * GLenum * GLenum * GLenum :=
  gl_state sets_blend_func (GL_ONE, GL_ZERO, GL_ONE, GL_ZERO) (calls s).

(** [on_return m s Q]: if [m] returns when run from [s], its result and the
    renderer it leaves satisfy [Q]. *)
Definition on_return {A} (m : M A) (s : GLRenderer)
    (Q : A -> GLRenderer -> Prop) : Prop :=
  match m s with Some (a, s') => Q a s' | None => True end.

(** [triple I m J]: run from a renderer that satisfies [I], [m] can only
    return with one that satisfies [J]. *)
Definition triple {A} (I : GLRenderer -> Prop) (m : M A)
    (J : GLRenderer -> Prop) : Prop :=
  forall s a s', I s -> m s = Some (a, s') -> J s'.

(** The blend shadow is the blend state of the context. *)
Definition blend_in_sync (s : GLRenderer) : Prop :=
  last_set sets_blend (calls s) = Some (blend_shadow_ s).

(** The program shadow is 0 (no program known to be in use) or the program
    the context uses. *)
Definition program_in_sync (s : GLRenderer) : Prop :=
  program_shadow_ s = 0 \/
  last_set sets_program (calls s) = Some (program_shadow_ s).

(** The scissor flag is the scissor test of the context, and the scissor
    rect is the one the context was last given, if it was given one. *)
Definition scissor_in_sync (s : GLRenderer) : Prop :=
  last_set sets_scissor_test (calls s) = Some (is_scissor_enabled_ s) /\
  (last_set sets_scissor_rect (calls s) = None \/
   last_set sets_scissor_rect (calls s) = Some (scissor_rect_ s)).

(** [scissor_kept s s']: the scissor flag and rect are the same in [s'] as
    in [s] and no call issued in between is a scissor change. *)
Definition scissor_kept : relation GLRenderer :=
  fun s s' =>
    is_scissor_enabled_ s' = is_scissor_enabled_ s /\
    scissor_rect_ s' = scissor_rect_ s /\
    exists l, calls s' = calls s ++ l /\
              Forall (fun c => ~ is_scissor_change c) l.

(** The draw calls issued so far are [l]. *)
Definition drew (l : list Call) (s : GLRenderer) : Prop := draw_calls s = l.

Definition active_texture_is (t : GLenum) (s : GLRenderer) : Prop :=
  active_texture s = t.

Definition blend_func_is (f : GLenum * GLenum * GLenum * GLenum)
    (s : GLRenderer) : Prop :=
  blend_func s = f.

(** The cache is consistent: its program id is 0 exactly when it holds no
    quad, it holds one uv transform and four vertex opacities for every
    matrix, and at most 8 matrices. *)
Definition cache_consistent (c : TexturedQuadDrawCache) : Prop :=
  (program_id c = 0 <-> matrix_data c = []) /\
  length (uv_xform_data c) = length (matrix_data c) /\
  length (vertex_opacity_data c) = (4 * length (matrix_data c))%nat /\
  (length (matrix_data c) <= 8)%nat.

(** What a flush of the cache [c] adds to the draw calls: nothing when the
    program id is 0, else one draw call of six indices for each quad. *)
Definition flush_draws (c : TexturedQuadDrawCache) : list Call :=
  if program_id c =? 0 then []
  else [drawElements GL_TRIANGLES (6 * Z.of_nat (length (matrix_data c)))
          GL_UNSIGNED_SHORT 0].

(** The viewport has no pixel (gfx::Size::IsEmpty). *)
Definition Size_IsEmpty (size : Size) : bool :=
  (sz_width size <=? 0) || (sz_height size <=? 0).


(** ** Reading pixels back

    The copy loop of [GetFramebufferPixels]: from [src_pixels], the bytes
    that readPixels delivered (bottom row first, BGRA), to the caller's
    buffer [pixels] (top row first, RGBA).  [size_t] is an unsigned integer
    of [bits] bits; the int product rect.width() * 4 is taken exact, its
    overflow being undefined in the source; an access outside an array is a
    failure.  The loops are given the number of iterations they may take; a
    loop that would need more fails. *)

Definition to_size_t (bits z : Z) : Z := z mod 2 ^ bits.

Definition load (a : list Z) (i : Z) : option Z :=
  if i <? 0 then None else a !! Z.to_nat i.

Definition store (a : list Z) (i v : Z) : option (list Z) :=
  if (0 <=? i) && (i <? Z.of_nat (length a))
  then Some (<[Z.to_nat i := v]> a) else None.

(** for (i = start; i < bound; i = next i) body *)
Fixpoint for_loop {St} (fuel : nat) (next : Z -> Z) (bound : Z)
    (body : Z -> St -> option St) (i : Z) (s : St) : option St :=
  match fuel with
  | O => None
  | S fuel =>
    if i <? bound then
      match body i s with
      | Some s' => for_loop fuel next bound body (next i) s'
      | None => None
      end
    else Some s
  end.

(** One pixel: swizzle BGRA -> RGBA. *)
Definition copy_pixel (bits : Z) (src_pixels : list Z) (src_y dest_y x : Z)
    (dest_pixels : list Z) : option (list Z) :=
  let plus a b := to_size_t bits (a + b) in
  b0 ← load src_pixels (plus src_y (plus x 2));
  dest_pixels ← store dest_pixels (plus dest_y (plus x 0)) b0;
  b1 ← load src_pixels (plus src_y (plus x 1));
  dest_pixels ← store dest_pixels (plus dest_y (plus x 1)) b1;
  b2 ← load src_pixels (plus src_y (plus x 0));
  dest_pixels ← store dest_pixels (plus dest_y (plus x 2)) b2;
  b3 ← load src_pixels (plus src_y (plus x 3));
  store dest_pixels (plus dest_y (plus x 3)) b3.

Definition copy_pixels (bits : Z) (rect : Rect) (src_pixels : list Z)
    (dest_pixels : list Z) : option (list Z) :=
  let row_bytes := to_size_t bits (r_width rect * 4) in
  let num_rows := r_height rect in
  let total_bytes := to_size_t bits (to_size_t bits num_rows * row_bytes) in
  for_loop (S (Z.to_nat total_bytes))
    (fun dest_y => to_size_t bits (dest_y + row_bytes)) total_bytes
    (fun dest_y dest_pixels =>
       (* Flip Y axis. *)
       let src_y :=
         to_size_t bits (to_size_t bits (total_bytes - dest_y) - row_bytes) in
       for_loop (S (Z.to_nat row_bytes))
         (fun x => to_size_t bits (x + 4)) row_bytes
         (copy_pixel bits src_pixels src_y dest_y) 0 dest_pixels)
    0 dest_pixels.

(** The channel of the source a channel of the destination comes from. *)
Definition swizzled (c : Z) : Z := if c =? 0 then 2 else if c =? 2 then 0 else c.

(** The byte of channel [c] of the pixel in column [x] of row [y], in an
    array of rows of [width] pixels. *)
Definition byte_at (a : list Z) (width x y c : Z) : option Z :=
  a !! Z.to_nat (4 * (y * width + x) + c).

(** *** Which context is current

    The filters of a render pass are evaluated by Skia on the off-screen
    context; the calls of the renderer on [context_] are meant for the
    compositor's context. *)

(** The context that a call makes current: the compositor's ([true]) or the
    off-screen one ([false]). *)
Definition makes_current (c : Call) : option bool :=
  match c with
  | makeContextCurrent => Some true
  | Offscreen_makeContextCurrent => Some false
  | _ => None
  end.

(** The calls on [context_] other than makeContextCurrent. *)
Definition on_compositor_context (c : Call) : bool :=
  match c with
  | enable _ | disable _ | colorMask _ _ _ _ | blendFunc _ _
  | blendFuncSeparate _ _ _ _ | activeTexture _ | bindTexture _ _
  | useProgram _ | uniform1i _ _ | uniform1f _ _ | uniform2f _ _ _
  | uniform4f _ _ _ _ _ | uniform1fv _ _ _ | uniform2fv _ _ _
  | uniform3fv _ _ _ | uniform4fv _ _ _ | uniformMatrix3fv _ _ _ _
  | uniformMatrix4fv _ _ _ _ | lineWidth _ | drawElements _ _ _ _
  | clearColor _ _ _ _ | clear _ | flush | bindFramebuffer _ _
  | framebufferTexture2D _ _ _ _ _ | copyTexImage2D _ _ _ _ _ _ _ _
  | scissor _ _ _ _ | viewport _ _ _ _ => true
  | _ => false
  end.

(** [context_run l]: the context that is current after the calls [l], when
    the compositor's was current before them, and whether every call on
    [context_] among them came while the compositor's context was
    current. *)
Definition context_run (l : list Call) : bool * bool :=
  fold_left
    (fun state c =>
       (default state.1 (makes_current c),
        state.2 && implb (on_compositor_context c) state.1))
    l (true, true).

(** No call so far went to a context that was not current, and the current
    context is now the compositor's ([current = true]) or the off-screen
    one. *)
Definition context_discipline (current : bool) (s : GLRenderer) : Prop :=
  context_run (calls s) = (current, true).

(** The calls issued so far begin with [p]. *)
Definition starts_with (p : list Call) (s : GLRenderer) : Prop :=
  exists l, calls s = p ++ l.

(** ** The life cycle: visibility, memory policy and swaps

    The members of GLRenderer that the drawing code above does not use are
    kept beside the renderer, in [Host].  What the renderer asks of its
    client and of its output surface here, and setVisibilityCHROMIUM on the
    context, is recorded in [requests_], each request with the number of
    calls that the context had received before it. *)

(** WebKit::WebGraphicsMemoryAllocation::PriorityCutoff *)
Inductive WebPriorityCutoff :=
  | PriorityCutoffAllowNothing
  | PriorityCutoffAllowVisibleOnly
  | PriorityCutoffAllowVisibleAndNearby
  | PriorityCutoffAllowEverything.

(** ManagedMemoryPolicy::PriorityCutoff *)
Inductive ManagedPriorityCutoff :=
  | CUTOFF_ALLOW_NOTHING
  | CUTOFF_ALLOW_REQUIRED_ONLY
  | CUTOFF_ALLOW_NICE_TO_HAVE
  | CUTOFF_ALLOW_EVERYTHING.

Record WebGraphicsMemoryAllocation := {
  bytesLimitWhenVisible : Z;                         (* size_t *)
  priorityCutoffWhenVisible : WebPriorityCutoff;
  bytesLimitWhenNotVisible : Z;
  priorityCutoffWhenNotVisible : WebPriorityCutoff;
  suggestHaveBackbuffer : bool;
  enforceButDoNotKeepAsPolicy : bool;
}.

(** The four arguments of the constructor of ManagedMemoryPolicy. *)
Record ManagedMemoryPolicy := mkManagedMemoryPolicy {
  bytes_limit_when_visible : Z;
  priority_cutoff_when_visible : ManagedPriorityCutoff;
  bytes_limit_when_not_visible : Z;
  priority_cutoff_when_not_visible : ManagedPriorityCutoff;
}.

(** ui::LatencyInfo is handed on as it comes. *)
Definition LatencyInfo := Z.

(** The address of a fence: ResourceProvider::Fence objects are shared
    between the renderer, the resource provider and the resources. *)
Definition Fence := nat.

Inductive Request :=
  | setVisibilityCHROMIUM (visible : bool)
  | OutputSurface_DiscardBackbuffer
  | SetFullRootLayerDamage
  | EnforceManagedMemoryPolicy (policy : ManagedMemoryPolicy)
  | SetManagedMemoryPolicy (policy : ManagedMemoryPolicy)
  | PostSubBuffer (rect : Rect) (latency_info : LatencyInfo)
  | OutputSurface_SwapBuffers (latency_info : LatencyInfo).

Record Requested := {
  request : Request;
  after_calls : nat;
}.

Record Host := mkHost {
  gl : GLRenderer;
  visible_ : bool;
  discard_backbuffer_when_not_visible_ : bool;
  swap_buffer_rect_ : Rect;
  last_swap_fence_ : option Fence;
  (* has_passed_ of the SimpleSwapFence at each address *)
  fences_ : list bool;
  requests_ : list Requested;
  using_partial_swap : bool;          (* capabilities_.using_partial_swap *)
  using_set_visibility : bool;        (* capabilities_.using_set_visibility *)
  AllowPartialSwap : bool;            (* client_->AllowPartialSwap() *)
}.

Definition set_gl v (h : Host) : Host :=
  mkHost v (visible_ h) (discard_backbuffer_when_not_visible_ h)
    (swap_buffer_rect_ h) (last_swap_fence_ h) (fences_ h) (requests_ h)
    (using_partial_swap h) (using_set_visibility h) (AllowPartialSwap h).
Definition set_visible_ v (h : Host) : Host :=
  mkHost (gl h) v (discard_backbuffer_when_not_visible_ h)
    (swap_buffer_rect_ h) (last_swap_fence_ h) (fences_ h) (requests_ h)
    (using_partial_swap h) (using_set_visibility h) (AllowPartialSwap h).
Definition set_discard_backbuffer_when_not_visible_ v (h : Host) : Host :=
  mkHost (gl h) (visible_ h) v
    (swap_buffer_rect_ h) (last_swap_fence_ h) (fences_ h) (requests_ h)
    (using_partial_swap h) (using_set_visibility h) (AllowPartialSwap h).
Definition set_swap_buffer_rect_ v (h : Host) : Host :=
  mkHost (gl h) (visible_ h) (discard_backbuffer_when_not_visible_ h)
    v (last_swap_fence_ h) (fences_ h) (requests_ h)
    (using_partial_swap h) (using_set_visibility h) (AllowPartialSwap h).
Definition set_last_swap_fence_ v (h : Host) : Host :=
  mkHost (gl h) (visible_ h) (discard_backbuffer_when_not_visible_ h)
    (swap_buffer_rect_ h) v (fences_ h) (requests_ h)
    (using_partial_swap h) (using_set_visibility h) (AllowPartialSwap h).
Definition set_fences_ v (h : Host) : Host :=
  mkHost (gl h) (visible_ h) (discard_backbuffer_when_not_visible_ h)
    (swap_buffer_rect_ h) (last_swap_fence_ h) v (requests_ h)
    (using_partial_swap h) (using_set_visibility h) (AllowPartialSwap h).
Definition set_requests_ v (h : Host) : Host :=
  mkHost (gl h) (visible_ h) (discard_backbuffer_when_not_visible_ h)
    (swap_buffer_rect_ h) (last_swap_fence_ h) (fences_ h) v
    (using_partial_swap h) (using_set_visibility h) (AllowPartialSwap h).

(** A piece of the drawing model run on the renderer of the host. *)
Definition in_gl (m : M unit) (h : Host) : option Host :=
  match m (gl h) with
  | Some (_, s) => Some (set_gl s h)
  | None => None
  end.

Definition ask (r : Request) (h : Host) : option Host :=
  Some (set_requests_
          (requests_ h ++
           [{| request := r; after_calls := length (context_ (gl h)) |}]) h).

Definition requests (h : Host) : list Request := map request (requests_ h).

Section Lifecycle.

(** cc/resources/resource_provider.h is not at hand.  The three routines of
    the provider that the life cycle uses are parameters. *)
Variable ReleaseCachedData : ResourceProvider -> ResourceProvider.
Variable GetReadLockFence : ResourceProvider -> option Fence.
Variable SetReadLockFence : ResourceProvider -> option Fence -> ResourceProvider.

(** The destructor of each texture, in the order of the container. *)
Fixpoint free_all (textures : list ScopedResource) : M unit :=
  match textures with
  | [] => mret tt
  | texture :: textures => Free texture;; free_all textures
  end.

(** render_pass_textures_.clear() *)
Definition ReleaseRenderPassTextures : M unit :=
  textures ← get render_pass_textures_;
  modify (set_render_pass_textures_ ∅);;
  free_all (map snd (map_to_list textures)).

Definition ViewportChanged : M unit :=
  modify (set_is_viewport_changed_ true).

Definition DiscardBackbuffer (h : Host) : option Host :=
  if is_backbuffer_discarded_ (gl h) then Some h
  else
    h ← ask OutputSurface_DiscardBackbuffer h;
    h ← in_gl (modify (set_is_backbuffer_discarded_ true)) h;
    (* Damage tracker needs a full reset every time framebuffer is
       discarded. *)
    ask SetFullRootLayerDamage h.

Definition EnforceMemoryPolicy (h : Host) : option Host :=
  if negb (visible_ h) then
    h ← in_gl ReleaseRenderPassTextures h;
    h ← (if discard_backbuffer_when_not_visible_ h
         then DiscardBackbuffer h else Some h);
    h ← in_gl (modify (fun s =>
                 set_resource_provider_
                   (ReleaseCachedData (resource_provider_ s)) s)) h;
    in_gl (GLC flush) h
  else Some h.

Definition SetVisible (visible : bool) (h : Host) : option Host :=
  if Bool.eqb (visible_ h) visible then Some h
  else
    h ← EnforceMemoryPolicy (set_visible_ visible h);
    if using_set_visibility h
    then ask (setVisibilityCHROMIUM visible) h
    else Some h.

(** This is simple a 1:1 map. *)
Definition PriorityCutoff (priority_cutoff : WebPriorityCutoff)
  : ManagedPriorityCutoff :=
  match priority_cutoff with
  | PriorityCutoffAllowNothing => CUTOFF_ALLOW_NOTHING
  | PriorityCutoffAllowVisibleOnly => CUTOFF_ALLOW_REQUIRED_ONLY
  | PriorityCutoffAllowVisibleAndNearby => CUTOFF_ALLOW_NICE_TO_HAVE
  | PriorityCutoffAllowEverything => CUTOFF_ALLOW_EVERYTHING
  end.

Definition onMemoryAllocationChanged (allocation : WebGraphicsMemoryAllocation)
    (h : Host) : option Host :=
  (* Just ignore the memory manager when it says to set the limit to zero
     bytes. *)
  h ← (if negb (bytesLimitWhenVisible allocation =? 0) then
         let policy :=
           mkManagedMemoryPolicy
             (bytesLimitWhenVisible allocation)
             (PriorityCutoff (priorityCutoffWhenVisible allocation))
             (bytesLimitWhenNotVisible allocation)
             (PriorityCutoff (priorityCutoffWhenNotVisible allocation)) in
         if enforceButDoNotKeepAsPolicy allocation
         then ask (EnforceManagedMemoryPolicy policy) h
         else ask (SetManagedMemoryPolicy policy) h
       else Some h);
  let old_discard_backbuffer_when_not_visible :=
    discard_backbuffer_when_not_visible_ h in
  h ← EnforceMemoryPolicy
        (set_discard_backbuffer_when_not_visible_
           (negb (suggestHaveBackbuffer allocation)) h);
  if enforceButDoNotKeepAsPolicy allocation
  then Some (set_discard_backbuffer_when_not_visible_
               old_discard_backbuffer_when_not_visible h)
  else Some h.

(** The requests that an allocation makes of the client. *)
Definition policy_requests (allocation : WebGraphicsMemoryAllocation)
  : list Request :=
  if bytesLimitWhenVisible allocation =? 0 then []
  else
    let policy :=
      mkManagedMemoryPolicy
        (bytesLimitWhenVisible allocation)
        (PriorityCutoff (priorityCutoffWhenVisible allocation))
        (bytesLimitWhenNotVisible allocation)
        (PriorityCutoff (priorityCutoffWhenNotVisible allocation)) in
    if enforceButDoNotKeepAsPolicy allocation
    then [EnforceManagedMemoryPolicy policy]
    else [SetManagedMemoryPolicy policy].

(** new SimpleSwapFence(): has_passed_(false) *)
Definition new_SimpleSwapFence (h : Host) : Fence * Host :=
  (length (fences_ h), set_fences_ (fences_ h ++ [false]) h).

Definition HasPassed (fence : Fence) (h : Host) : option bool :=
  fences_ h !! fence.

Definition SetHasPassed (fence : Fence) (h : Host) : Host :=
  set_fences_ (<[fence := true]> (fences_ h)) h.

Definition SwapBuffers (latency_info : LatencyInfo) (h : Host) : option Host :=
  (* DCHECK(visible_); DCHECK(!is_backbuffer_discarded_); *)
  h ← (if using_partial_swap h && AllowPartialSwap h then
         (* If supported, we can save significant bandwidth by only swapping
            the damaged/scissored region (clamped to the viewport) *)
         let h :=
           set_swap_buffer_rect_
             (Rect_Intersect (swap_buffer_rect_ h)
                (Rect_of_Size (ViewportSize (settings (gl h))))) h in
         let flipped_y_pos_of_rect_bottom :=
           sz_height (ViewportSize (settings (gl h)))
           - r_y (swap_buffer_rect_ h) - r_height (swap_buffer_rect_ h) in
         ask (PostSubBuffer
                (mkRect (r_x (swap_buffer_rect_ h))
                   flipped_y_pos_of_rect_bottom
                   (r_width (swap_buffer_rect_ h))
                   (r_height (swap_buffer_rect_ h)))
                latency_info) h
       else ask (OutputSurface_SwapBuffers latency_info) h);
  let h := set_swap_buffer_rect_ (mkRect 0 0 0 0) h in
  (* We don't have real fences, so we mark read fences as passed assuming a
     double-buffered GPU pipeline.  A texture can be written to after one
     full frame has past since it was last read. *)
  let h :=
    match last_swap_fence_ h with
    | Some fence => SetHasPassed fence h
    | None => h
    end in
  let h :=
    set_last_swap_fence_ (GetReadLockFence (resource_provider_ (gl h))) h in
  let '(fence, h) := new_SimpleSwapFence h in
  in_gl (modify (fun s =>
           set_resource_provider_
             (SetReadLockFence (resource_provider_ s) (Some fence)) s)) h.

(** What the compositor may do with a renderer between frames. *)
Inductive Operation :=
  | do_SetVisible (visible : bool)
  | do_onMemoryAllocationChanged (allocation : WebGraphicsMemoryAllocation)
  | do_SwapBuffers (latency_info : LatencyInfo)
  | do_ViewportChanged.

Definition operate (o : Operation) (h : Host) : option Host :=
  match o with
  | do_SetVisible visible => SetVisible visible h
  | do_onMemoryAllocationChanged allocation =>
      onMemoryAllocationChanged allocation h
  | do_SwapBuffers latency_info => SwapBuffers latency_info h
  | do_ViewportChanged => in_gl ViewportChanged h
  end.

Fixpoint operate_all (l : list Operation) (h : Host) : option Host :=
  match l with
  | [] => Some h
  | o :: l => h ← operate o h; operate_all l h
  end.

Definition hides (o : Operation) : bool :=
  match o with do_SetVisible false => true | _ => false end.

(** The fences that the renderer and the provider hold are allocated. *)
Definition fences_allocated (h : Host) : Prop :=
  forall fence,
    last_swap_fence_ h = Some fence \/
    GetReadLockFence (resource_provider_ (gl h)) = Some fence ->
    (fence < length (fences_ h))%nat.

(** A visible renderer: what the operations that do not hide it keep. *)
Definition kept (h h' : Host) : Prop :=
  visible_ h' = true /\
  is_backbuffer_discarded_ (gl h') = is_backbuffer_discarded_ (gl h) /\
  render_pass_textures_ (gl h') = render_pass_textures_ (gl h) /\
  calls (gl h') = calls (gl h).


(** Swaps, one after the other. *)
Fixpoint swaps (l : list LatencyInfo) (h : Host) : option Host :=
  match l with
  | [] => Some h
  | latency_info :: l =>
      h ← SwapBuffers latency_info h;
      swaps l h
  end.

End Lifecycle.

End Renderer.

(** * A reference realisation of the library and the collaborators

    Exact rational arithmetic for [float], 4x4 rational matrices for
    [gfx::Transform], and a resource provider that hands out consecutive
    ids.  It makes the renderer executable, for the examples below.  The
    library itself (ui/gfx, cc/base/math_util, DirectRenderer) is missing
    from the sources: what stands for it here is modelled from the spec, in
    exact arithmetic where the library computes in [float]. *)

Module Exact.
Local Open Scope Q_scope.

Definition Qltb (a b : Q) : bool := negb (Qle_bool b a).

Definition Matrix := list (list Q).

Definition entry (m : Matrix) (i j : nat) : Q := nth j (nth i m []) 0.

Definition build (f : nat -> nat -> Q) : Matrix :=
  map (fun i => map (fun j => f i j) (seq 0 4)) (seq 0 4).

Definition identity : Matrix :=
  build (fun i j => if Nat.eqb i j then 1 else 0).

(** Modelled from the spec: the product of two gfx::Transform ("a 2D/3D
    transform to device space"), whose source is missing; the matrix
    product, in exact arithmetic. *)
Definition mul (a b : Matrix) : Matrix :=
  build (fun i j =>
    fold_right Qplus 0 (map (fun k => entry a i k * entry b k j) (seq 0 4))).

Definition translation (x y : Q) : Matrix :=
  [[1; 0; 0; x]; [0; 1; 0; y]; [0; 0; 1; 0]; [0; 0; 0; 1]].

Definition scaling (x y : Q) : Matrix :=
  [[x; 0; 0; 0]; [0; y; 0; 0]; [0; 0; 1; 0]; [0; 0; 0; 1]].

(** Modelled from the spec: gfx::Transform::FlattenTo2d, whose source is
    missing; the third row and column become those of the identity. *)
Definition flatten (m : Matrix) : Matrix :=
  build (fun i j =>
    if Nat.eqb i 2 then (if Nat.eqb j 2 then 1 else 0)
    else if Nat.eqb j 2 then 0 else entry m i j).

Definition without {A} (k : nat) (l : list A) : list A :=
  firstn k l ++ skipn (S k) l.

Definition minor (i j : nat) (m : Matrix) : Matrix :=
  without i (map (without j) m).

Definition sign (k : nat) : Q := if Nat.even k then 1 else -1.

Fixpoint det (n : nat) (m : Matrix) : Q :=
  match n with
  | O => 1
  | S n' =>
    fold_right Qplus 0
      (map (fun j => sign j * entry m 0 j * det n' (minor 0 j m)) (seq 0 n))
  end.

Definition invertible (m : Matrix) : bool := negb (Qeq_bool (det 4 m) 0).

Definition inverse (m : Matrix) : bool * Matrix :=
  if invertible m then
    (true, build (fun i j => sign (i + j) * det 3 (minor j i m) / det 4 m))
  else (false, identity).

Definition is_integer (q : Q) : bool := Qeq_bool q (inject_Z (Qfloor q)).

Definition is_translation (m : Matrix) : bool :=
  forallb (fun i => forallb (fun j =>
      if Nat.eqb j 3 then (if Nat.eqb i 3 then Qeq_bool (entry m i j) 1 else true)
      else Qeq_bool (entry m i j) (if Nat.eqb i j then 1 else 0))
    (seq 0 4)) (seq 0 4).

Definition is_integer_translation (m : Matrix) : bool :=
  is_translation m && is_integer (entry m 0 3) && is_integer (entry m 1 3) &&
  is_integer (entry m 2 3).

Definition col_major (m : Matrix) : list Q :=
  flat_map (fun j => map (fun i => entry m i j) (seq 0 4)) (seq 0 4).

(** Modelled from the spec: MathUtil::MapPoint, whose source is missing.
    A point of the plane through the matrix "to device space", in
    homogeneous coordinates: the point is clipped when w is not positive. *)
Definition map_point (m : Matrix) (p : PointF Q) : PointF Q * bool :=
  let x := pf_x p in
  let y := pf_y p in
  let x' := entry m 0 0 * x + entry m 0 1 * y + entry m 0 3 in
  let y' := entry m 1 0 * x + entry m 1 1 * y + entry m 1 3 in
  let w' := entry m 3 0 * x + entry m 3 1 * y + entry m 3 3 in
  (mkPointF (x' / w') (y' / w'), Qle_bool w' 0).

Definition shift (dx dy : Q) (p : PointF Q) : PointF Q :=
  mkPointF (pf_x p + dx) (pf_y p + dy).

(** Modelled from the spec: MathUtil::MapQuad, whose source is missing; it
    gives "the device-space quad", corner by corner. *)
Definition map_quad (m : Matrix) (q : QuadF Q) : QuadF Q * bool :=
  if is_translation m then
    (mkQuadF (shift (entry m 0 3) (entry m 1 3) (p1 q))
             (shift (entry m 0 3) (entry m 1 3) (p2 q))
             (shift (entry m 0 3) (entry m 1 3) (p3 q))
             (shift (entry m 0 3) (entry m 1 3) (p4 q)), false)
  else
    let '(a, ca) := map_point m (p1 q) in
    let '(b, cb) := map_point m (p2 q) in
    let '(c, cc) := map_point m (p3 q) in
    let '(d, cd) := map_point m (p4 q) in
    (mkQuadF a b c d, ca || cb || cc || cd).

Definition min4 (a b c d : Q) : Q := Qmin (Qmin a b) (Qmin c d).
Definition max4 (a b c d : Q) : Q := Qmax (Qmax a b) (Qmax c d).

(** Modelled from the spec: gfx::QuadF::BoundingBox, whose source is
    missing; "the device-space bounding box". *)
Definition bounding_box (q : QuadF Q) : RectF Q :=
  let rl := min4 (pf_x (p1 q)) (pf_x (p2 q)) (pf_x (p3 q)) (pf_x (p4 q)) in
  let rr := max4 (pf_x (p1 q)) (pf_x (p2 q)) (pf_x (p3 q)) (pf_x (p4 q)) in
  let rt := min4 (pf_y (p1 q)) (pf_y (p2 q)) (pf_y (p3 q)) (pf_y (p4 q)) in
  let rb := max4 (pf_y (p1 q)) (pf_y (p2 q)) (pf_y (p3 q)) (pf_y (p4 q)) in
  mkRectF rl rt (rr - rl) (rb - rt).

(** std::numeric_limits<float>::epsilon() *)
Definition float_epsilon : Q := 1 # (2 ^ 23).

Definition within_epsilon (a b : Q) : bool := Qltb (Qabs (a - b)) float_epsilon.

(** Modelled from the spec: gfx::QuadF::IsRectilinear, whose source is
    missing; "the device-space quad is axis-aligned", up to the epsilon of
    [float]. *)
Definition is_rectilinear (q : QuadF Q) : bool :=
  (within_epsilon (pf_x (p1 q)) (pf_x (p2 q)) &&
   within_epsilon (pf_y (p2 q)) (pf_y (p3 q)) &&
   within_epsilon (pf_x (p3 q)) (pf_x (p4 q)) &&
   within_epsilon (pf_y (p4 q)) (pf_y (p1 q))) ||
  (within_epsilon (pf_y (p1 q)) (pf_y (p2 q)) &&
   within_epsilon (pf_x (p2 q)) (pf_x (p3 q)) &&
   within_epsilon (pf_y (p3 q)) (pf_y (p4 q)) &&
   within_epsilon (pf_x (p4 q)) (pf_x (p1 q))).

Definition cross (a b c : PointF Q) : Q :=
  (pf_x b - pf_x a) * (pf_y c - pf_y a) - (pf_y b - pf_y a) * (pf_x c - pf_x a).

Definition is_counter_clockwise (q : QuadF Q) : bool :=
  Qltb (cross (p1 q) (p2 q) (p3 q) + cross (p1 q) (p3 q) (p4 q)) 0.

Definition scale_quad (q : QuadF Q) (sx sy : Q) : QuadF Q :=
  let f := fun p => mkPointF (pf_x p * sx) (pf_y p * sy) in
  mkQuadF (f (p1 q)) (f (p2 q)) (f (p3 q)) (f (p4 q)).

Definition inset (r : RectF Q) (l t rt b : Q) : RectF Q :=
  mkRectF (rf_x r + l) (rf_y r + t)
          (Qmax (rf_width r - l - rt) 0) (Qmax (rf_height r - t - b) 0).

Definition nearest (v : Q) : Z := Qfloor (v + (1 # 2)).

Definition near (v d : Q) : bool := Qltb (Qabs (inject_Z (nearest v) - v)) d.

(** Modelled from the spec: gfx::IsNearestRectWithinDistance, whose source
    is missing; the rect is "positioned within a sub-pixel epsilon (1/1024)
    of an integer boundary": each of its four edges is nearer than [d] to
    the nearest integer.  In exact arithmetic, where the library computes
    in [float]. *)
Definition is_nearest_rect_within_distance (r : RectF Q) (d : Q) : bool :=
  near (rf_x r) d && near (rf_y r) d &&
  near (rf_x r + rf_width r) d && near (rf_y r + rf_height r) d.

Definition enclosing_rect (r : RectF Q) : Rect :=
  let x := Qfloor (rf_x r) in
  let y := Qfloor (rf_y r) in
  mkRect x y (Qceiling (rf_x r + rf_width r) - x)%Z
             (Qceiling (rf_y r + rf_height r) - y)%Z.

Definition inset_rect (r : Rect) (l t rt b : Z) : Rect :=
  mkRect (r_x r + l) (r_y r + t)
         (Z.max (r_width r - l - rt) 0) (Z.max (r_height r - t - b) 0).

Definition intersect_rect (a b : Rect) : Rect :=
  let rx := Z.max (r_x a) (r_x b) in
  let ry := Z.max (r_y a) (r_y b) in
  let rr := Z.min (Rect_right a) (Rect_right b) in
  let rb := Z.min (Rect_bottom a) (Rect_bottom b) in
  if ((rr <=? rx) || (rb <=? ry))%Z then mkRect 0 0 0 0
  else mkRect rx ry (rr - rx) (rb - ry).

(** Lines a x + b y + c = 0, normalised with a rational square root that is
    exact to twenty binary digits. *)
Definition Line := (Q * Q * Q)%type.

Definition sqrt_approx (q : Q) : Q :=
  Z.sqrt (Qfloor (q * inject_Z (2 ^ 40))) # (2 ^ 20).

Definition scale_line (e : Line) (k : Q) : Line :=
  let '(a, b, c) := e in (a * k, b * k, c * k).

Definition line_through (p q : PointF Q) : Line :=
  let a := pf_y p - pf_y q in
  let b := pf_x q - pf_x p in
  let c := pf_x p * pf_y q - pf_x q * pf_y p in
  scale_line (a, b, c) (1 / sqrt_approx (a * a + b * b)).

Definition meet (e f : Line) : PointF Q :=
  let '(a, b, c) := e in
  let '(a', b', c') := f in
  mkPointF ((b * c' - b' * c) / (a * b' - a' * b))
           ((a * c' - a' * c) / (a' * b - a * b')).

Record Lines := mkLines {
  left_line : Line; top_line : Line; right_line : Line; bottom_line : Line;
}.

Definition lines_of_quad (q : QuadF Q) : Lines :=
  let k := if is_counter_clockwise q then -1 else 1 in
  mkLines (scale_line (line_through (p4 q) (p1 q)) k)
          (scale_line (line_through (p1 q) (p2 q)) k)
          (scale_line (line_through (p2 q) (p3 q)) k)
          (scale_line (line_through (p3 q) (p4 q)) k).

Definition move (e : Line) (dx dy : Q) : Line :=
  let '(a, b, c) := e in (a, b, c + dx * a + dy * b).

Definition inflate (l : Lines) : Lines :=
  mkLines (move (left_line l) (1 # 2) 0) (move (top_line l) 0 (1 # 2))
          (move (right_line l) (1 # 2) 0) (move (bottom_line l) 0 (1 # 2)).

Definition quad_of_lines (l : Lines) : QuadF Q :=
  mkQuadF (meet (left_line l) (top_line l)) (meet (top_line l) (right_line l))
          (meet (right_line l) (bottom_line l)) (meet (bottom_line l) (left_line l)).

Definition line_data (e : Line) : list Q := let '(a, b, c) := e in [a; b; c].

Definition float_array (l : Lines) : list Q :=
  line_data (left_line l) ++ line_data (top_line l) ++
  line_data (right_line l) ++ line_data (bottom_line l).

(** The rational is an integer. *)
Definition integral (q : Q) : Prop := exists z, q == inject_Z z.

(** The quad is a rectangle along the axes with its corners on whole
    pixels. *)
Definition on_pixels (q : QuadF Q) : Prop :=
  exists x0 x1 y0 y1 : Z,
    pf_x (p1 q) == inject_Z x0 /\ pf_y (p1 q) == inject_Z y0 /\
    pf_x (p2 q) == inject_Z x1 /\ pf_y (p2 q) == inject_Z y0 /\
    pf_x (p3 q) == inject_Z x1 /\ pf_y (p3 q) == inject_Z y1 /\
    pf_x (p4 q) == inject_Z x0 /\ pf_y (p4 q) == inject_Z y1.

(** The matrix moves whole pixels to whole pixels along the axes: x to
    x + [tx] and y to [sy] * y + [ty]. *)
Definition moves_pixels (m : Matrix) (tx sy ty : Z) : Prop :=
  entry m 0 0 == 1 /\ entry m 0 1 == 0 /\ entry m 0 3 == inject_Z tx /\
  entry m 1 0 == 0 /\ entry m 1 1 == inject_Z sy /\
  entry m 1 3 == inject_Z ty /\
  entry m 3 0 == 0 /\ entry m 3 1 == 0 /\ entry m 3 3 == 1.

#[export] Instance gfx : GfxLib := {|
  float := Q;
  float_of_int := inject_Z;
  float_lit := fun q => q;
  fadd := Qplus;
  fsub := Qminus;
  fmul := Qmult;
  fdiv := Qdiv;
  fmin := Qmin;
  fneg := Qopp;
  fneb := fun a b => negb (Qeq_bool a b);
  Transform := Matrix;
  Transform_identity := identity;
  Transform_mul := mul;
  FlattenTo2d := flatten;
  IsInvertible := invertible;
  GetInverse := inverse;
  Translate := fun m x y => mul m (translation x y);
  Scale := fun m x y => mul m (scaling x y);
  PreconcatTransform := mul;
  IsIdentityOrIntegerTranslation := is_integer_translation;
  asColMajorf := col_major;
  MapQuad := map_quad;
  MapPoint := map_point;
  MapClippedRect := fun m r =>
    bounding_box (fst (map_quad m
      (mkQuadF (mkPointF (rf_x r) (rf_y r))
               (mkPointF (rf_x r + rf_width r) (rf_y r))
               (mkPointF (rf_x r + rf_width r) (rf_y r + rf_height r))
               (mkPointF (rf_x r) (rf_y r + rf_height r)))));
  QuadF_BoundingBox := bounding_box;
  QuadF_IsRectilinear := is_rectilinear;
  QuadF_IsCounterClockwise := is_counter_clockwise;
  QuadF_Scale := scale_quad;
  RectF_Inset := inset;
  IsNearestRectWithinDistance := is_nearest_rect_within_distance;
  ToEnclosingRect := enclosing_rect;
  Rect_Inset := inset_rect;
  Rect_Intersect := intersect_rect;
  LayerQuad := Lines;
  LayerQuad_Edge := Line;
  LayerQuad_of_QuadF := lines_of_quad;
  LayerQuad_of_edges := mkLines;
  Edge_of_points := line_through;
  Edge_scale := scale_line;
  InflateAntiAliasingDistance := inflate;
  LayerQuad_left := left_line;
  LayerQuad_top := top_line;
  LayerQuad_right := right_line;
  LayerQuad_bottom := bottom_line;
  LayerQuad_ToQuadF := quad_of_lines;
  LayerQuad_ToFloatArray := float_array;
|}.

(** Modelled from the spec: the two matrices of
    DirectRenderer::InitializeMatrices, whose source is missing; it
    "computes projection and window matrices for a target of given size":
    the orthographic projection of the target onto [-1, 1] x [-1, 1] and
    the window matrix back to its pixels. *)
Definition ortho (l r b t : Q) : Matrix :=
  if Qeq_bool (r - l) 0 || Qeq_bool (t - b) 0 then identity
  else [[2 / (r - l); 0; 0; - (r + l) / (r - l)];
        [0; 2 / (t - b); 0; - (t + b) / (t - b)];
        [0; 0; 1; 0]; [0; 0; 0; 1]].

(** Modelled from the spec: the window matrix of
    DirectRenderer::InitializeMatrices, whose source is missing; from
    [-1, 1] x [-1, 1] "for a target of given size" to its pixels. *)
Definition window (w h : Q) : Matrix :=
  [[w / 2; 0; 0; w / 2]; [0; h / 2; 0; h / 2];
   [0; 0; 1 # 2; 1 # 2]; [0; 0; 0; 1]].

#[export] Instance platform : Platform := {|
  ResourceProvider := Z;                       (* the next id to hand out *)
  texture_id := fun _ resource => resource;
  CreateTexture := fun next _ _ _ => (next, (next + 1)%Z);
  CreateGLTexture := fun next _ _ _ _ => (next, (next + 1)%Z);
  DeleteResource := fun next _ => next;
  has_offscreen_GrContext := fun _ => true;
  FilterOperations := list Z;                  (* the outset of each filter *)
  isEmpty := fun l => match l with [] => true | _ => false end;
  getOutsets := fun l =>
    let o := fold_right Z.add 0%Z l in (o, o, o, o);
  RenderSurfaceFilters_Apply := fun _ texture _ => Some (texture + 1000)%Z;
  ImageFilter := (option (list Q) * bool)%type;
  asColorMatrix := fst;
  has_input0 := snd;
  drawSprite_through := fun _ texture _ => Some (texture + 2000)%Z;
  PicturePile := unit;
  TexCoordPrecisionRequired := fun threshold point =>
    if (threshold <=? Z.max (pt_x point) (pt_y point))%Z
    then TexCoordPrecisionHigh else TexCoordPrecisionMedium;
  projection_for := fun r flip =>
    if flip
    then ortho (inject_Z (r_x r)) (inject_Z (Rect_right r))
               (inject_Z (Rect_bottom r)) (inject_Z (r_y r))
    else ortho (inject_Z (r_x r)) (inject_Z (Rect_right r))
               (inject_Z (r_y r)) (inject_Z (Rect_bottom r));
  window_for := fun r _ => window (inject_Z (r_width r)) (inject_Z (r_height r));
  QuadRectTransform := fun m r =>
    mul (mul m (translation ((1 # 2) * rf_width r + rf_x r)
                            ((1 # 2) * rf_height r + rf_y r)))
        (scaling (rf_width r) (rf_height r));
  RenderPassTextureSize := Rect_size;
|}.

End Exact.

(** * Concrete renderers, frames and quads *)

Module Examples.
Import Exact.

Definition uniform_index (u : Uniform) : Z :=
  match u with
  | matrix_location => 0 | color_location => 1 | tex_transform_location => 2
  | frequency_location => 3 | alpha_location => 4 | sampler_location => 5
  | point_location => 6 | tex_scale_location => 7 | edge_location => 8
  | mask_sampler_location => 9 | mask_tex_coord_scale_location => 10
  | mask_tex_coord_offset_location => 11 | color_matrix_location => 12
  | color_offset_location => 13 | vertex_tex_transform_location => 14
  | fragment_tex_transform_location => 15 | vertex_opacity_location => 16
  | tex_matrix_location => 17 | y_texture_location => 18
  | u_texture_location => 19 | v_texture_location => 20
  | yuv_matrix_location => 21 | yuv_adj_location => 22
  end.

Definition kind_index (k : ProgramKind) : Z :=
  match k with
  | TileCheckerboardProgram => 1 | DebugBorderProgram => 2
  | SolidColorProgram => 3 | SolidColorProgramAA => 4
  | RenderPassProgram => 5 | RenderPassProgramAA => 6
  | RenderPassMaskProgram => 7 | RenderPassMaskProgramAA => 8
  | RenderPassColorMatrixProgram => 9 | RenderPassColorMatrixProgramAA => 10
  | RenderPassMaskColorMatrixProgram => 11
  | RenderPassMaskColorMatrixProgramAA => 12
  | TileProgram => 13 | TileProgramOpaque => 14 | TileProgramAA => 15
  | TileProgramSwizzle => 16 | TileProgramSwizzleOpaque => 17
  | TileProgramSwizzleAA => 18 | TextureProgram => 19
  | TextureProgramFlip => 20 | TextureIOSurfaceProgram => 21
  | VideoYUVProgram => 22 | VideoStreamTextureProgram => 23
  end.

(** Every program linked: distinct GL names, none of them 0. *)
Definition linked_programs (k : ProgramKind) (precision : TexCoordPrecision)
  : ProgramBinding :=
  {| program :=
       2 * kind_index k +
       match precision with TexCoordPrecisionHigh => 1 | _ => 0 end;
     initialized := true;
     location := uniform_index |}.

(** The context was lost before the texture programs were first asked for:
    they are not initialised and their GL name is 0. *)
Definition programs_after_context_loss (k : ProgramKind)
    (precision : TexCoordPrecision) : ProgramBinding :=
  match k with
  | TextureProgram | TextureProgramFlip =>
    {| program := 0; initialized := false; location := fun _ => -1 |}
  | _ => linked_programs k precision
  end.

Definition unit_quad : QuadF Q :=
  mkQuadF (mkPointF (- (1 # 2))%Q (- (1 # 2))%Q)
          (mkPointF (1 # 2)%Q (- (1 # 2))%Q)
          (mkPointF (1 # 2)%Q (1 # 2)%Q)
          (mkPointF (- (1 # 2))%Q (1 # 2)%Q).

Definition settings_with (table : ProgramKind -> TexCoordPrecision -> ProgramBinding)
  : Settings :=
  {| programs := table;
     highp_threshold_min_ := 4096;
     using_egl_image := false;
     offscreen_framebuffer_id_ := 1;
     ViewportSize := mkSize 100 100;
     SharedGeometryQuad := unit_quad |}.

Definition fresh_cache : TexturedQuadDrawCache :=
  {| program_id := 0; cache_resource_id := 0;
     use_premultiplied_alpha := false; cache_needs_blending := false;
     uv_xform_location := 0; cache_vertex_opacity_location := 0;
     cache_matrix_location := 0; cache_sampler_location := 0;
     uv_xform_data := []; vertex_opacity_data := []; matrix_data := [] |}.

(** The renderer as its constructor leaves it. *)
Definition fresh_renderer (cfg : Settings) : GLRenderer :=
  {| context_ := [];
     blend_shadow_ := false;
     program_shadow_ := 0;
     draw_cache_ := fresh_cache;
     is_scissor_enabled_ := false;
     scissor_rect_ := mkRect 0 0 0 0;
     render_pass_textures_ := ∅;
     resource_provider_ := 1;
     current_framebuffer_lock_ := None;
     on_demand_tile_raster_bitmap_ := mkSize 0 0;
     on_demand_tile_raster_resource_id_ := 0;
     is_viewport_changed_ := true;
     is_backbuffer_discarded_ := false;
     settings := cfg |}.

Definition renderer : GLRenderer := fresh_renderer (settings_with linked_programs).
Definition renderer_after_context_loss : GLRenderer :=
  fresh_renderer (settings_with programs_after_context_loss).

Definition root_pass : RenderPass :=
  {| pass_id := (1, 0); output_rect := mkRect 0 0 100 100;
     has_transparent_background := false |}.

Definition transparent_pass : RenderPass :=
  {| pass_id := (2, 0); output_rect := mkRect 0 0 100 100;
     has_transparent_background := true |}.

(** The frame of the root pass, set up for the output surface. *)
Definition frame : DrawingFrame :=
  InitializeMatrices
    {| root_render_pass := root_pass;
       current_render_pass := Some root_pass;
       current_texture := None;
       root_damage_rect := mkRectF 0%Q 0%Q 100%Q 100%Q;
       projection_matrix := identity;
       window_matrix := identity;
       flipped_y := false |}
    (output_rect root_pass) true.

Definition frame_of_transparent_pass : DrawingFrame :=
  set_target (Some transparent_pass) None frame.

Definition state_of (transform : Matrix) (r : Rect) : SharedQuadState :=
  {| content_to_target_transform := transform;
     visible_content_rect := r;
     sqs_opacity := 1%Q |}.

(** An opaque quad on the whole of [r], under [transform]. *)
Definition quad_of (m : Material) (transform : Matrix) (r : Rect) : DrawQuad :=
  {| material := m;
     rect := r; opaque_rect := r; visible_rect := r;
     needs_blending := false;
     shared_quad_state := state_of transform r;
     ShouldDrawWithBlending := false;
     IsEdge := false; IsTopEdge := false; IsLeftEdge := false;
     IsRightEdge := false; IsBottomEdge := false |}.

Definition texture_of (resource : ResourceId) (flip : bool) : TextureDrawQuad :=
  {| resource_id := resource;
     premultiplied_alpha := true;
     uv_top_left := mkPointF 0%Q 0%Q;
     uv_bottom_right := mkPointF 1%Q 1%Q;
     vertex_opacity := (1%Q, 1%Q, 1%Q, 1%Q);
     flipped := flip |}.

Definition textured (resource : ResourceId) (r : Rect) : TexturedQuad :=
  (quad_of (TEXTURE_CONTENT (texture_of resource false)) identity r,
   texture_of resource false).

(** The same, drawn with the flipped texture program. *)
Definition textured_flipped (resource : ResourceId) (r : Rect) : TexturedQuad :=
  (quad_of (TEXTURE_CONTENT (texture_of resource true)) identity r,
   texture_of resource true).

Definition left_half : Rect := mkRect 0 0 50 100.
Definition right_half : Rect := mkRect 50 0 50 100.

(** A transform that squashes the plane onto a line. *)
Definition squash : Matrix := scaling 0%Q 1%Q.

Definition tile_base : ContentDrawQuadBase :=
  {| tex_coord_rect := mkRectF 0%Q 0%Q 100%Q 100%Q;
     texture_size := mkSize 100 100;
     swizzle_contents := false |}.

Definition red : SkColor := SkColorSetARGB 255 255 0 0.
Definition translucent_red : SkColor := SkColorSetARGB 128 255 0 0.

Definition pass_quad (filters_behind : list Z) : RenderPassDrawQuad :=
  {| render_pass_id := (7, 0);
     mask_resource_id := 0;
     mask_uv_rect := mkRectF 0%Q 0%Q 1%Q 1%Q;
     quad_filter := None;
     filters := [];
     background_filters := filters_behind |}.

Definition two_halves : list TexturedQuad :=
  [textured 5 left_half; textured 5 right_half].

Definition whole : Rect := mkRect 0 0 100 100.

Definition solid (transform : Matrix) : DrawQuad :=
  quad_of (SOLID_COLOR red) transform whole.

Definition tile (transform : Matrix) : DrawQuad :=
  quad_of (TILED_CONTENT tile_base 5) transform whole.

Definition checkerboard (color : SkColor) : DrawQuad :=
  quad_of (CHECKERBOARD color) identity whole.

Definition nested (filters_behind : list Z) : DrawQuad :=
  quad_of (RENDER_PASS (pass_quad filters_behind)) identity whole.

(** The renderer [m] leaves when run from [s]. *)
Definition after {A} (m : M A) (s : GLRenderer) : GLRenderer :=
  match m s with Some (_, s') => s' | None => s end.

(** The routine returns (no null pointer is dereferenced). *)
Definition succeeds {A} (m : M A) (s : GLRenderer) : bool :=
  match m s with Some _ => true | None => false end.

Definition enables_blending (c : Call) : bool :=
  match c with enable GL_BLEND => true | _ => false end.

(** The renderer with one textured quad in its cache, enqueued after the
    context was lost. *)
Definition renderer_with_stale_batch : GLRenderer :=
  after (EnqueueTextureQuad frame (fst (textured 5 left_half))
           (snd (textured 5 left_half)))
    renderer_after_context_loss.

(** The renderer with one textured quad in its cache, all programs being
    linked. *)
Definition renderer_with_batch : GLRenderer :=
  after (EnqueueTextureQuad frame (fst (textured 5 left_half))
           (snd (textured 5 left_half)))
    renderer.

(** The renderer at the start of a frame. *)
Definition renderer_in_frame : GLRenderer := after (BeginDrawingFrame frame) renderer.

(** Enqueue the textured quads, then flush. *)
Definition enqueue_and_flush (qs : list TexturedQuad) : M unit :=
  enqueue_all frame qs;; FlushTextureQuadCache.

(** The number of quads the cache holds. *)
Definition quads_in (c : TexturedQuadDrawCache) : nat := length (matrix_data c).

(** The call was issued while the cache held [n] quads. *)
Definition issued_with_quads (n : nat) (i : Issued) : bool :=
  Nat.eqb (quads_in (issued_with i)) n.

(** The renderer after the scissor test has been enabled. *)
Definition renderer_with_scissor : GLRenderer :=
  after EnsureScissorTestEnabled renderer.

Definition stream_video : DrawQuad :=
  quad_of (STREAM_VIDEO_CONTENT 5 identity) identity whole.


Definition picture : PictureDrawQuad :=
  {| picture_base := tile_base;
     picture_pile := tt;
     content_rect := whole;
     contents_scale := 1%Q |}.

Definition picture_quad : DrawQuad :=
  quad_of (PICTURE_CONTENT picture) identity whole.


(** A visible renderer that is to give up its back buffer when hidden. *)
Definition host : Host :=
  {| gl := renderer;
     visible_ := true;
     discard_backbuffer_when_not_visible_ := true;
     swap_buffer_rect_ := mkRect 0 0 0 0;
     last_swap_fence_ := None;
     fences_ := [];
     requests_ := [];
     using_partial_swap := true;
     using_set_visibility := true;
     AllowPartialSwap := true |}.

Definition allocation : WebGraphicsMemoryAllocation :=
  {| bytesLimitWhenVisible := 1000;
     priorityCutoffWhenVisible := PriorityCutoffAllowEverything;
     bytesLimitWhenNotVisible := 0;
     priorityCutoffWhenNotVisible := PriorityCutoffAllowNothing;
     suggestHaveBackbuffer := false;
     enforceButDoNotKeepAsPolicy := true |}.

(** The platform above with a resource provider that also holds a read lock
    fence. *)
Definition platform_with_fence : Platform :=
  {| ResourceProvider := Z * option Fence;
     texture_id := fun rp resource => resource;
     CreateTexture := fun rp _ _ _ => (rp.1, (rp.1 + 1, rp.2));
     CreateGLTexture := fun rp _ _ _ _ => (rp.1, (rp.1 + 1, rp.2));
     DeleteResource := fun rp _ => rp;
     has_offscreen_GrContext := fun _ => true;
     FilterOperations := @FilterOperations _ platform;
     isEmpty := @isEmpty _ platform;
     getOutsets := @getOutsets _ platform;
     RenderSurfaceFilters_Apply := @RenderSurfaceFilters_Apply _ platform;
     ImageFilter := @ImageFilter _ platform;
     asColorMatrix := @asColorMatrix _ platform;
     has_input0 := @has_input0 _ platform;
     drawSprite_through := @drawSprite_through _ platform;
     PicturePile := @PicturePile _ platform;
     TexCoordPrecisionRequired := @TexCoordPrecisionRequired _ platform;
     projection_for := @projection_for _ platform;
     window_for := @window_for _ platform;
     QuadRectTransform := @QuadRectTransform _ platform;
     RenderPassTextureSize := @RenderPassTextureSize _ platform |}.

Definition get_fence (rp : @ResourceProvider _ platform_with_fence)
  : option Fence := rp.2.
Definition set_fence (rp : @ResourceProvider _ platform_with_fence)
    (fence : option Fence) : @ResourceProvider _ platform_with_fence :=
  (rp.1, fence).

Definition host_with_fence : @Host _ platform_with_fence :=
  {| gl :=
       {| context_ := [];
          blend_shadow_ := false;
          program_shadow_ := 0;
          draw_cache_ := fresh_cache;
          is_scissor_enabled_ := false;
          scissor_rect_ := mkRect 0 0 0 0;
          render_pass_textures_ := ∅;
          resource_provider_ := (1, None) : @ResourceProvider _ platform_with_fence;
          current_framebuffer_lock_ := None;
          on_demand_tile_raster_bitmap_ := mkSize 0 0;
          on_demand_tile_raster_resource_id_ := 0;
          is_viewport_changed_ := true;
          is_backbuffer_discarded_ := false;
          settings := settings_with linked_programs |};
     visible_ := true;
     discard_backbuffer_when_not_visible_ := false;
     swap_buffer_rect_ := mkRect 0 0 0 0;
     last_swap_fence_ := None;
     fences_ := [];
     requests_ := [];
     using_partial_swap := false;
     using_set_visibility := false;
     AllowPartialSwap := false |}.

End Examples.

(** * Properties *)

Section Properties.
Context {G : GfxLib} {P : Platform}.

Arguments calls : simpl never.
Arguments draw_calls : simpl never.

(** ** Running the monad *)

Lemma bind_run {A B} (m : M A) (f : A -> M B) (s : GLRenderer) :
  (m ≫= f) s = match m s with Some (a, s') => f a s' | None => None end.
Proof. reflexivity. Qed.

Lemma GLC_run (c : Call) (s : GLRenderer) :
  GLC c s = Some (tt, set_context_ (context_ s ++ [Build_Issued c (draw_cache_ s)]) s).
Proof. reflexivity. Qed.

Lemma draw_calls_app (s : GLRenderer) (l : list Issued) :
  draw_calls (set_context_ (context_ s ++ l) s) =
  draw_calls s ++ List.filter is_draw_call (map call l).
Proof.
  unfold draw_calls, calls. cbn. now rewrite map_app, List.filter_app.
Qed.

(** What [SetBlendEnabled] does to the renderer: the shadow takes the
    requested value and at most one enable or disable goes out. *)
Lemma SetBlendEnabled_run (enabled : bool) (s : GLRenderer) :
  exists s' l,
    SetBlendEnabled enabled s = Some (tt, s') /\
    blend_shadow_ s' = enabled /\
    calls s' = calls s ++ l /\ Forall is_blend_toggle l /\
    draw_calls s' = draw_calls s /\
    draw_cache_ s' = draw_cache_ s /\
    render_pass_textures_ s' = render_pass_textures_ s /\
    settings s' = settings s.
Proof.
  unfold SetBlendEnabled. rewrite bind_run. cbn.
  destruct (eqb enabled (blend_shadow_ s)) eqn:E.
  - exists s, []. apply eqb_prop in E. rewrite app_nil_r. now subst.
  - destruct enabled; cbn;
      [exists (set_blend_shadow_ true (set_context_ (context_ s ++ [Build_Issued (enable GL_BLEND) (draw_cache_ s)]) s)), [enable GL_BLEND]
      |exists (set_blend_shadow_ false (set_context_ (context_ s ++ [Build_Issued (disable GL_BLEND) (draw_cache_ s)]) s)), [disable GL_BLEND]];
      (split; [reflexivity|]); cbn;
      unfold draw_calls, calls, is_blend_toggle; cbn;
      rewrite map_app, List.filter_app; cbn; rewrite app_nil_r;
      repeat split; auto.
Qed.

Lemma emits_nil (s : GLRenderer) : emits s s [].
Proof. unfold emits. now rewrite app_nil_r. Qed.

Lemma emits_trans (s s1 s2 : GLRenderer) (l1 l2 : list Call) :
  emits s s1 l1 -> emits s1 s2 l2 -> emits s s2 (l1 ++ l2).
Proof.
  unfold emits. intros (-> & -> & -> & -> & ->) (-> & -> & -> & -> & ->).
  now rewrite app_assoc.
Qed.

Lemma emits_draw_calls (s s' : GLRenderer) (l : list Call) :
  emits s s' l -> draw_calls s' = draw_calls s ++ List.filter is_draw_call l.
Proof. intros (E & _). unfold draw_calls. now rewrite E, List.filter_app. Qed.

Lemma GLC_emits (c : Call) (s : GLRenderer) :
  exists s', GLC c s = Some (tt, s') /\ emits s s' [c].
Proof.
  eexists. split; [reflexivity|]. unfold emits, calls. cbn.
  now rewrite map_app.
Qed.

Lemma SetUseProgram_emits (prog : Z) (s : GLRenderer) :
  exists s' l, SetUseProgram prog s = Some (tt, s') /\ emits s s' l /\
               List.filter is_draw_call l = [].
Proof.
  unfold SetUseProgram. rewrite bind_run. cbn.
  destruct (prog =? program_shadow_ s).
  - exists s, []. auto using emits_nil.
  - eexists _, [useProgram prog]. split; [reflexivity|]. split; [|reflexivity].
    unfold emits, calls. cbn. now rewrite map_app.
Qed.

Lemma SetShaderOpacity_emits (o : float) (loc : Z) (s : GLRenderer) :
  exists s' l, SetShaderOpacity o loc s = Some (tt, s') /\ emits s s' l /\
               List.filter is_draw_call l = [].
Proof.
  unfold SetShaderOpacity, when. destruct (negb (loc =? -1)).
  - destruct (GLC_emits (uniform1f loc o) s) as (s' & E & H). eauto.
  - exists s, []. auto using emits_nil.
Qed.

Lemma SetShaderQuadF_emits (q : QuadF float) (loc : Z) (s : GLRenderer) :
  exists s' l, SetShaderQuadF q loc s = Some (tt, s') /\ emits s s' l /\
               List.filter is_draw_call l = [].
Proof.
  unfold SetShaderQuadF. destruct (loc =? -1).
  - exists s, []. auto using emits_nil.
  - edestruct GLC_emits as (s' & E & H). eauto.
Qed.

Lemma DrawQuadGeometry_emits (frame : DrawingFrame) (t : Transform)
    (r : RectF float) (loc : Z) (s : GLRenderer) :
  exists s', DrawQuadGeometry frame t r loc s = Some (tt, s') /\
    emits s s'
      [uniformMatrix4fv loc 1 false
         (ToGLMatrix (Transform_mul (projection_matrix frame) (QuadRectTransform t r)));
       drawElements GL_TRIANGLES 6 GL_UNSIGNED_SHORT 0].
Proof.
  eexists. split; [reflexivity|]. unfold emits, calls. cbn.
  rewrite !map_app, <- app_assoc. auto.
Qed.

(** ** Checkerboard quads: the alpha channel of the colour *)

Lemma land_ones_testbit (c n i : Z) :
  0 <= n -> 0 <= i ->
  Z.testbit (Z.land c (Z.ones n)) i = Z.testbit c i && (i <? n).
Proof.
  intros Hn Hi. rewrite Z.land_spec. f_equal.
  destruct (Z.ltb_spec i n).
  - apply Z.ones_spec_low. lia.
  - apply Z.ones_spec_high. lia.
Qed.

Lemma channel_of_rgb (c1 c2 k : Z) :
  0 <= k -> k + 8 <= 24 ->
  Z.land c1 (Z.ones 24) = Z.land c2 (Z.ones 24) ->
  Z.land (Z.shiftr c1 k) 255 = Z.land (Z.shiftr c2 k) 255.
Proof.
  intros Hk Hk' E. apply Z.bits_inj'. intros i Hi.
  change 255 with (Z.ones 8). rewrite !land_ones_testbit by lia.
  rewrite !Z.shiftr_spec by lia.
  destruct (Z.ltb_spec i 8); [|now rewrite !andb_false_r].
  rewrite !andb_true_r.
  assert (H1 := land_ones_testbit c1 24 (i + k) ltac:(lia) ltac:(lia)).
  assert (H2 := land_ones_testbit c2 24 (i + k) ltac:(lia) ltac:(lia)).
  rewrite E in H1. rewrite H2 in H1.
  destruct (Z.ltb_spec (i + k) 24); [|lia].
  now rewrite !andb_true_r in H1.
Qed.

(** Symbolic execution: unfold the primitives, compute, and split on the
    tests that remain. *)
Lemma calls_extend (s s' : GLRenderer) (l : list Issued) :
  context_ s' = context_ s ++ l -> calls s' = calls s ++ map call l.
Proof. intros E. unfold calls. rewrite E. apply map_app. Qed.

Ltac primitives :=
  unfold SetBlendEnabled, SetUseProgram, SetShaderOpacity, SetShaderQuadF,
    DrawQuadGeometry, GetTileCheckerboardProgram, GetDebugBorderProgram,
    GetSolidColorProgram, GetSolidColorProgramAA, RequiredPrecision,
    GetProgram, when, GLC, get, modify, crash, mbind, M_bind, mret, M_ret.

Ltac split_tests :=
  repeat match goal with
  | |- context [if ?b then _ else _] =>
      let E := fresh "E" in destruct b eqn:E; cbn
  end.

(** C10.  A checkerboard quad is drawn with the red, green and blue
    channels of its colour and the constant 1 in place of the alpha channel:
    [uniform4f color_location r g b 1] is among the calls issued, and two
    colours that differ in the alpha channel alone make the routine behave
    identically (same calls, same final renderer). *)
Theorem checkerboard_ignores_alpha (frame : DrawingFrame) (quad : DrawQuad)
    (c1 c2 : SkColor) (s : GLRenderer) :
  Z.land c1 (Z.ones 24) = Z.land c2 (Z.ones 24) ->
  DrawCheckerboardQuad frame quad c1 s = DrawCheckerboardQuad frame quad c2 s /\
  exists s' l,
    DrawCheckerboardQuad frame quad c1 s = Some (tt, s') /\
    calls s' = calls s ++ l /\
    In (uniform4f
          (location (programs (settings s) TileCheckerboardProgram TexCoordPrecisionNA)
             color_location)
          (channel (SkColorGetR c1)) (channel (SkColorGetG c1))
          (channel (SkColorGetB c1)) (float_of_int 1)) l.
Proof.
  intros E. split.
  - unfold DrawCheckerboardQuad, SkColorGetR, SkColorGetG, SkColorGetB.
    rewrite (channel_of_rgb c1 c2 16), (channel_of_rgb c1 c2 8),
      (channel_of_rgb c1 c2 0) by (assumption || lia).
    reflexivity.
  - unfold DrawCheckerboardQuad. primitives. cbn. split_tests.
    all: eexists _, _; (split; [reflexivity|]).
    all: (split; [apply calls_extend; cbn; rewrite <- ?app_assoc; reflexivity|]).
    all: cbn; tauto.
Qed.

(** ** Background filters on a transparent pass *)

(** C3.  When the current render pass of the frame has a transparent
    background, [DrawBackgroundFilters] returns no texture, whatever the
    background filters of the quad are; it issues no call and leaves the
    frame and the renderer as they were. *)
Theorem background_filters_skipped_when_transparent (frame : DrawingFrame)
    (quad : DrawQuad) (rp : RenderPassDrawQuad)
    (contents_device_transform contents_device_transform_inverse : Transform)
    (pass : RenderPass) (s : GLRenderer) :
  current_render_pass frame = Some pass ->
  has_transparent_background pass = true ->
  DrawBackgroundFilters frame quad rp contents_device_transform
    contents_device_transform_inverse s = Some ((frame, None), s).
Proof.
  intros Hpass Htransparent. unfold DrawBackgroundFilters.
  now rewrite Hpass, Htransparent.
Qed.

(** ** Quads that are skipped *)

Lemma DrawRenderPassQuad_prefix (frame : DrawingFrame) (quad : DrawQuad)
    (rp : RenderPassDrawQuad) (s : GLRenderer) :
  exists s1 l,
    SetBlendEnabled (ShouldDrawWithBlending quad) s = Some (tt, s1) /\
    calls s1 = calls s ++ l /\ Forall is_blend_toggle l /\
    draw_calls s1 = draw_calls s /\
    render_pass_textures_ s1 = render_pass_textures_ s /\
    (texture_missing s rp \/
     fst (GetInverse
            (device_transform_of frame
               (QuadRectTransform (quadTransform quad) (RectF_of_Rect (rect quad)))))
     = false ->
     DrawRenderPassQuad frame quad rp s = Some (frame, s1)).
Proof.
  destruct (SetBlendEnabled_run (ShouldDrawWithBlending quad) s)
    as (s1 & l & R1 & _ & C1 & T1 & D1 & _ & P1 & _).
  exists s1, l. repeat (split; [assumption|]).
  intros H. unfold DrawRenderPassQuad. rewrite bind_run, R1, bind_run.
  unfold get at 1. rewrite P1.
  destruct (render_pass_textures_ s !! render_pass_id rp) as [t|] eqn:L;
    [|reflexivity].
  destruct (res_id t =? 0) eqn:Z0; [reflexivity|].
  destruct H as [[H|(t' & H & H0)]|H].
  - congruence.
  - rewrite H in L. injection L as <-. rewrite H0 in Z0. discriminate.
  - destruct (GetInverse _) as [ok inv]. cbn in H. now subst.
Qed.

(** C4.  A render pass quad whose pass has no entry in the render pass
    texture table, or an entry whose id is null, is a no-op that succeeds:
    [DrawRenderPassQuad] returns, the frame is unchanged, nothing but the
    blend toggle of its first statement can have been issued, and no draw
    call has. *)
Theorem render_pass_quad_without_texture_is_skipped (frame : DrawingFrame)
    (quad : DrawQuad) (rp : RenderPassDrawQuad) (s : GLRenderer) :
  texture_missing s rp ->
  exists s' l,
    DrawRenderPassQuad frame quad rp s = Some (frame, s') /\
    calls s' = calls s ++ l /\ Forall is_blend_toggle l /\
    draw_calls s' = draw_calls s.
Proof.
  intros H.
  destruct (DrawRenderPassQuad_prefix frame quad rp s)
    as (s1 & l & _ & C & T & D & _ & R).
  exists s1, l. auto.
Qed.

(** C7.  A quad whose flattened device transform is not invertible is
    skipped without a draw call and without failure: the solid colour
    routine and the content routine (tiles and pictures go through it) test
    window * projection * quad transform, the render pass routine tests the
    same product taken with the quad-rect transform of the quad. *)
Theorem non_invertible_quad_is_skipped (frame : DrawingFrame) (quad : DrawQuad)
    (s : GLRenderer) :
  (IsInvertible (device_transform_of frame (quadTransform quad)) = false ->
   (forall color, exists s',
      DrawSolidColorQuad frame quad color s = Some (tt, s') /\
      draw_calls s' = draw_calls s) /\
   (forall base resource,
      DrawContentQuad frame quad base resource s = Some (tt, s) /\
      DrawTileQuad frame quad base resource s = Some (tt, s))) /\
  (fst (GetInverse
          (device_transform_of frame
             (QuadRectTransform (quadTransform quad) (RectF_of_Rect (rect quad)))))
   = false ->
   forall rp, exists s',
     DrawRenderPassQuad frame quad rp s = Some (frame, s') /\
     draw_calls s' = draw_calls s).
Proof.
  split.
  - intros H. split.
    + intros color.
      destruct (SetBlendEnabled_run (ShouldDrawWithBlending quad) s)
        as (s1 & l & R1 & _ & _ & _ & D1 & _).
      exists s1. split; [|assumption].
      unfold DrawSolidColorQuad. rewrite bind_run, R1. cbn zeta.
      now rewrite H.
    + intros base resource.
      assert (R : DrawContentQuad frame quad base resource s = Some (tt, s)).
      { unfold DrawContentQuad. cbn zeta. rewrite bind_run.
        unfold RequiredPrecision at 1. unfold get at 1. now rewrite H. }
      split; [exact R|exact R].
  - intros H rp.
    destruct (DrawRenderPassQuad_prefix frame quad rp s)
      as (s1 & l & _ & _ & _ & D & _ & R).
    exists s1. auto.
Qed.

(** ** Framebuffer binding *)

(** C9.  Binding a texture as the render target computes the matrices with
    the flip flag false, whatever the texture and the rectangle, also when
    the texture is bound through [UseScopedTexture]; the framebuffer of the
    output surface is reported as flipped by every renderer. *)
Theorem texture_targets_not_flipped_output_flipped :
  (forall frame texture framebuffer_rect s, exists s',
     BindFramebufferToTexture frame texture framebuffer_rect s =
       Some ((true, InitializeMatrices frame framebuffer_rect false), s') /\
     flipped_y (InitializeMatrices frame framebuffer_rect false) = false /\
     projection_matrix (InitializeMatrices frame framebuffer_rect false) =
       projection_for framebuffer_rect false) /\
  (forall frame texture viewport_rect s, exists frame' s',
     UseScopedTexture frame texture viewport_rect s = Some ((true, frame'), s') /\
     flipped_y frame' = false) /\
  (forall r, FlippedFramebuffer r = true).
Proof.
  split; [|split].
  - intros. unfold BindFramebufferToTexture, SetDrawViewportSize, lock_texture_id.
    primitives. cbn. eexists. split; [reflexivity|]. split; reflexivity.
  - intros.
    unfold UseScopedTexture, BindFramebufferToTexture, SetDrawViewportSize,
      lock_texture_id.
    primitives. cbn. eexists _, _. split; [reflexivity|]. reflexivity.
  - reflexivity.
Qed.

(** With the pass selection of [DirectRenderer] as the specification
    describes it, the root pass is drawn flipped and no other pass is. *)
Lemma UseRenderPass_flip (frame : DrawingFrame) (render_pass : RenderPass)
    (s s' : GLRenderer) (frame' : DrawingFrame) :
  UseRenderPass frame render_pass s = Some ((true, frame'), s') ->
  flipped_y frame' =
  bool_decide (pass_id render_pass = pass_id (root_render_pass frame)).
Proof.
  unfold UseRenderPass. cbn.
  destruct (bool_decide (pass_id render_pass = pass_id (root_render_pass frame))).
  - intros [= <- _]. reflexivity.
  - unfold BindFramebufferToTexture, SetDrawViewportSize, lock_texture_id.
    primitives. cbn.
    destruct (render_pass_textures_ s !! pass_id render_pass) as [t|]; [|discriminate].
    destruct (res_id t =? 0).
    + unfold Allocate. primitives. cbn.
      destruct (CreateTexture _ _ _ _) as [new_id rp']. cbn.
      destruct (new_id =? 0); cbn; [discriminate|].
      intros [= <- _]. reflexivity.
    + intros [= <- _]. reflexivity.
Qed.

(** ** Frame conditions

    [respects R m]: whenever [m] returns, the renderer it leaves is related
    by [R] to the one it started from.  [total m]: [m] always returns. *)

Section Respects.
Context (R : relation GLRenderer) `{!PreOrder R}.

Lemma respects_ret {A} (a : A) : respects R (mret a).
Proof. intros s a' s' [= _ <-]. reflexivity. Qed.

Lemma respects_get {A} (f : GLRenderer -> A) : respects R (get f).
Proof. intros s a' s' [= _ <-]. reflexivity. Qed.

Lemma respects_crash {A} : respects R (crash (A := A)).
Proof. intros s a' s' [=]. Qed.

Lemma respects_bind {A B} (m : M A) (f : A -> M B) :
  respects R m -> (forall a, respects R (f a)) -> respects R (m ≫= f).
Proof.
  intros Hm Hf s b s'. rewrite bind_run.
  destruct (m s) as [[a s1]|] eqn:E; [|discriminate].
  intros Hb. transitivity s1; [eapply Hm|eapply Hf]; eassumption.
Qed.

Lemma respects_when (b : bool) (m : M unit) :
  respects R m -> respects R (when b m).
Proof. destruct b; [trivial|]. intros _. apply respects_ret. Qed.

Lemma respects_modify (f : GLRenderer -> GLRenderer) :
  (forall s, R s (f s)) -> respects R (modify f).
Proof. intros H s a s' [= _ <-]. apply H. Qed.
End Respects.

Lemma total_ret {A} (a : A) : total (mret a).
Proof. intros s. eexists. reflexivity. Qed.

Lemma total_get {A} (f : GLRenderer -> A) : total (get f).
Proof. intros s. eexists. reflexivity. Qed.

Lemma total_modify (f : GLRenderer -> GLRenderer) : total (modify f).
Proof. intros s. eexists. reflexivity. Qed.

Lemma total_GLC (c : Call) : total (GLC c).
Proof. intros s. eexists. reflexivity. Qed.

Lemma total_bind {A B} (m : M A) (f : A -> M B) :
  total m -> (forall a, total (f a)) -> total (m ≫= f).
Proof.
  intros Hm Hf s. rewrite bind_run. destruct (Hm s) as [[a s1] ->]. apply Hf.
Qed.

Lemma total_when (b : bool) (m : M unit) : total m -> total (when b m).
Proof. destruct b; [trivial|]. intros _. apply total_ret. Qed.

(** Break a goal about a routine down along its structure, down to the
    primitives, which [tac] is to solve. *)
Ltac structure tac :=
  repeat first
    [ progress intros
    | apply total_ret | apply total_get | apply total_modify | apply total_GLC
    | apply total_bind | apply total_when
    | apply respects_ret; tac | apply respects_get; tac
    | apply respects_crash; tac
    | apply respects_bind; [tac| |] | apply respects_when; [tac|]
    | match goal with
      | |- total (if ?b then _ else _) => destruct b
      | |- total (match ?x with _ => _ end) => destruct x
      | |- total (let _ := _ in _) => cbv zeta
      | |- respects _ (if ?b then _ else _) => destruct b
      | |- respects _ (match ?x with _ => _ end) => destruct x
      | |- respects _ (let _ := _ in _) => cbv zeta
      end
    | tac ].

Lemma total_SetBlendEnabled (b : bool) : total (SetBlendEnabled b).
Proof. unfold SetBlendEnabled. structure idtac. Qed.

Lemma total_SetUseProgram (p : Z) : total (SetUseProgram p).
Proof. unfold SetUseProgram. structure idtac. Qed.

Lemma total_SetShaderOpacity (o : float) (loc : Z) : total (SetShaderOpacity o loc).
Proof. unfold SetShaderOpacity. structure idtac. Qed.

Lemma total_SetShaderQuadF (q : QuadF float) (loc : Z) : total (SetShaderQuadF q loc).
Proof. unfold SetShaderQuadF. structure idtac. Qed.

Lemma total_DrawQuadGeometry frame t (r : RectF float) (loc : Z) :
  total (DrawQuadGeometry frame t r loc).
Proof. unfold DrawQuadGeometry. structure idtac. Qed.

Lemma total_GetProgram kind precision : total (GetProgram kind precision).
Proof. apply total_get. Qed.

Lemma total_RequiredPrecision point : total (RequiredPrecision point).
Proof. apply total_get. Qed.

Ltac total_primitives :=
  first [ apply total_SetBlendEnabled | apply total_SetUseProgram
        | apply total_SetShaderOpacity | apply total_SetShaderQuadF
        | apply total_DrawQuadGeometry | apply total_GetProgram
        | apply total_RequiredPrecision ].

Lemma same_blend_preorder : PreOrder same_blend.
Proof.
  split; [intros s; reflexivity|].
  intros s1 s2 s3 H1 H2. unfold same_blend in *. congruence.
Qed.

#[local] Existing Instance same_blend_preorder.

Lemma same_blend_GLC (c : Call) : respects same_blend (GLC c).
Proof. intros s a s' [= _ <-]. reflexivity. Qed.

Lemma same_blend_SetUseProgram (p : Z) : respects same_blend (SetUseProgram p).
Proof.
  unfold SetUseProgram.
  structure ltac:(first [apply same_blend_preorder | apply same_blend_GLC
                        | (apply respects_modify; reflexivity)]).
Qed.

Lemma same_blend_SetShaderOpacity (o : float) (loc : Z) :
  respects same_blend (SetShaderOpacity o loc).
Proof.
  unfold SetShaderOpacity.
  structure ltac:(first [apply same_blend_preorder | apply same_blend_GLC]).
Qed.

Lemma same_blend_SetShaderQuadF (q : QuadF float) (loc : Z) :
  respects same_blend (SetShaderQuadF q loc).
Proof.
  unfold SetShaderQuadF.
  structure ltac:(first [apply same_blend_preorder | apply same_blend_GLC]).
Qed.

Lemma same_blend_DrawQuadGeometry frame t (r : RectF float) (loc : Z) :
  respects same_blend (DrawQuadGeometry frame t r loc).
Proof.
  unfold DrawQuadGeometry.
  structure ltac:(first [apply same_blend_preorder | apply same_blend_GLC]).
Qed.

Ltac same_blend_primitives :=
  first [ apply same_blend_preorder | apply same_blend_GLC
        | apply same_blend_SetUseProgram | apply same_blend_SetShaderOpacity
        | apply same_blend_SetShaderQuadF | apply same_blend_DrawQuadGeometry ].

Lemma leaves_blend_later {A B} b (m : M A) (f : A -> M B) :
  total m -> (forall a, leaves_blend b (f a)) -> leaves_blend b (m ≫= f).
Proof.
  intros Hm Hf s. rewrite bind_run. destruct (Hm s) as [[a s1] ->]. apply Hf.
Qed.

Lemma leaves_blend_now {A} b (f : unit -> M A) :
  (forall a, total (f a)) -> (forall a, respects same_blend (f a)) ->
  leaves_blend b (SetBlendEnabled b ≫= f).
Proof.
  intros Ht Hr s. rewrite bind_run.
  destruct (SetBlendEnabled_run b s) as (s1 & l & -> & B1 & _).
  destruct (Ht tt s1) as [[a s2] E]. exists a, s2. split; [exact E|].
  apply Hr in E. unfold same_blend in E. congruence.
Qed.

Ltac up_to_blend :=
  repeat match goal with
  | |- leaves_blend ?b (SetBlendEnabled ?b ≫= _) => fail 1
  | |- leaves_blend _ (_ ≫= _) =>
      apply leaves_blend_later; [structure total_primitives|intros]
  end.

(** ** Blending after a solid colour or content quad *)

(** C8, for the quads that are drawn.  When the flattened device transform
    of the quad is invertible, the solid colour routine and the content
    routine (also reached as [DrawTileQuad]) return with blending enabled
    exactly when the quad asks for blending or the anti-aliasing set-up
    answered [use_aa = true]. *)
Theorem blend_follows_blending_or_aa (frame : DrawingFrame) (quad : DrawQuad)
    (s : GLRenderer) :
  IsInvertible (device_transform_of frame (quadTransform quad)) = true ->
  (forall color, exists s',
     DrawSolidColorQuad frame quad color s = Some (tt, s') /\
     blend_shadow_ s' = ShouldDrawWithBlending quad || use_aa_of frame quad) /\
  (forall base resource, exists s',
     DrawContentQuad frame quad base resource s = Some (tt, s') /\
     blend_shadow_ s' = ShouldDrawWithBlending quad || use_aa_of frame quad) /\
  (forall base resource, exists s',
     DrawTileQuad frame quad base resource s = Some (tt, s') /\
     blend_shadow_ s' = ShouldDrawWithBlending quad || use_aa_of frame quad).
Proof.
  intros H.
  assert (C : forall base resource,
    leaves_blend (ShouldDrawWithBlending quad || use_aa_of frame quad)
      (DrawContentQuad frame quad base resource)).
  { intros base resource. unfold use_aa_of, DrawContentQuad. cbv zeta.
    rewrite H. cbn [negb].
    destruct (SetupQuadForAntialiasing _ _ _ _) as [[use_aa local_quad] edge].
    cbn [fst]. up_to_blend.
    apply leaves_blend_now; intros.
    - structure total_primitives.
    - structure same_blend_primitives. }
  assert (S : forall color,
    leaves_blend (ShouldDrawWithBlending quad || use_aa_of frame quad)
      (DrawSolidColorQuad frame quad color)).
  { intros color. unfold use_aa_of, DrawSolidColorQuad. cbv zeta.
    rewrite H. cbn [negb].
    destruct (SetupQuadForAntialiasing _ _ _ _) as [[use_aa local_quad] edge].
    cbn [fst]. up_to_blend.
    apply leaves_blend_now; intros.
    - structure total_primitives.
    - structure same_blend_primitives. }
  split; [|split].
  - intros color. destruct (S color s) as ([] & s' & E). eauto.
  - intros base resource. destruct (C base resource s) as ([] & s' & E). eauto.
  - intros base resource. destruct (C base resource s) as ([] & s' & E). eauto.
Qed.

(** When the transform is not invertible the content routine returns before
    it has touched the blend state, and the solid colour routine after its
    first statement only. *)
Lemma blend_when_not_invertible (frame : DrawingFrame) (quad : DrawQuad)
    (s : GLRenderer) :
  IsInvertible (device_transform_of frame (quadTransform quad)) = false ->
  (forall base resource,
     DrawContentQuad frame quad base resource s = Some (tt, s)) /\
  (forall color, exists s',
     DrawSolidColorQuad frame quad color s = Some (tt, s') /\
     blend_shadow_ s' = ShouldDrawWithBlending quad).
Proof.
  intros H. split.
  - intros. unfold DrawContentQuad. cbn zeta. rewrite bind_run.
    unfold RequiredPrecision at 1. unfold get at 1. now rewrite H.
  - intros color.
    destruct (SetBlendEnabled_run (ShouldDrawWithBlending quad) s)
      as (s1 & l & R1 & B1 & _).
    exists s1. split; [|assumption].
    unfold DrawSolidColorQuad. rewrite bind_run, R1. cbn zeta. now rewrite H.
Qed.

(** ** The texture batching cache *)

Lemma to_int32_inj (a b : Z) :
  is_uint32 a -> is_uint32 b -> to_int32 a = to_int32 b -> a = b.
Proof.
  unfold is_uint32, to_int32.
  change (2 ^ 32) with 4294967296. change (2 ^ 31) with 2147483648.
  intros Ha Hb. Z.div_mod_to_equations. lia.
Qed.

Lemma to_int32_zero (a : Z) : is_uint32 a -> to_int32 a = 0 -> a = 0.
Proof. intros Ha. apply (to_int32_inj a 0 Ha). unfold is_uint32. lia. Qed.

Lemma FlushTextureQuadCache_empty (s : GLRenderer) :
  program_id (draw_cache_ s) = 0 -> FlushTextureQuadCache s = Some (tt, s).
Proof.
  intros H. unfold FlushTextureQuadCache. rewrite bind_run. unfold get at 1.
  now rewrite H.
Qed.

Lemma draw_calls_extend (s s' : GLRenderer) (l : list Issued) :
  context_ s' = context_ s ++ l ->
  draw_calls s' = draw_calls s ++ List.filter is_draw_call (map call l).
Proof.
  intros E. unfold draw_calls. rewrite (calls_extend s s' l E).
  apply List.filter_app.
Qed.

(** A flush of a cache that holds a batch: one draw call for the whole
    batch, six indices a quad, and the cache is cleared. *)
Lemma FlushTextureQuadCache_batch (s : GLRenderer) :
  program_id (draw_cache_ s) <> 0 ->
  exists s',
    FlushTextureQuadCache s = Some (tt, s') /\
    draw_calls s' =
      draw_calls s ++
      [drawElements GL_TRIANGLES
         (6 * Z.of_nat (length (matrix_data (draw_cache_ s)))) GL_UNSIGNED_SHORT 0] /\
    draw_cache_ s' = set_data [] [] [] (set_program_id 0 (draw_cache_ s)) /\
    settings s' = settings s.
Proof.
  intros H. apply Z.eqb_neq in H.
  unfold FlushTextureQuadCache, lock_texture_id. primitives. cbn. rewrite H.
  split_tests.
  all: eexists; (split; [reflexivity|]).
  all: (split; [|split; reflexivity]).
  all: erewrite (draw_calls_extend s) by (cbn; rewrite <- ?app_assoc; reflexivity).
  all: reflexivity.
Qed.

Lemma FlushTextureQuadCache_settings (s s' : GLRenderer) :
  FlushTextureQuadCache s = Some (tt, s') -> settings s' = settings s.
Proof.
  destruct (Z.eq_dec (program_id (draw_cache_ s)) 0) as [E|E].
  - rewrite FlushTextureQuadCache_empty by exact E. now intros [= <-].
  - destruct (FlushTextureQuadCache_batch s E) as (s1 & -> & _ & _ & S1).
    now intros [= <-].
Qed.

Lemma total_FlushTextureQuadCache : total FlushTextureQuadCache.
Proof.
  intros s. destruct (Z.eq_dec (program_id (draw_cache_ s)) 0) as [E|E].
  - rewrite FlushTextureQuadCache_empty by exact E. eauto.
  - destruct (FlushTextureQuadCache_batch s E) as (s1 & -> & _). eauto.
Qed.

(** The two ways [EnqueueTextureQuad] can go. *)
Lemma EnqueueTextureQuad_joins (frame : DrawingFrame) (q : TexturedQuad)
    (s : GLRenderer) :
  flushes_first (settings s) (draw_cache_ s) q = false ->
  EnqueueTextureQuad frame (fst q) (snd q) s =
  Some (tt, set_draw_cache_ (append_quad frame q (draw_cache_ s)) s).
Proof.
  destruct q as [quad tq]. unfold flushes_first, selected_program. cbn [fst snd].
  intros H. unfold EnqueueTextureQuad, texture_binding. primitives. cbn.
  destruct (flipped tq); cbn; unfold GetTextureProgramFlip, GetTextureProgram;
    primitives; cbn; rewrite H; cbn;
    destruct (vertex_opacity tq) as [[[vo0 vo1] vo2] vo3]; reflexivity.
Qed.

Lemma EnqueueTextureQuad_flushes (frame : DrawingFrame) (q : TexturedQuad)
    (s : GLRenderer) :
  flushes_first (settings s) (draw_cache_ s) q = true ->
  exists s1,
    FlushTextureQuadCache s = Some (tt, s1) /\
    EnqueueTextureQuad frame (fst q) (snd q) s =
    Some (tt, set_draw_cache_
                (append_quad frame q (new_batch (settings s) q (draw_cache_ s1))) s1).
Proof.
  destruct q as [quad tq].
  unfold flushes_first, new_batch, selected_program. cbn [fst snd].
  intros H. destruct (total_FlushTextureQuadCache s) as [[[] s1] F].
  exists s1. split; [exact F|].
  unfold EnqueueTextureQuad, texture_binding. primitives. cbn.
  destruct (flipped tq); cbn; unfold GetTextureProgramFlip, GetTextureProgram;
    primitives; cbn; rewrite H; cbn; rewrite F; cbn;
    destruct (vertex_opacity tq) as [[[vo0 vo1] vo2] vo3]; reflexivity.
Qed.

Lemma flushes_first_false (cfg : Settings) (c : TexturedQuadDrawCache)
    (q : TexturedQuad) :
  flushes_first cfg c q = false <->
  holds_batch cfg c q (length (matrix_data c)) /\ (length (matrix_data c) < 8)%nat.
Proof.
  unfold flushes_first, must_flush, holds_batch. cbn.
  rewrite !orb_false_iff, !negb_false_iff, !Z.eqb_eq, !eqb_true_iff, Z.leb_gt.
  intuition lia.
Qed.

Lemma holds_batch_compatible (cfg : Settings) (c : TexturedQuadDrawCache)
    (a b : TexturedQuad) (n : nat) :
  batch_compatible cfg a b -> holds_batch cfg c a n -> holds_batch cfg c b n.
Proof.
  unfold batch_compatible, holds_batch.
  intros (<- & <- & <- & <-). trivial.
Qed.

Lemma holds_batch_append (frame : DrawingFrame) (cfg : Settings)
    (c : TexturedQuadDrawCache) (a q : TexturedQuad) (n : nat) :
  holds_batch cfg c a n -> holds_batch cfg (append_quad frame q c) a (S n).
Proof.
  unfold holds_batch, append_quad. destruct q as [quad tq].
  destruct (vertex_opacity tq) as [[[vo0 vo1] vo2] vo3]. cbn.
  rewrite length_app. cbn. intuition lia.
Qed.

Lemma holds_batch_started (frame : DrawingFrame) (cfg : Settings)
    (c : TexturedQuadDrawCache) (q : TexturedQuad) :
  holds_batch cfg (append_quad frame q (new_batch cfg q c)) q
    (S (length (matrix_data c))).
Proof.
  unfold holds_batch, append_quad, new_batch. destruct q as [quad tq].
  destruct (vertex_opacity tq) as [[[vo0 vo1] vo2] vo3]. cbn.
  rewrite length_app. cbn. intuition lia.
Qed.

Lemma holds_batch_new (frame : DrawingFrame) (cfg : Settings)
    (c : TexturedQuadDrawCache) (q : TexturedQuad) :
  matrix_data c = [] ->
  holds_batch cfg (append_quad frame q (new_batch cfg q c)) q 1.
Proof.
  intros E. generalize (holds_batch_started frame cfg c q). now rewrite E.
Qed.

Lemma enqueue_all_app (frame : DrawingFrame) (qs qs' : list TexturedQuad)
    (s : GLRenderer) :
  enqueue_all frame (qs ++ qs') s =
  (enqueue_all frame qs;; enqueue_all frame qs') s.
Proof.
  revert s. induction qs as [|q qs IH]; intros s; [reflexivity|].
  cbn [app enqueue_all]. rewrite !bind_run.
  destruct (EnqueueTextureQuad _ _ _ s) as [[[] s1]|]; [|reflexivity].
  rewrite IH. now rewrite bind_run.
Qed.

(** Compatible quads join the batch in the cache, without a call, as long
    as there is room. *)
Lemma enqueue_all_joins (frame : DrawingFrame) (q : TexturedQuad)
    (qs : list TexturedQuad) :
  forall (s : GLRenderer) (n : nat),
    holds_batch (settings s) (draw_cache_ s) q n ->
    (n + length qs <= 8)%nat ->
    Forall (batch_compatible (settings s) q) qs ->
    exists s',
      enqueue_all frame qs s = Some (tt, s') /\
      context_ s' = context_ s /\ settings s' = settings s /\
      holds_batch (settings s) (draw_cache_ s') q (n + length qs).
Proof.
  induction qs as [|q1 qs IH]; intros s n Hn Hroom Hall.
  - exists s. rewrite Nat.add_0_r. auto.
  - cbn [length] in Hroom. inversion Hall as [|? ? Hq1 Hqs]; subst.
    assert (J : flushes_first (settings s) (draw_cache_ s) q1 = false).
    { apply flushes_first_false.
      assert (L : length (matrix_data (draw_cache_ s)) = n) by apply Hn.
      rewrite L. split; [|lia].
      eapply holds_batch_compatible; eassumption. }
    cbn [enqueue_all]. rewrite bind_run, (EnqueueTextureQuad_joins frame q1 s J).
    destruct (IH (set_draw_cache_ (append_quad frame q1 (draw_cache_ s)) s) (S n))
      as (s' & R & C & S' & H'); cbn.
    + now apply holds_batch_append.
    + lia.
    + exact Hqs.
    + exists s'. cbn [length]. rewrite Nat.add_succ_r. auto.
Qed.

Lemma incompatible_flushes (cfg : Settings) (c : TexturedQuadDrawCache)
    (a b : TexturedQuad) (n : nat) :
  well_formed cfg a -> well_formed cfg b ->
  ~ batch_compatible cfg a b -> holds_batch cfg c a n ->
  flushes_first cfg c b = true.
Proof.
  intros [Pa Ra] [Pb Rb] Hne Ha.
  destruct (flushes_first cfg c b) eqn:E; [reflexivity|].
  apply flushes_first_false in E. destruct E as [Hb _].
  exfalso. apply Hne. unfold holds_batch, batch_compatible in *.
  destruct Ha as (A1 & A2 & A3 & A4 & _). destruct Hb as (B1 & B2 & B3 & B4 & _).
  repeat split.
  - apply to_int32_inj; congruence.
  - apply to_int32_inj; congruence.
  - congruence.
  - congruence.
Qed.

Lemma cache_empty_cleared (c : TexturedQuadDrawCache) :
  cache_empty (set_data [] [] [] (set_program_id 0 c)).
Proof. repeat split. Qed.

Lemma holds_batch_program (cfg : Settings) (c : TexturedQuadDrawCache)
    (q : TexturedQuad) (n : nat) :
  well_formed cfg q -> program (selected_program cfg q) <> 0 ->
  holds_batch cfg c q n -> program_id c <> 0.
Proof.
  intros [Hp _] Hne (E & _) H0. rewrite H0 in E. symmetry in E.
  apply to_int32_zero in E; auto.
Qed.

(** From an empty cache, a first quad whose program is a real one and quads
    compatible with it make one batch, and no call is issued. *)
Lemma batch_accumulates (frame : DrawingFrame) (q : TexturedQuad)
    (qs : list TexturedQuad) (s : GLRenderer) :
  cache_empty (draw_cache_ s) ->
  (length (q :: qs) <= 8)%nat ->
  Forall (batch_compatible (settings s) q) qs ->
  well_formed (settings s) q -> program (selected_program (settings s) q) <> 0 ->
  exists s',
    enqueue_all frame (q :: qs) s = Some (tt, s') /\
    context_ s' = context_ s /\ settings s' = settings s /\
    holds_batch (settings s) (draw_cache_ s') q (length (q :: qs)).
Proof.
  intros (E0 & _ & _ & Em) Hroom Hall Hwf Hprog.
  cbn [enqueue_all]. rewrite bind_run.
  assert (F : flushes_first (settings s) (draw_cache_ s) q = true).
  { destruct (flushes_first _ _ q) eqn:F; [reflexivity|].
    apply flushes_first_false in F. destruct F as [F _].
    destruct (holds_batch_program _ _ _ _ Hwf Hprog F E0). }
  destruct (EnqueueTextureQuad_flushes frame q s F) as (s1 & F1 & ->).
  rewrite FlushTextureQuadCache_empty in F1 by exact E0. injection F1 as <-.
  cbn [length] in Hroom.
  destruct (enqueue_all_joins frame q qs
              (set_draw_cache_
                 (append_quad frame q (new_batch (settings s) q (draw_cache_ s))) s) 1)
    as (s' & R & C & S' & H'); cbn.
  - now apply holds_batch_new.
  - lia.
  - exact Hall.
  - exists s'. auto.
Qed.

(** C1, for programs that exist.  Let the cache be empty (program id 0, the
    three per-instance arrays empty) and let N quads, 1 <= N <= 8, be
    mutually compatible, with a selected program whose GL name is not 0.
    Enqueuing them and flushing issues exactly one draw call, of 6 * N
    indices, and leaves the cache empty.  With one more quad that is not
    compatible with them (and whose program is not 0 either) enqueued before
    the flush, exactly two draw calls are issued, of 6 * N and of 6 indices,
    and the cache is empty in the end.  A flush of the empty cache does
    nothing at all. *)
Theorem compatible_quads_are_drawn_in_one_call (frame : DrawingFrame)
    (q : TexturedQuad) (qs : list TexturedQuad) (s : GLRenderer) :
  cache_empty (draw_cache_ s) ->
  (length (q :: qs) <= 8)%nat ->
  Forall (batch_compatible (settings s) q) qs ->
  well_formed (settings s) q ->
  program (selected_program (settings s) q) <> 0 ->
  (exists s',
     (enqueue_all frame (q :: qs);; FlushTextureQuadCache) s = Some (tt, s') /\
     draw_calls s' =
       draw_calls s ++
       [drawElements GL_TRIANGLES (6 * Z.of_nat (length (q :: qs)))
          GL_UNSIGNED_SHORT 0] /\
     cache_empty (draw_cache_ s')) /\
  (forall q',
     ~ batch_compatible (settings s) q q' ->
     well_formed (settings s) q' ->
     program (selected_program (settings s) q') <> 0 ->
     exists s',
       (enqueue_all frame ((q :: qs) ++ [q']);; FlushTextureQuadCache) s =
         Some (tt, s') /\
       draw_calls s' =
         draw_calls s ++
         [drawElements GL_TRIANGLES (6 * Z.of_nat (length (q :: qs)))
            GL_UNSIGNED_SHORT 0;
          drawElements GL_TRIANGLES 6 GL_UNSIGNED_SHORT 0] /\
       cache_empty (draw_cache_ s')) /\
  FlushTextureQuadCache s = Some (tt, s).
Proof.
  intros Hempty Hroom Hall Hwf Hprog.
  destruct (batch_accumulates frame q qs s Hempty Hroom Hall Hwf Hprog)
    as (s1 & R1 & C1 & S1 & H1).
  assert (P1 : program_id (draw_cache_ s1) <> 0)
    by (eapply holds_batch_program; eassumption).
  assert (L1 : length (matrix_data (draw_cache_ s1)) = length (q :: qs))
    by apply H1.
  assert (D1 : draw_calls s1 = draw_calls s)
    by (unfold draw_calls, calls; now rewrite C1).
  split; [|split].
  - destruct (FlushTextureQuadCache_batch s1 P1) as (s2 & R2 & D2 & K2 & _).
    exists s2. rewrite bind_run, R1, R2. split; [reflexivity|].
    rewrite D2, D1, L1, K2. split; [reflexivity|apply cache_empty_cleared].
  - intros q' Hne Hwf' Hprog'.
    assert (F : flushes_first (settings s1) (draw_cache_ s1) q' = true).
    { rewrite S1. eapply (incompatible_flushes _ _ q q'); eassumption. }
    destruct (EnqueueTextureQuad_flushes frame q' s1 F) as (s2 & R2 & R3).
    destruct (FlushTextureQuadCache_batch s1 P1) as (s2' & R2' & D2 & K2 & S2).
    rewrite R2 in R2'. injection R2' as <-.
    set (s3 := set_draw_cache_
                 (append_quad frame q' (new_batch (settings s1) q' (draw_cache_ s2)))
                 s2) in R3.
    assert (H3 : holds_batch (settings s1) (draw_cache_ s3) q' 1).
    { apply holds_batch_new. now rewrite K2. }
    assert (P3 : program_id (draw_cache_ s3) <> 0).
    { eapply holds_batch_program; [| |exact H3]; now rewrite S1. }
    destruct (FlushTextureQuadCache_batch s3 P3) as (s4 & R4 & D4 & K4 & _).
    exists s4. rewrite bind_run, enqueue_all_app, bind_run, R1.
    cbn [enqueue_all]. rewrite bind_run, R3. cbn. rewrite R4.
    split; [reflexivity|].
    destruct H3 as (_ & _ & _ & _ & L3). rewrite D4, L3, K4.
    assert (D3 : draw_calls s3 = draw_calls s2) by reflexivity.
    rewrite D3, D2, D1, L1, <- app_assoc.
    split; [reflexivity|apply cache_empty_cleared].
  - apply FlushTextureQuadCache_empty, Hempty.
Qed.

(** After a quad has been enqueued, the cache holds a batch of that quad's
    kind, whatever it held before. *)
Lemma EnqueueTextureQuad_holds (frame : DrawingFrame) (a : TexturedQuad)
    (s s1 : GLRenderer) :
  EnqueueTextureQuad frame (fst a) (snd a) s = Some (tt, s1) ->
  settings s1 = settings s /\
  holds_batch (settings s) (draw_cache_ s1) a (length (matrix_data (draw_cache_ s1))).
Proof.
  destruct (flushes_first (settings s) (draw_cache_ s) a) eqn:F.
  - destruct (EnqueueTextureQuad_flushes frame a s F) as (s0 & F0 & ->).
    intros [= <-]. cbn. split; [eapply FlushTextureQuadCache_settings, F0|].
    generalize (holds_batch_started frame (settings s) (draw_cache_ s0) a).
    unfold holds_batch. intuition.
  - rewrite (EnqueueTextureQuad_joins frame a s F). intros [= <-]. cbn.
    split; [reflexivity|].
    apply flushes_first_false in F. destruct F as [F _].
    generalize (holds_batch_append frame (settings s) (draw_cache_ s) a a _ F).
    unfold holds_batch. intuition.
Qed.

Lemma batch_compatible_equivalence (cfg : Settings) :
  Equivalence (batch_compatible cfg).
Proof.
  split.
  - intros a. repeat split.
  - intros a b (H1 & H2 & H3 & H4). repeat split; congruence.
  - intros a b c (H1 & H2 & H3 & H4) (K1 & K2 & K3 & K4).
    repeat split; congruence.
Qed.

Lemma variant_compatible_equivalence (cfg : Settings) :
  Equivalence (variant_compatible cfg).
Proof.
  split.
  - intros a. repeat split.
  - intros a b (H1 & H2 & H3 & H4). repeat split; congruence.
  - intros a b c (H1 & H2 & H3 & H4) (K1 & K2 & K3 & K4).
    repeat split; congruence.
Qed.

Lemma selected_program_variant (cfg : Settings) (q : TexturedQuad) :
  selected_program cfg q =
  programs cfg (fst (selected_variant cfg q)) (snd (selected_variant cfg q)).
Proof. reflexivity. Qed.

(** Quads that agree on the variant agree on the name of the program; the
    converse needs names that tell the variants apart. *)
Lemma variant_compatible_names (cfg : Settings) (a b : TexturedQuad) :
  variant_compatible cfg a b -> batch_compatible cfg a b.
Proof.
  intros (V & H2 & H3 & H4). repeat split; try assumption.
  now rewrite !selected_program_variant, V.
Qed.

Lemma names_variant_compatible (cfg : Settings) (a b : TexturedQuad) :
  names_tell_variants_apart cfg ->
  batch_compatible cfg a b -> variant_compatible cfg a b.
Proof.
  intros Inj (N & H2 & H3 & H4). repeat split; try assumption.
  unfold selected_program in N. unfold selected_variant.
  assert (Ka : (if flipped (snd a) then TextureProgramFlip else TextureProgram) =
               TextureProgram \/
               (if flipped (snd a) then TextureProgramFlip else TextureProgram) =
               TextureProgramFlip) by (destruct (flipped (snd a)); auto).
  assert (Kb : (if flipped (snd b) then TextureProgramFlip else TextureProgram) =
               TextureProgram \/
               (if flipped (snd b) then TextureProgramFlip else TextureProgram) =
               TextureProgramFlip) by (destruct (flipped (snd b)); auto).
  destruct (Inj _ _ _ _ Ka Kb N) as [-> ->]. reflexivity.
Qed.


(** ** The cache at the boundaries of a batch *)

Lemma untouched_preorder : PreOrder untouched.
Proof.
  split.
  - intros s. split; [reflexivity|]. exists []. now rewrite app_nil_r.
  - intros s1 s2 s3 (C1 & l1 & E1 & F1) (C2 & l2 & E2 & F2).
    split; [congruence|]. exists (l1 ++ l2). rewrite E2, E1, app_assoc.
    split; [reflexivity|]. apply Forall_app. split; [exact F1|].
    rewrite C1 in F2. exact F2.
Qed.

#[local] Existing Instance untouched_preorder.

Lemma untouched_GLC (c : Call) : respects untouched (GLC c).
Proof.
  intros s a s' [= _ <-]. split; [reflexivity|].
  eexists. split; [reflexivity|]. repeat constructor.
Qed.

Lemma untouched_fields (s s' : GLRenderer) :
  draw_cache_ s' = draw_cache_ s -> context_ s' = context_ s -> untouched s s'.
Proof.
  intros C E. split; [exact C|]. exists []. rewrite app_nil_r. auto.
Qed.

Ltac untouched_primitives :=
  first [ apply untouched_preorder | apply untouched_GLC
        | (apply respects_modify; intros ?; apply untouched_fields; reflexivity) ].

Ltac routines :=
  unfold DrawMaterial, DrawCheckerboardQuad, DrawDebugBorderQuad,
    DrawIOSurfaceQuad, DrawPictureQuad, DrawTileQuad, DrawContentQuad,
    DrawRenderPassQuad, DrawSolidColorQuad, DrawStreamVideoQuad,
    DrawYUVVideoQuad, DrawBackgroundFilters, CopyTextureToFramebuffer,
    GetFramebufferTexture, UseRenderPass, UseScopedTexture,
    BindFramebufferToTexture, BindFramebufferToOutputSurface,
    SetDrawViewportSize, ApplyFilters, ApplyImageFilter, Allocate, Free,
    lock_texture_id, SetBlendEnabled, SetUseProgram, SetShaderOpacity,
    SetShaderQuadF, DrawQuadGeometry, GetTileCheckerboardProgram,
    GetDebugBorderProgram, GetSolidColorProgram, GetSolidColorProgramAA,
    GetVideoStreamTextureProgram, GetVideoYUVProgram,
    GetTextureIOSurfaceProgram, GetTileProgram, GetTileProgramOpaque,
    GetTileProgramAA, GetTileProgramSwizzle, GetTileProgramSwizzleOpaque,
    GetTileProgramSwizzleAA, GetRenderPassProgram, RequiredPrecision,
    GetProgram.

(** No routine but the two of the cache itself writes to the cache: the
    routine of any material other than TEXTURE_CONTENT leaves it as it
    found it, and issues all its calls with it. *)
Lemma DrawMaterial_untouched (frame : DrawingFrame) (quad : DrawQuad) :
  is_TEXTURE_CONTENT (material quad) = false ->
  respects untouched (DrawMaterial frame quad).
Proof.
  intros H. routines.
  destruct (material quad); try discriminate H; clear H.
  all: structure untouched_primitives.
Qed.

Lemma FlushTextureQuadCache_spec (s : GLRenderer) :
  exists s0 l,
    FlushTextureQuadCache s = Some (tt, s0) /\
    context_ s0 = context_ s ++ l /\ flush_entries l /\
    program_id (draw_cache_ s0) = 0 /\
    (cache_wf (draw_cache_ s) -> cache_empty (draw_cache_ s0)) /\
    is_scissor_enabled_ s0 = is_scissor_enabled_ s /\
    scissor_rect_ s0 = scissor_rect_ s.
Proof.
  destruct (Z.eq_dec (program_id (draw_cache_ s)) 0) as [E|E].
  - exists s, []. rewrite FlushTextureQuadCache_empty, app_nil_r by exact E.
    split; [reflexivity|]. split; [reflexivity|]. split; [constructor|].
    split; [exact E|]. split; [|split; reflexivity].
    intros H. exact (H E).
  - apply Z.eqb_neq in E.
    unfold FlushTextureQuadCache, lock_texture_id. primitives. cbn. rewrite E.
    split_tests.
    all: eexists _, _; (split; [reflexivity|]); cbn.
    all: (split; [rewrite <- ?app_assoc; reflexivity|]).
    all: (split; [|repeat split]).
    all: unfold flush_entries, is_scissor_change; cbn.
    all: repeat constructor.
    all: intros [H|[H|(x & y & w & h & H)]]; discriminate H.
Qed.

Lemma cache_wf_append (frame : DrawingFrame) (cfg : Settings)
    (q : TexturedQuad) (c : TexturedQuadDrawCache) (n : nat) :
  well_formed cfg q -> program (selected_program cfg q) <> 0 ->
  holds_batch cfg c q n -> cache_wf c.
Proof.
  intros Hwf Hp H E. destruct (holds_batch_program cfg c q n Hwf Hp H E).
Qed.

(** Enqueuing a quad whose program is a real one keeps the cache well
    formed. *)
Lemma EnqueueTextureQuad_wf (frame : DrawingFrame) (q : TexturedQuad)
    (s s1 : GLRenderer) :
  well_formed (settings s) q -> program (selected_program (settings s) q) <> 0 ->
  EnqueueTextureQuad frame (fst q) (snd q) s = Some (tt, s1) ->
  cache_wf (draw_cache_ s1).
Proof.
  intros Hwf Hp R. destruct (EnqueueTextureQuad_holds frame q s s1 R) as [_ H].
  eapply cache_wf_append; eassumption.
Qed.

Lemma flush_entries_no_scissor (l : list Issued) :
  flush_entries l -> scissor_changes_on_empty_cache l.
Proof. apply List.Forall_impl. intros i H H'. destruct (H H'). Qed.

Lemma EnsureScissorTestEnabled_spec (s : GLRenderer) :
  cache_wf (draw_cache_ s) ->
  exists s' l,
    EnsureScissorTestEnabled s = Some (tt, s') /\
    context_ s' = context_ s ++ l /\ scissor_changes_on_empty_cache l /\
    cache_wf (draw_cache_ s') /\ is_scissor_enabled_ s' = true /\
    scissor_rect_ s' = scissor_rect_ s.
Proof.
  intros Hwf. unfold EnsureScissorTestEnabled. rewrite bind_run. unfold get at 1.
  destruct (is_scissor_enabled_ s) eqn:En.
  - exists s, []. rewrite app_nil_r.
    split; [reflexivity|]. split; [reflexivity|]. split; [constructor|].
    auto.
  - destruct (FlushTextureQuadCache_spec s) as (s0 & l & R & C & F & P0 & E0 & _ & SR).
    assert (W0 : cache_wf (draw_cache_ s0)) by (intros _; auto).
    rewrite bind_run, R. primitives. cbn.
    eexists _, _. split; [reflexivity|]. cbn. rewrite C, <- app_assoc.
    split; [reflexivity|]. split; [|auto].
    apply Forall_app. split; [now apply flush_entries_no_scissor|].
    constructor; [|constructor]. intros _. cbn. auto.
Qed.

Lemma EnsureScissorTestDisabled_spec (s : GLRenderer) :
  cache_wf (draw_cache_ s) ->
  exists s' l,
    EnsureScissorTestDisabled s = Some (tt, s') /\
    context_ s' = context_ s ++ l /\ scissor_changes_on_empty_cache l /\
    cache_wf (draw_cache_ s') /\ is_scissor_enabled_ s' = false.
Proof.
  intros Hwf. unfold EnsureScissorTestDisabled. rewrite bind_run. unfold get at 1.
  destruct (is_scissor_enabled_ s) eqn:En; cbn [negb].
  - destruct (FlushTextureQuadCache_spec s) as (s0 & l & R & C & F & P0 & E0 & _).
    assert (W0 : cache_wf (draw_cache_ s0)) by (intros _; auto).
    rewrite bind_run, R. primitives. cbn.
    eexists _, _. split; [reflexivity|]. cbn. rewrite C, <- app_assoc.
    split; [reflexivity|]. split; [|auto].
    apply Forall_app. split; [now apply flush_entries_no_scissor|].
    constructor; [|constructor]. intros _. cbn. auto.
  - exists s, []. rewrite app_nil_r.
    split; [reflexivity|]. split; [reflexivity|]. split; [constructor|].
    auto.
Qed.

Lemma SetScissorTestRect_spec (scissor_rect : Rect) (s : GLRenderer) :
  cache_wf (draw_cache_ s) ->
  exists s' l,
    SetScissorTestRect scissor_rect s = Some (tt, s') /\
    context_ s' = context_ s ++ l /\ scissor_changes_on_empty_cache l /\
    cache_wf (draw_cache_ s').
Proof.
  intros Hwf. unfold SetScissorTestRect.
  destruct (EnsureScissorTestEnabled_spec s Hwf)
    as (s1 & l1 & R1 & C1 & F1 & W1 & _ & _).
  rewrite bind_run, R1, bind_run. unfold get at 1.
  destruct (Rect_eqb scissor_rect (scissor_rect_ s1)).
  - exists s1, l1. auto.
  - rewrite bind_run. unfold modify at 1.
    destruct (FlushTextureQuadCache_spec (set_scissor_rect_ scissor_rect s1))
      as (s2 & l2 & R2 & C2 & F2 & P2 & E2 & _).
    assert (W2 : cache_wf (draw_cache_ s2)) by (intros _; auto).
    rewrite bind_run, R2. primitives. cbn.
    eexists _, _. split; [reflexivity|]. cbn in *.
    rewrite C2, C1, <- !app_assoc.
    split; [reflexivity|]. split; [|exact W2].
    apply Forall_app. split; [exact F1|].
    apply Forall_app. split; [now apply flush_entries_no_scissor|].
    constructor; [|constructor]. intros _. cbn. auto.
Qed.

(** X22.  The cache is flushed at the boundaries of a batch, as long as it
    is well formed.  Start from a renderer whose cache is well formed (its
    arrays are empty whenever its program id is 0).
    - A quad of any material but TEXTURE_CONTENT is dispatched on the
      flushed cache: [DoDrawQuad] is the material's routine run after
      [FlushTextureQuadCache], the cache is empty when the routine starts,
      every call the routine issues is issued with the empty cache, and the
      cache is empty when it returns.
    - Every scissor-test enable or disable and every scissor rect that
      [SetScissorTestRect], [EnsureScissorTestEnabled] and
      [EnsureScissorTestDisabled] issue is issued with the empty cache.
    - After [FinishDrawingQuadList] the cache is empty. *)
Theorem cache_is_flushed_at_boundaries (s : GLRenderer) :
  cache_wf (draw_cache_ s) ->
  (forall frame quad,
     is_TEXTURE_CONTENT (material quad) = false ->
     exists s0,
       FlushTextureQuadCache s = Some (tt, s0) /\
       cache_empty (draw_cache_ s0) /\
       DoDrawQuad frame quad s = DrawMaterial frame quad s0 /\
       forall frame' s',
         DrawMaterial frame quad s0 = Some (frame', s') ->
         cache_empty (draw_cache_ s') /\
         exists l, context_ s' = context_ s0 ++ l /\
                   Forall (fun i => cache_empty (issued_with i)) l) /\
  (forall scissor_rect, exists s' l,
     SetScissorTestRect scissor_rect s = Some (tt, s') /\
     context_ s' = context_ s ++ l /\ scissor_changes_on_empty_cache l) /\
  (exists s' l,
     EnsureScissorTestEnabled s = Some (tt, s') /\
     context_ s' = context_ s ++ l /\ scissor_changes_on_empty_cache l) /\
  (exists s' l,
     EnsureScissorTestDisabled s = Some (tt, s') /\
     context_ s' = context_ s ++ l /\ scissor_changes_on_empty_cache l) /\
  (exists s', FinishDrawingQuadList s = Some (tt, s') /\
              cache_empty (draw_cache_ s')).
Proof.
  intros Hwf.
  destruct (FlushTextureQuadCache_spec s) as (s0 & l0 & R0 & C0 & F0 & P0 & E0 & _).
  specialize (E0 Hwf).
  split; [|split; [|split; [|split]]].
  - intros frame quad Hm. exists s0. repeat (split; [assumption|]). split.
    + unfold DoDrawQuad. rewrite Hm. cbn [negb when]. now rewrite bind_run, R0.
    + intros frame' s' R.
      destruct (DrawMaterial_untouched frame quad Hm _ _ _ R) as (C & l & E & F).
      split; [now rewrite C|]. exists l. split; [exact E|].
      eapply List.Forall_impl; [|exact F]. cbn. intros i ->. exact E0.
  - intros scissor_rect.
    destruct (SetScissorTestRect_spec scissor_rect s Hwf) as (s' & l & R & C & F & _).
    eauto.
  - destruct (EnsureScissorTestEnabled_spec s Hwf) as (s' & l & R & C & F & _).
    eauto.
  - destruct (EnsureScissorTestDisabled_spec s Hwf) as (s' & l & R & C & F & _).
    eauto.
  - exists s0. split; [exact R0|exact E0].
Qed.

(** ** Anti-aliasing of pixel-aligned quads *)

Lemma no_aa_when_pixel_aligned (device_transform : Transform) (quad : DrawQuad)
    (local_quad : QuadF float) (edge : list float) :
  QuadF_IsRectilinear (device_layer_quad_of device_transform quad) = true ->
  IsNearestRectWithinDistance
    (QuadF_BoundingBox (device_layer_quad_of device_transform quad))
    kAntiAliasingEpsilon = true ->
  SetupQuadForAntialiasing device_transform quad local_quad edge =
  (false, local_quad, edge).
Proof.
  unfold device_layer_quad_of, SetupQuadForAntialiasing.
  destruct (MapQuad _ _) as [device_layer_quad clipped]. cbn [fst].
  intros -> ->. cbn. now rewrite andb_false_r.
Qed.

(** X23.  The three ways in which [SetupQuadForAntialiasing] decides
    against anti-aliasing, for every realisation of the library: the
    device-space quad is rectilinear with its bounding box within 1/1024 of
    the nearest integer rect, or the quad has no edge to anti-alias, or the
    quad was clipped when it was mapped to device space.  In each case the
    routine returns [false] and the local quad and the edge array keep the
    values they came with. *)
Theorem three_ways_to_do_without_anti_aliasing (device_transform : Transform)
    (quad : DrawQuad) (local_quad : QuadF float) (edge : list float) :
  (QuadF_IsRectilinear (device_layer_quad_of device_transform quad) = true ->
   IsNearestRectWithinDistance
     (QuadF_BoundingBox (device_layer_quad_of device_transform quad))
     kAntiAliasingEpsilon = true ->
   SetupQuadForAntialiasing device_transform quad local_quad edge =
   (false, local_quad, edge)) /\
  (IsEdge quad = false ->
   SetupQuadForAntialiasing device_transform quad local_quad edge =
   (false, local_quad, edge)) /\
  (snd (MapQuad device_transform (QuadF_of_Rect (visibleContentRect quad))) =
     true ->
   SetupQuadForAntialiasing device_transform quad local_quad edge =
   (false, local_quad, edge)).
Proof.
  split; [apply no_aa_when_pixel_aligned|]. split.
  - intros E. unfold SetupQuadForAntialiasing.
    destruct (MapQuad _ _) as [device_layer_quad clipped].
    rewrite E, andb_false_r. reflexivity.
  - unfold SetupQuadForAntialiasing.
    destruct (MapQuad _ _) as [device_layer_quad clipped]. cbn [snd].
    intros ->. reflexivity.
Qed.

(** ** Reasoning about what a routine leaves *)

Lemma last_set_snoc {A} (sets : Call -> option A) (l : list Call) (c : Call) :
  last_set sets (l ++ [c]) =
  match sets c with Some v => Some v | None => last_set sets l end.
Proof. unfold last_set. rewrite fold_left_app. reflexivity. Qed.

Lemma last_set_app_none {A} (sets : Call -> option A) (l l' : list Call) :
  Forall (fun c => sets c = None) l' -> last_set sets (l ++ l') = last_set sets l.
Proof.
  induction l' as [|c l' IH] using rev_ind; intros H.
  - now rewrite app_nil_r.
  - apply Forall_app in H as [H1 H2]. rewrite app_assoc, last_set_snoc.
    inversion H2 as [|? ? E _]; subst. rewrite E. auto.
Qed.

Lemma calls_GLC (c : Call) (s : GLRenderer) :
  calls (set_context_ (context_ s ++ [Build_Issued c (draw_cache_ s)]) s) =
  calls s ++ [c].
Proof. unfold calls. cbn. now rewrite map_app. Qed.

Lemma triple_ret {A} (I : GLRenderer -> Prop) (a : A) : triple I (mret a) I.
Proof. intros s a' s' H [= _ <-]. exact H. Qed.

Lemma triple_get {A} (I : GLRenderer -> Prop) (f : GLRenderer -> A) :
  triple I (get f) I.
Proof. intros s a' s' H [= _ <-]. exact H. Qed.

Lemma triple_crash {A} (I J : GLRenderer -> Prop) : triple I (crash (A := A)) J.
Proof. intros s a' s' _ [=]. Qed.

Lemma triple_bind {A B} (K I J : GLRenderer -> Prop) (m : M A) (f : A -> M B) :
  triple I m K -> (forall a, triple K (f a) J) -> triple I (m ≫= f) J.
Proof.
  intros Hm Hf s b s' Hs. rewrite bind_run.
  destruct (m s) as [[a s1]|] eqn:E; [|discriminate].
  apply (Hf a), (Hm s a), E. exact Hs.
Qed.

Lemma triple_modify (I J : GLRenderer -> Prop) (f : GLRenderer -> GLRenderer) :
  (forall s, I s -> J (f s)) -> triple I (modify f) J.
Proof. intros H s a s' Hs [= _ <-]. auto. Qed.

Lemma triple_GLC (I J : GLRenderer -> Prop) (c : Call) :
  (forall s, I s ->
     J (set_context_ (context_ s ++ [Build_Issued c (draw_cache_ s)]) s)) ->
  triple I (GLC c) J.
Proof. intros H. apply triple_modify. exact H. Qed.

Lemma triple_on_return {A} (I J : GLRenderer -> Prop) (m : M A) (s : GLRenderer) :
  triple I m J -> I s -> on_return m s (fun _ s' => J s').
Proof.
  intros H Hs. unfold on_return. destruct (m s) as [[a s']|] eqn:E; [|exact Logic.I].
  exact (H s a s' Hs E).
Qed.

Lemma on_return_respects {A} (R : relation GLRenderer) (m : M A) (s : GLRenderer) :
  respects R m -> on_return m s (fun _ s' => R s s').
Proof.
  intros H. unfold on_return. destruct (m s) as [[a s']|] eqn:E; [|exact Logic.I].
  eapply H. exact E.
Qed.

Lemma triple_any {A} (I : GLRenderer -> Prop) (m : M A) :
  triple I m (fun _ => True).
Proof. intros s a s' _ _. exact Logic.I. Qed.

Lemma triple_conj {A} (I J1 J2 : GLRenderer -> Prop) (m : M A) :
  triple I m J1 -> triple I m J2 -> triple I m (fun s => J1 s /\ J2 s).
Proof. intros H1 H2 s a s' Hs E. split; eauto. Qed.

Lemma triple_weaken {A} (I I' J : GLRenderer -> Prop) (m : M A) :
  (forall s, I s -> I' s) -> triple I' m J -> triple I m J.
Proof. intros H T s a s' Hs. apply T, H, Hs. Qed.

Lemma triple_get_bind {A B} (I J : GLRenderer -> Prop) (f : GLRenderer -> A)
    (k : A -> M B) :
  (forall v, triple (fun s => I s /\ f s = v) (k v) J) ->
  triple I (get f ≫= k) J.
Proof.
  intros H s b s' Hs. rewrite bind_run. unfold get at 1.
  apply (H (f s)). auto.
Qed.

Lemma triple_GLC_off_trace (I : GLRenderer -> Prop) (c : Call) :
  (forall s ctx, I s -> I (set_context_ ctx s)) -> triple I (GLC c) I.
Proof. intros H. apply triple_GLC. intros s. apply H. Qed.

Ltac field_primitives := idtac;
  lazymatch goal with
  | |- triple _ (GLC _) _ =>
      let H := fresh in apply triple_GLC_off_trace; intros ? ? H; exact H
  | |- triple _ (modify _) _ =>
      let H := fresh in apply triple_modify; intros ? H; exact H
  end.

Ltac thread prim :=
  lazymatch goal with
  | |- forall _, _ => intros; thread prim
  | |- triple _ (mret _) _ => apply triple_ret
  | |- triple _ (get _) _ => apply triple_get
  | |- triple _ crash _ => apply triple_crash
  | |- triple _ (let _ := _ in _) _ => cbv zeta; thread prim
  | |- triple _ (when _ _) _ => unfold when; thread prim
  | |- triple _ (if ?b then _ else _) _ => destruct b; thread prim
  | |- triple _ (match ?x with _ => _ end) _ => destruct x; thread prim
  | |- triple ?I (?m ≫= _) _ =>
      lazymatch m with
      | GLC _ =>
        first [ eapply (triple_bind I); [prim|] | eapply triple_bind; [prim|] ]
      | modify _ =>
        first [ eapply (triple_bind I); [prim|] | eapply triple_bind; [prim|] ]
      | _ =>
        first
          [ eapply (triple_bind I); [solve [thread prim]|]
          | lazymatch m with
            | when ?b _ => destruct b; unfold when; cbv beta iota
            | if ?b then _ else _ => destruct b; cbv beta iota
            | match ?x with _ => _ end => destruct x; cbv beta iota
            end
          | eapply triple_bind; [solve [thread prim]|] ]
      end;
      thread prim
  | |- _ => try prim
  end.

(** *** The blend shadow *)

Lemma blend_sync_GLC (c : Call) :
  sets_blend c = None -> triple blend_in_sync (GLC c) blend_in_sync.
Proof.
  intros H. apply triple_GLC. intros s. unfold blend_in_sync.
  rewrite calls_GLC, last_set_snoc, H. trivial.
Qed.

Lemma blend_sync_modify (f : GLRenderer -> GLRenderer) :
  (forall s, context_ (f s) = context_ s) ->
  (forall s, blend_shadow_ (f s) = blend_shadow_ s) ->
  triple blend_in_sync (modify f) blend_in_sync.
Proof.
  intros C B. apply triple_modify. intros s. unfold blend_in_sync, calls.
  now rewrite C, B.
Qed.

Lemma blend_sync_toggle (c : Call) (b : bool) (I : GLRenderer -> Prop) :
  sets_blend c = Some b ->
  triple I (GLC c ≫= fun _ => modify (set_blend_shadow_ b)) blend_in_sync.
Proof.
  intros H s a s' _. rewrite bind_run, GLC_run. cbn. intros [= _ <-].
  unfold blend_in_sync, calls, last_set. cbn.
  rewrite map_app, fold_left_app. cbn. now rewrite H.
Qed.

Lemma blend_sync_SetBlendEnabled (b : bool) :
  triple blend_in_sync (SetBlendEnabled b) blend_in_sync.
Proof.
  unfold SetBlendEnabled. eapply triple_bind; [apply triple_get|]. intros shadow.
  destruct (eqb b shadow); [apply triple_ret|].
  destruct b; apply blend_sync_toggle; reflexivity.
Qed.

Ltac blend_sync_primitives := idtac;
  lazymatch goal with
  | |- triple _ (SetBlendEnabled _) _ => apply blend_sync_SetBlendEnabled
  | |- triple _ (GLC _) _ => apply blend_sync_GLC; reflexivity
  | |- triple _ (modify _) _ =>
      apply blend_sync_modify; intros ?; reflexivity
  end.

Ltac quad_routines :=
  unfold DoDrawQuad, FinishDrawingQuadList, DrawMaterial,
    EnqueueTextureQuad, texture_binding, GetTextureProgram,
    GetTextureProgramFlip, FlushTextureQuadCache, DrawCheckerboardQuad,
    DrawDebugBorderQuad,
    DrawIOSurfaceQuad, DrawPictureQuad, DrawTileQuad, DrawContentQuad,
    DrawRenderPassQuad, DrawSolidColorQuad, DrawStreamVideoQuad,
    DrawYUVVideoQuad, DrawBackgroundFilters, CopyTextureToFramebuffer,
    GetFramebufferTexture, UseRenderPass, UseScopedTexture,
    BindFramebufferToTexture, BindFramebufferToOutputSurface,
    SetDrawViewportSize, ApplyFilters, ApplyImageFilter, Allocate, Free,
    lock_texture_id, SetShaderOpacity,
    SetShaderQuadF, DrawQuadGeometry, GetTileCheckerboardProgram,
    GetDebugBorderProgram, GetSolidColorProgram, GetSolidColorProgramAA,
    GetVideoStreamTextureProgram, GetVideoYUVProgram,
    GetTextureIOSurfaceProgram, GetTileProgram, GetTileProgramOpaque,
    GetTileProgramAA, GetTileProgramSwizzle, GetTileProgramSwizzleOpaque,
    GetTileProgramSwizzleAA, GetRenderPassProgram, RequiredPrecision,
    GetProgram.

Ltac scissor_routines :=
  unfold SetScissorTestRect, EnsureScissorTestEnabled,
    EnsureScissorTestDisabled.

Lemma blend_sync_DoDrawQuad frame quad :
  triple blend_in_sync (DoDrawQuad frame quad) blend_in_sync.
Proof.
  quad_routines. unfold SetUseProgram. thread blend_sync_primitives.
Qed.

Lemma blend_sync_scissor :
  (forall r, triple blend_in_sync (SetScissorTestRect r) blend_in_sync) /\
  triple blend_in_sync EnsureScissorTestEnabled blend_in_sync /\
  triple blend_in_sync EnsureScissorTestDisabled blend_in_sync.
Proof.
  repeat split; intros; scissor_routines; quad_routines; unfold SetUseProgram;
    thread blend_sync_primitives.
Qed.

(** *** The program shadow *)

Lemma program_sync_GLC (c : Call) :
  sets_program c = None -> triple program_in_sync (GLC c) program_in_sync.
Proof.
  intros H. apply triple_GLC. intros s. unfold program_in_sync.
  rewrite calls_GLC, last_set_snoc, H. trivial.
Qed.

Lemma program_sync_modify (f : GLRenderer -> GLRenderer) :
  (forall s, context_ (f s) = context_ s) ->
  (forall s, program_shadow_ (f s) = program_shadow_ s) ->
  triple program_in_sync (modify f) program_in_sync.
Proof.
  intros C B. apply triple_modify. intros s. unfold program_in_sync, calls.
  now rewrite C, B.
Qed.

Lemma program_sync_SetUseProgram (p : Z) :
  triple program_in_sync (SetUseProgram p) program_in_sync.
Proof.
  unfold SetUseProgram. eapply triple_bind; [apply triple_get|]. intros shadow.
  destruct (p =? shadow); [apply triple_ret|].
  intros s a s' _. rewrite bind_run, GLC_run. cbn. intros [= _ <-].
  right. unfold calls, last_set. cbn. rewrite map_app, fold_left_app. reflexivity.
Qed.

Ltac program_sync_primitives := idtac;
  lazymatch goal with
  | |- triple _ (SetUseProgram _) _ => apply program_sync_SetUseProgram
  | |- triple _ (GLC _) _ => apply program_sync_GLC; reflexivity
  | |- triple _ (modify _) _ =>
      apply program_sync_modify; intros ?; reflexivity
  end.

Lemma program_sync_DoDrawQuad frame quad :
  triple program_in_sync (DoDrawQuad frame quad) program_in_sync.
Proof.
  quad_routines. unfold SetBlendEnabled. thread program_sync_primitives.
Qed.

Lemma program_sync_scissor :
  (forall r, triple program_in_sync (SetScissorTestRect r) program_in_sync) /\
  triple program_in_sync EnsureScissorTestEnabled program_in_sync /\
  triple program_in_sync EnsureScissorTestDisabled program_in_sync.
Proof.
  repeat split; intros; scissor_routines; quad_routines; unfold SetBlendEnabled;
    thread program_sync_primitives.
Qed.

(** *** The scissor state *)

Ltac walk prim :=
  repeat first
    [ progress intros
    | prim
    | match goal with
      | |- respects _ (mret _) => apply respects_ret
      | |- respects _ (get _) => apply respects_get
      | |- respects _ crash => apply respects_crash
      | |- respects _ (when _ _) => apply respects_when
      | |- respects _ (_ ≫= _) => apply respects_bind
      | |- respects _ (if ?b then _ else _) => destruct b
      | |- respects _ (match ?x with _ => _ end) => destruct x
      | |- respects _ (let _ := _ in _) => cbv zeta
      end ].

Lemma not_scissor_change (c : Call) :
  sets_scissor_test c = None -> sets_scissor_rect c = None ->
  ~ is_scissor_change c.
Proof.
  intros H1 H2 [->|[->|(x & y & w & h & ->)]]; discriminate.
Qed.

Lemma scissor_kept_preorder : PreOrder scissor_kept.
Proof.
  split.
  - intros s. split; [reflexivity|]. split; [reflexivity|].
    exists []. now rewrite app_nil_r.
  - intros s1 s2 s3 (A1 & B1 & l1 & E1 & F1) (A2 & B2 & l2 & E2 & F2).
    split; [congruence|]. split; [congruence|].
    exists (l1 ++ l2). rewrite E2, E1, app_assoc. split; [reflexivity|].
    apply Forall_app. auto.
Qed.

Lemma scissor_kept_GLC (c : Call) :
  sets_scissor_test c = None -> sets_scissor_rect c = None ->
  respects scissor_kept (GLC c).
Proof.
  intros H1 H2 s a s' [= _ <-]. split; [reflexivity|]. split; [reflexivity|].
  exists [c]. split; [apply calls_GLC|].
  constructor; [|constructor]. now apply not_scissor_change.
Qed.

Lemma scissor_kept_fields (s s' : GLRenderer) :
  context_ s' = context_ s -> is_scissor_enabled_ s' = is_scissor_enabled_ s ->
  scissor_rect_ s' = scissor_rect_ s -> scissor_kept s s'.
Proof.
  intros C A B. split; [exact A|]. split; [exact B|]. exists [].
  unfold calls. now rewrite C, app_nil_r.
Qed.

Ltac scissor_kept_primitives := idtac;
  lazymatch goal with
  | |- PreOrder _ => apply scissor_kept_preorder
  | |- respects _ (GLC _) => apply scissor_kept_GLC; reflexivity
  | |- respects _ (modify _) =>
      apply respects_modify; intros ?; apply scissor_kept_fields; reflexivity
  end.

Lemma scissor_kept_FlushTextureQuadCache :
  respects scissor_kept FlushTextureQuadCache.
Proof.
  quad_routines. unfold SetBlendEnabled, SetUseProgram.
  walk scissor_kept_primitives.
Qed.

Lemma scissor_kept_DoDrawQuad frame quad :
  respects scissor_kept (DoDrawQuad frame quad).
Proof.
  quad_routines. unfold SetBlendEnabled, SetUseProgram.
  walk scissor_kept_primitives.
Qed.

Lemma not_scissor_change_sets (c : Call) :
  ~ is_scissor_change c ->
  sets_scissor_test c = None /\ sets_scissor_rect c = None.
Proof.
  intros H. unfold is_scissor_change in H.
  destruct c; split; try reflexivity;
    try (exfalso; apply H; right; right; eauto; fail);
    match goal with cap : GLenum |- _ => destruct cap end;
    try reflexivity; exfalso; apply H; auto.
Qed.

Lemma scissor_kept_in_sync (s s' : GLRenderer) :
  scissor_kept s s' -> scissor_in_sync s -> scissor_in_sync s'.
Proof.
  intros (A & B & l & E & F) (H1 & H2). unfold scissor_in_sync.
  rewrite E, A, B.
  rewrite !last_set_app_none; [auto| |];
    (eapply List.Forall_impl; [|exact F]); intros c Hc;
    apply not_scissor_change_sets in Hc; tauto.
Qed.

Lemma scissor_sync_kept {A} (m : M A) :
  respects scissor_kept m -> triple scissor_in_sync m scissor_in_sync.
Proof. intros H s a s' Hs E. eapply scissor_kept_in_sync; eauto. Qed.

Lemma scissor_sync_toggle (c : Call) (b : bool) :
  sets_scissor_test c = Some b -> sets_scissor_rect c = None ->
  triple scissor_in_sync
    (GLC c ≫= fun _ => modify (set_is_scissor_enabled_ b)) scissor_in_sync.
Proof.
  intros H1 H2 s a s' (_ & R). rewrite bind_run, GLC_run. cbn. intros [= _ <-].
  unfold scissor_in_sync.
  match goal with |- context [calls ?x] =>
    assert (E : calls x = calls s ++ [c]) by (unfold calls; cbn; now rewrite map_app)
  end.
  rewrite E, !last_set_snoc, H1, H2. auto.
Qed.

Lemma scissor_sync_EnsureScissorTestEnabled :
  triple scissor_in_sync EnsureScissorTestEnabled scissor_in_sync.
Proof.
  unfold EnsureScissorTestEnabled.
  eapply triple_bind; [apply triple_get|]. intros [|]; [apply triple_ret|].
  eapply triple_bind;
    [apply scissor_sync_kept, scissor_kept_FlushTextureQuadCache|].
  intros _. apply scissor_sync_toggle; reflexivity.
Qed.

Lemma scissor_sync_EnsureScissorTestDisabled :
  triple scissor_in_sync EnsureScissorTestDisabled scissor_in_sync.
Proof.
  unfold EnsureScissorTestDisabled.
  eapply triple_bind; [apply triple_get|]. intros [|]; [|apply triple_ret].
  eapply triple_bind;
    [apply scissor_sync_kept, scissor_kept_FlushTextureQuadCache|].
  intros _. apply scissor_sync_toggle; reflexivity.
Qed.

Lemma scissor_sync_SetScissorTestRect (r : Rect) :
  triple scissor_in_sync (SetScissorTestRect r) scissor_in_sync.
Proof.
  unfold SetScissorTestRect.
  eapply triple_bind; [apply scissor_sync_EnsureScissorTestEnabled|]. intros _.
  eapply triple_bind; [apply triple_get|]. intros current.
  destruct (Rect_eqb r current); [apply triple_ret|].
  pose (K := fun s => last_set sets_scissor_test (calls s) =
                        Some (is_scissor_enabled_ s) /\ scissor_rect_ s = r).
  apply (triple_bind K).
  { apply triple_modify. intros s (H & _). split; [exact H|reflexivity]. }
  intros _. apply (triple_bind K).
  { intros s a s' (H1 & H2) E.
    destruct (scissor_kept_FlushTextureQuadCache s a s' E) as (A & B & l & El & F).
    split; [|congruence]. rewrite El, A, last_set_app_none; [exact H1|].
    eapply List.Forall_impl; [|exact F]. intros c Hc.
    apply not_scissor_change_sets in Hc. tauto. }
  intros _. apply triple_GLC. intros s (H1 & H2). unfold scissor_in_sync.
  rewrite calls_GLC, !last_set_snoc. cbn. split; [exact H1|].
  right. rewrite H2. destruct r; reflexivity.
Qed.

Lemma scissor_sync_DoDrawQuad frame quad :
  triple scissor_in_sync (DoDrawQuad frame quad) scissor_in_sync.
Proof. apply scissor_sync_kept, scissor_kept_DoDrawQuad. Qed.

(** *** State that a routine changes and puts back *)

Lemma gl_state_snoc {A} (sets : Call -> option A) (initial : A)
    (l : list Call) (c : Call) :
  gl_state sets initial (l ++ [c]) =
  match sets c with Some v => v | None => gl_state sets initial l end.
Proof. unfold gl_state. rewrite last_set_snoc. now destruct (sets c). Qed.

Lemma active_texture_GLC_set (c : Call) (t u : GLenum) :
  sets_active_texture c = Some t ->
  triple (active_texture_is u) (GLC c) (active_texture_is t).
Proof.
  intros H. apply triple_GLC. intros s _. unfold active_texture_is, active_texture.
  now rewrite calls_GLC, gl_state_snoc, H.
Qed.

Lemma active_texture_GLC (c : Call) (u : GLenum) :
  sets_active_texture c = None ->
  triple (active_texture_is u) (GLC c) (active_texture_is u).
Proof.
  intros H. apply triple_GLC. intros s. unfold active_texture_is, active_texture.
  now rewrite calls_GLC, gl_state_snoc, H.
Qed.

Lemma active_texture_modify (f : GLRenderer -> GLRenderer) (u : GLenum) :
  (forall s, context_ (f s) = context_ s) ->
  triple (active_texture_is u) (modify f) (active_texture_is u).
Proof.
  intros C. apply triple_modify. intros s.
  unfold active_texture_is, active_texture, calls. now rewrite C.
Qed.

Ltac active_texture_primitives := idtac;
  lazymatch goal with
  | |- triple _ (GLC _) _ =>
      first [ apply active_texture_GLC_set; reflexivity
            | apply active_texture_GLC; reflexivity ]
  | |- triple _ (modify _) _ =>
      apply active_texture_modify; intros ?; reflexivity
  end.

Lemma active_texture_DoDrawQuad frame quad :
  triple (active_texture_is GL_TEXTURE0) (DoDrawQuad frame quad)
    (active_texture_is GL_TEXTURE0).
Proof.
  quad_routines. unfold SetBlendEnabled, SetUseProgram.
  thread active_texture_primitives.
Qed.

Lemma active_texture_scissor :
  (forall r, triple (active_texture_is GL_TEXTURE0) (SetScissorTestRect r)
               (active_texture_is GL_TEXTURE0)) /\
  triple (active_texture_is GL_TEXTURE0) EnsureScissorTestEnabled
    (active_texture_is GL_TEXTURE0) /\
  triple (active_texture_is GL_TEXTURE0) EnsureScissorTestDisabled
    (active_texture_is GL_TEXTURE0).
Proof.
  repeat split; intros; scissor_routines; quad_routines;
    unfold SetBlendEnabled, SetUseProgram; thread active_texture_primitives.
Qed.

Lemma blend_func_GLC_set (c : Call) (f g : GLenum * GLenum * GLenum * GLenum) :
  sets_blend_func c = Some f ->
  triple (blend_func_is g) (GLC c) (blend_func_is f).
Proof.
  intros H. apply triple_GLC. intros s _. unfold blend_func_is, blend_func.
  now rewrite calls_GLC, gl_state_snoc, H.
Qed.

Lemma blend_func_GLC (c : Call) (g : GLenum * GLenum * GLenum * GLenum) :
  sets_blend_func c = None ->
  triple (blend_func_is g) (GLC c) (blend_func_is g).
Proof.
  intros H. apply triple_GLC. intros s. unfold blend_func_is, blend_func.
  now rewrite calls_GLC, gl_state_snoc, H.
Qed.

Lemma blend_func_modify (f : GLRenderer -> GLRenderer)
    (g : GLenum * GLenum * GLenum * GLenum) :
  (forall s, context_ (f s) = context_ s) ->
  triple (blend_func_is g) (modify f) (blend_func_is g).
Proof.
  intros C. apply triple_modify. intros s.
  unfold blend_func_is, blend_func, calls. now rewrite C.
Qed.

Ltac blend_func_primitives := idtac;
  lazymatch goal with
  | |- triple _ (GLC _) _ =>
      first [ apply blend_func_GLC_set; reflexivity
            | apply blend_func_GLC; reflexivity ]
  | |- triple _ (modify _) _ =>
      apply blend_func_modify; intros ?; reflexivity
  end.

Lemma blend_func_DoDrawQuad frame quad :
  triple (blend_func_is premultiplied_blend) (DoDrawQuad frame quad)
    (blend_func_is premultiplied_blend).
Proof.
  quad_routines. unfold SetBlendEnabled, SetUseProgram.
  thread blend_func_primitives.
Qed.

Lemma blend_func_scissor :
  (forall r, triple (blend_func_is premultiplied_blend) (SetScissorTestRect r)
               (blend_func_is premultiplied_blend)) /\
  triple (blend_func_is premultiplied_blend) EnsureScissorTestEnabled
    (blend_func_is premultiplied_blend) /\
  triple (blend_func_is premultiplied_blend) EnsureScissorTestDisabled
    (blend_func_is premultiplied_blend).
Proof.
  repeat split; intros; scissor_routines; quad_routines;
    unfold SetBlendEnabled, SetUseProgram; thread blend_func_primitives.
Qed.

(** *** Counting draw calls *)

Lemma drew_GLC_draw (c : Call) (l : list Call) :
  is_draw_call c = true -> triple (drew l) (GLC c) (drew (l ++ [c])).
Proof.
  intros H. apply triple_GLC. intros s <-. unfold drew.
  rewrite draw_calls_app. cbn. now rewrite H.
Qed.

Lemma drew_GLC (c : Call) (l : list Call) :
  is_draw_call c = false -> triple (drew l) (GLC c) (drew l).
Proof.
  intros H. apply triple_GLC. intros s <-. unfold drew.
  rewrite draw_calls_app. cbn. now rewrite H, app_nil_r.
Qed.

Lemma drew_modify (f : GLRenderer -> GLRenderer) (l : list Call) :
  (forall s, context_ (f s) = context_ s) -> triple (drew l) (modify f) (drew l).
Proof.
  intros C. apply triple_modify. intros s. unfold drew, draw_calls, calls.
  now rewrite C.
Qed.

Ltac drew_primitives := idtac;
  lazymatch goal with
  | |- triple _ (GLC _) _ =>
      first [ apply drew_GLC_draw; reflexivity | apply drew_GLC; reflexivity ]
  | |- triple _ (modify _) _ => apply drew_modify; intros ?; reflexivity
  end.

Lemma returns_with {A} (m : M A) (I J : GLRenderer -> Prop) (s : GLRenderer) :
  total m -> triple I m J -> I s -> exists a s', m s = Some (a, s') /\ J s'.
Proof.
  intros T H Hs. destruct (T s) as [[a s'] E]. exists a, s'.
  split; [exact E|]. exact (H s a s' Hs E).
Qed.

Lemma draws_once (m : M unit) (c : Call) (s : GLRenderer) :
  total m -> (forall l, triple (drew l) m (drew (l ++ [c]))) ->
  exists s', m s = Some (tt, s') /\ draw_calls s' = draw_calls s ++ [c].
Proof.
  intros T H. destruct (returns_with m _ _ s T (H (draw_calls s)) eq_refl)
    as ([] & s' & E & D).
  exists s'. auto.
Qed.

Lemma DrawCheckerboardQuad_draws frame quad color s :
  exists s', DrawCheckerboardQuad frame quad color s = Some (tt, s') /\
    draw_calls s' = draw_calls s ++ [drawElements GL_TRIANGLES 6 GL_UNSIGNED_SHORT 0].
Proof.
  apply draws_once.
  - unfold DrawCheckerboardQuad, GetTileCheckerboardProgram.
    structure total_primitives.
  - intros l. quad_routines. unfold SetBlendEnabled, SetUseProgram.
    thread drew_primitives.
Qed.

Lemma DrawDebugBorderQuad_draws frame quad color width s :
  exists s', DrawDebugBorderQuad frame quad color width s = Some (tt, s') /\
    draw_calls s' = draw_calls s ++ [drawElements GL_LINE_LOOP 4 GL_UNSIGNED_SHORT 0].
Proof.
  apply draws_once.
  - unfold DrawDebugBorderQuad, GetDebugBorderProgram.
    structure total_primitives.
  - intros l. quad_routines. unfold SetBlendEnabled, SetUseProgram.
    thread drew_primitives.
Qed.

Lemma DrawIOSurfaceQuad_draws frame quad size resource orientation s :
  exists s', DrawIOSurfaceQuad frame quad size resource orientation s = Some (tt, s') /\
    draw_calls s' = draw_calls s ++ [drawElements GL_TRIANGLES 6 GL_UNSIGNED_SHORT 0].
Proof.
  apply draws_once.
  - unfold DrawIOSurfaceQuad, GetTextureIOSurfaceProgram, lock_texture_id.
    structure total_primitives.
  - intros l. quad_routines. unfold SetBlendEnabled, SetUseProgram.
    thread drew_primitives.
Qed.

Lemma DrawYUVVideoQuad_draws frame quad tex_scale y u v s :
  exists s', DrawYUVVideoQuad frame quad tex_scale y u v s = Some (tt, s') /\
    draw_calls s' = draw_calls s ++ [drawElements GL_TRIANGLES 6 GL_UNSIGNED_SHORT 0].
Proof.
  apply draws_once.
  - unfold DrawYUVVideoQuad, GetVideoYUVProgram.
    structure total_primitives.
  - intros l. quad_routines. unfold SetBlendEnabled, SetUseProgram.
    thread drew_primitives.
Qed.

Lemma DrawSolidColorQuad_draws frame quad color s :
  IsInvertible (device_transform_of frame (quadTransform quad)) = true ->
  exists s', DrawSolidColorQuad frame quad color s = Some (tt, s') /\
    draw_calls s' = draw_calls s ++ [drawElements GL_TRIANGLES 6 GL_UNSIGNED_SHORT 0].
Proof.
  intros H. apply draws_once.
  - unfold DrawSolidColorQuad, GetSolidColorProgram, GetSolidColorProgramAA.
    rewrite H. structure total_primitives.
  - intros l. quad_routines. rewrite H. cbn [negb]. unfold SetBlendEnabled, SetUseProgram.
    thread drew_primitives.
Qed.

Lemma DrawContentQuad_draws frame quad base resource s :
  IsInvertible (device_transform_of frame (quadTransform quad)) = true ->
  exists s', DrawContentQuad frame quad base resource s = Some (tt, s') /\
    draw_calls s' = draw_calls s ++ [drawElements GL_TRIANGLES 6 GL_UNSIGNED_SHORT 0].
Proof.
  intros H. apply draws_once.
  - unfold DrawContentQuad. rewrite H. cbv zeta.
    structure total_primitives.
  - intros l. quad_routines. rewrite H. cbn [negb]. unfold SetBlendEnabled, SetUseProgram.
    thread drew_primitives.
Qed.

(** *** Stream video quads need EGL images *)

Lemma GetVideoStreamTextureProgram_run precision (s : GLRenderer) :
  GetVideoStreamTextureProgram precision s =
  Some (if using_egl_image (settings s)
        then Some (programs (settings s) VideoStreamTextureProgram (slot precision))
        else None, s).
Proof.
  unfold GetVideoStreamTextureProgram. rewrite bind_run. unfold get at 1.
  destruct (using_egl_image (settings s)); reflexivity.
Qed.

Lemma DrawStreamVideoQuad_without_egl frame quad resource matrix s :
  using_egl_image (settings s) = false ->
  DrawStreamVideoQuad frame quad resource matrix s = None.
Proof.
  intros H. unfold DrawStreamVideoQuad. rewrite bind_run.
  destruct (SetBlendEnabled_run (ShouldDrawWithBlending quad) s)
    as (s1 & l & -> & _ & _ & _ & _ & _ & _ & S1).
  rewrite bind_run. unfold RequiredPrecision at 1, get at 1.
  rewrite bind_run, GetVideoStreamTextureProgram_run, S1, H. reflexivity.
Qed.

Lemma DrawStreamVideoQuad_with_egl frame quad resource matrix s :
  using_egl_image (settings s) = true ->
  exists s', DrawStreamVideoQuad frame quad resource matrix s = Some (tt, s') /\
    draw_calls s' = draw_calls s ++ [drawElements GL_TRIANGLES 6 GL_UNSIGNED_SHORT 0].
Proof.
  intros H. unfold DrawStreamVideoQuad. rewrite bind_run.
  destruct (SetBlendEnabled_run (ShouldDrawWithBlending quad) s)
    as (s1 & l & -> & _ & _ & _ & <- & _ & _ & S1).
  rewrite bind_run. unfold RequiredPrecision at 1, get at 1.
  rewrite bind_run, GetVideoStreamTextureProgram_run, S1, H.
  generalize (programs (settings s) VideoStreamTextureProgram
                (slot (TexCoordPrecisionRequired (highp_threshold_min_ (settings s1))
                         (Rect_bottom_right (visibleContentRect quad))))).
  intros prog. apply draws_once.
  - unfold lock_texture_id. structure total_primitives.
  - intros l'. quad_routines. unfold SetUseProgram. thread drew_primitives.
Qed.

(** *** Requests that change nothing *)

Lemma twice_is_once (m : M unit) (I : GLRenderer -> Prop) :
  triple (fun _ => True) m I -> (forall s, I s -> m s = Some (tt, s)) ->
  forall s, (m;; m) s = m s.
Proof.
  intros T H s. rewrite bind_run. destruct (m s) as [[[] s']|] eqn:E; [|reflexivity].
  apply H. exact (T s tt s' Logic.I E).
Qed.

Lemma SetBlendEnabled_twice (b : bool) (s : GLRenderer) :
  (SetBlendEnabled b;; SetBlendEnabled b) s = SetBlendEnabled b s.
Proof.
  apply (twice_is_once _ (fun s => blend_shadow_ s = b)).
  - intros s0 a s' _ E.
    destruct (SetBlendEnabled_run b s0) as (s1 & l & E1 & B & _).
    congruence.
  - intros s0 <-. unfold SetBlendEnabled. rewrite bind_run. unfold get at 1.
    now rewrite eqb_reflx.
Qed.

Lemma SetUseProgram_twice (p : Z) (s : GLRenderer) :
  (SetUseProgram p;; SetUseProgram p) s = SetUseProgram p s.
Proof.
  apply (twice_is_once _ (fun s => program_shadow_ s = p)).
  - intros s0 a s' _. unfold SetUseProgram. rewrite bind_run. unfold get at 1.
    destruct (p =? program_shadow_ s0) eqn:E.
    + intros [= _ <-]. symmetry. now apply Z.eqb_eq.
    + rewrite bind_run, GLC_run. intros [= _ <-]. reflexivity.
  - intros s0 <-. unfold SetUseProgram. rewrite bind_run. unfold get at 1.
    now rewrite Z.eqb_refl.
Qed.

Lemma scissor_flag_after (m : M unit) (b : bool) :
  m = EnsureScissorTestEnabled /\ b = true \/
  m = EnsureScissorTestDisabled /\ b = false ->
  triple (fun _ => True) m (fun s => is_scissor_enabled_ s = b).
Proof.
  intros [[-> ->]|[-> ->]].
  - unfold EnsureScissorTestEnabled. intros s a s' _. rewrite bind_run.
    unfold get at 1. destruct (is_scissor_enabled_ s) eqn:E.
    + now intros [= _ <-].
    + rewrite bind_run. destruct (FlushTextureQuadCache s) as [[[] s0]|]; [|discriminate].
      rewrite bind_run, GLC_run. now intros [= _ <-].
  - unfold EnsureScissorTestDisabled. intros s a s' _. rewrite bind_run.
    unfold get at 1. destruct (is_scissor_enabled_ s) eqn:E; cbn [negb].
    + rewrite bind_run. destruct (FlushTextureQuadCache s) as [[[] s0]|]; [|discriminate].
      rewrite bind_run, GLC_run. now intros [= _ <-].
    + now intros [= _ <-].
Qed.

Lemma EnsureScissorTestEnabled_twice (s : GLRenderer) :
  (EnsureScissorTestEnabled;; EnsureScissorTestEnabled) s =
  EnsureScissorTestEnabled s.
Proof.
  apply (twice_is_once _ (fun s => is_scissor_enabled_ s = true)).
  - apply scissor_flag_after. auto.
  - intros s0 H. unfold EnsureScissorTestEnabled. rewrite bind_run.
    unfold get at 1. now rewrite H.
Qed.

Lemma EnsureScissorTestDisabled_twice (s : GLRenderer) :
  (EnsureScissorTestDisabled;; EnsureScissorTestDisabled) s =
  EnsureScissorTestDisabled s.
Proof.
  apply (twice_is_once _ (fun s => is_scissor_enabled_ s = false)).
  - apply scissor_flag_after. auto.
  - intros s0 H. unfold EnsureScissorTestDisabled. rewrite bind_run.
    unfold get at 1. now rewrite H.
Qed.

Lemma Rect_eqb_refl (r : Rect) : Rect_eqb r r = true.
Proof. unfold Rect_eqb. now rewrite !Z.eqb_refl. Qed.

Lemma Rect_eqb_eq (a b : Rect) : Rect_eqb a b = true -> a = b.
Proof.
  unfold Rect_eqb. intros H. destruct a, b. cbn in H.
  repeat (apply andb_true_iff in H as [H ?]).
  f_equal; now apply Z.eqb_eq.
Qed.

Lemma SetScissorTestRect_sets (r : Rect) :
  triple (fun _ => True) (SetScissorTestRect r)
    (fun s => is_scissor_enabled_ s = true /\ scissor_rect_ s = r).
Proof.
  pose (K := fun s => is_scissor_enabled_ s = true /\ scissor_rect_ s = r).
  unfold SetScissorTestRect.
  apply (triple_bind (fun s => is_scissor_enabled_ s = true));
    [apply scissor_flag_after; auto|].
  intros _. apply triple_get_bind. intros current.
  destruct (Rect_eqb r current) eqn:E.
  - intros s a s' (H0 & <-) [= _ <-]. apply Rect_eqb_eq in E. split; auto.
  - apply (triple_bind K).
    { apply triple_modify. intros s1 (H1 & _). split; [exact H1|reflexivity]. }
    intros _. apply (triple_bind K).
    + intros s1 a1 s2 (H1 & H2) E1.
      destruct (scissor_kept_FlushTextureQuadCache s1 a1 s2 E1) as (A & B & _).
      split; congruence.
    + intros _. apply triple_GLC. intros s1 H1. exact H1.
Qed.

Lemma SetScissorTestRect_twice (r : Rect) (s : GLRenderer) :
  (SetScissorTestRect r;; SetScissorTestRect r) s = SetScissorTestRect r s.
Proof.
  apply (twice_is_once _ _ (SetScissorTestRect_sets r)).
  intros s0 (H1 & H2). unfold SetScissorTestRect. rewrite bind_run.
  unfold EnsureScissorTestEnabled. rewrite bind_run. unfold get at 1.
  rewrite H1. cbv beta iota delta [mret M_ret]. rewrite bind_run.
  unfold get at 1. rewrite H2, Rect_eqb_refl. reflexivity.
Qed.

Lemma EnsureBackbuffer_twice (s : GLRenderer) :
  (EnsureBackbuffer;; EnsureBackbuffer) s = EnsureBackbuffer s.
Proof.
  apply (twice_is_once _ (fun s => is_backbuffer_discarded_ s = false)).
  - intros s0 a s' _. unfold EnsureBackbuffer. rewrite bind_run. unfold get at 1.
    destruct (is_backbuffer_discarded_ s0) eqn:E; cbn [negb].
    + rewrite bind_run, GLC_run. now intros [= _ <-].
    + now intros [= _ <-].
  - intros s0 H. unfold EnsureBackbuffer. rewrite bind_run. unfold get at 1.
    now rewrite H.
Qed.

(** *** The capacity of the cache *)

Lemma FlushTextureQuadCache_consistent (s : GLRenderer) :
  cache_consistent (draw_cache_ s) ->
  exists s',
    FlushTextureQuadCache s = Some (tt, s') /\
    cache_empty (draw_cache_ s') /\ settings s' = settings s /\
    draw_calls s' = draw_calls s ++ flush_draws (draw_cache_ s).
Proof.
  intros (Hz & Hu & Hv & _). unfold flush_draws.
  destruct (Z.eq_dec (program_id (draw_cache_ s)) 0) as [E|E].
  - exists s. rewrite (FlushTextureQuadCache_empty s E), E, app_nil_r.
    split; [reflexivity|]. split; [|auto].
    pose proof (proj1 Hz E) as Hm. rewrite Hm in Hu, Hv. cbn in Hu, Hv.
    repeat split; auto; now apply length_zero_iff_nil.
  - destruct (FlushTextureQuadCache_batch s E) as (s' & F & D & C & S).
    exists s'. apply Z.eqb_neq in E. rewrite E, C.
    split; [exact F|]. split; [apply cache_empty_cleared|]. auto.
Qed.

Lemma cache_empty_consistent (c : TexturedQuadDrawCache) :
  cache_empty c -> cache_consistent c.
Proof.
  intros (H0 & Hu & Hv & Hm). unfold cache_consistent.
  rewrite Hu, Hv, Hm. cbn. repeat split; auto; lia.
Qed.

Lemma append_quad_lengths frame (q : TexturedQuad) (c : TexturedQuadDrawCache) :
  program_id (append_quad frame q c) = program_id c /\
  length (matrix_data (append_quad frame q c)) = S (length (matrix_data c)) /\
  length (uv_xform_data (append_quad frame q c)) = S (length (uv_xform_data c)) /\
  length (vertex_opacity_data (append_quad frame q c)) =
    (4 + length (vertex_opacity_data c))%nat.
Proof.
  destruct q as [quad tq]. unfold append_quad.
  destruct (vertex_opacity tq) as [[[vo0 vo1] vo2] vo3]. cbn.
  rewrite !length_app. cbn. repeat split; lia.
Qed.

Lemma new_batch_fields cfg (q : TexturedQuad) (c : TexturedQuadDrawCache) :
  program_id (new_batch cfg q c) = to_int32 (program (selected_program cfg q)) /\
  matrix_data (new_batch cfg q c) = matrix_data c /\
  uv_xform_data (new_batch cfg q c) = uv_xform_data c /\
  vertex_opacity_data (new_batch cfg q c) = vertex_opacity_data c.
Proof. repeat split. Qed.

Lemma EnqueueTextureQuad_consistent frame (q : TexturedQuad) (s : GLRenderer) :
  well_formed (settings s) q ->
  program (selected_program (settings s) q) <> 0 ->
  cache_consistent (draw_cache_ s) ->
  exists s',
    EnqueueTextureQuad frame (fst q) (snd q) s = Some (tt, s') /\
    cache_consistent (draw_cache_ s') /\
    program_id (draw_cache_ s') <> 0 /\ settings s' = settings s.
Proof.
  intros Hwf Hp Hc.
  assert (Hid : to_int32 (program (selected_program (settings s) q)) <> 0).
  { intros E. apply Hp. apply to_int32_zero; [apply Hwf|exact E]. }
  destruct (flushes_first (settings s) (draw_cache_ s) q) eqn:F.
  - destruct (EnqueueTextureQuad_flushes frame q s F) as (s1 & F1 & E).
    destruct (FlushTextureQuadCache_consistent s Hc) as (s1' & F1' & He & Hs & _).
    rewrite F1 in F1'. injection F1' as <-.
    eexists. split; [exact E|]. cbn.
    destruct (append_quad_lengths frame q
                (new_batch (settings s) q (draw_cache_ s1))) as (A0 & A1 & A2 & A3).
    destruct (new_batch_fields (settings s) q (draw_cache_ s1)) as (N0 & N1 & N2 & N3).
    destruct He as (_ & Eu & Ev & Em).
    unfold cache_consistent. rewrite A0, A1, A2, A3, N0, N1, N2, N3, Eu, Ev, Em.
    cbn. split; [|split; [exact Hid|exact Hs]].
    split; [|repeat split; lia].
    split; [intros H; contradiction|intros H].
    apply (f_equal (@length _)) in H. rewrite A1 in H. discriminate H.
  - rewrite (EnqueueTextureQuad_joins frame q s F).
    apply flushes_first_false in F as ((P0 & _) & Hlt).
    eexists. split; [reflexivity|]. cbn.
    destruct (append_quad_lengths frame q (draw_cache_ s)) as (A0 & A1 & A2 & A3).
    destruct Hc as (_ & Hu & Hv & _).
    unfold cache_consistent. rewrite A0, A1, A2, A3, Hu, Hv, P0.
    split; [|split; [exact Hid|reflexivity]].
    split; [|repeat split; lia].
    split; [intros H; contradiction|intros H].
    apply (f_equal (@length _)) in H. rewrite A1 in H. discriminate H.
Qed.

Lemma DoDrawQuad_consistent frame quad (s : GLRenderer) :
  cache_consistent (draw_cache_ s) ->
  (forall tq, material quad = TEXTURE_CONTENT tq ->
     well_formed (settings s) (quad, tq) /\
     program (selected_program (settings s) (quad, tq)) <> 0) ->
  on_return (DoDrawQuad frame quad) s
    (fun _ s' => cache_consistent (draw_cache_ s')).
Proof.
  intros Hc Ht. unfold on_return, DoDrawQuad.
  destruct (is_TEXTURE_CONTENT (material quad)) eqn:T.
  - destruct (material quad) as [| | | | | | | |tq| |] eqn:Em; try discriminate T.
    destruct (Ht tq eq_refl) as [Hwf Hp].
    destruct (EnqueueTextureQuad_consistent frame (quad, tq) s Hwf Hp Hc)
      as (s' & E & Hc' & _).
    cbn [negb when]. rewrite bind_run. cbv beta iota delta [mret M_ret].
    unfold DrawMaterial. rewrite Em, bind_run. cbn [fst snd] in E. rewrite E.
    exact Hc'.
  - cbn [negb when]. rewrite bind_run.
    destruct (FlushTextureQuadCache_consistent s Hc) as (s1 & -> & He & _).
    destruct (DrawMaterial frame quad s1) as [[frame' s']|] eqn:E; [|exact Logic.I].
    destruct (DrawMaterial_untouched frame quad T s1 frame' s' E) as (C & _).
    rewrite C. now apply cache_empty_consistent.
Qed.

(** *** Quads of a program that does not exist *)

Lemma EnqueueTextureQuad_without_program frame (q : TexturedQuad) (s : GLRenderer) :
  program (selected_program (settings s) q) = 0 ->
  program_id (draw_cache_ s) = 0 ->
  exists s',
    EnqueueTextureQuad frame (fst q) (snd q) s = Some (tt, s') /\
    context_ s' = context_ s /\ settings s' = settings s /\
    program_id (draw_cache_ s') = 0 /\
    length (matrix_data (draw_cache_ s')) = S (length (matrix_data (draw_cache_ s))).
Proof.
  intros Hp H0.
  destruct (append_quad_lengths frame q (draw_cache_ s)) as (A0 & A1 & _).
  destruct (flushes_first (settings s) (draw_cache_ s) q) eqn:F.
  - destruct (EnqueueTextureQuad_flushes frame q s F) as (s1 & F1 & E).
    rewrite (FlushTextureQuadCache_empty s H0) in F1. injection F1 as <-.
    eexists. split; [exact E|]. cbn.
    destruct (append_quad_lengths frame q
                (new_batch (settings s) q (draw_cache_ s))) as (B0 & B1 & _).
    rewrite B0, B1. cbn. rewrite Hp. repeat split.
  - rewrite (EnqueueTextureQuad_joins frame q s F).
    eexists. split; [reflexivity|]. cbn. rewrite A0, A1. auto.
Qed.

Lemma enqueue_all_without_program frame (qs : list TexturedQuad) (s : GLRenderer) :
  Forall (fun q => program (selected_program (settings s) q) = 0) qs ->
  program_id (draw_cache_ s) = 0 ->
  exists s',
    enqueue_all frame qs s = Some (tt, s') /\
    context_ s' = context_ s /\ settings s' = settings s /\
    program_id (draw_cache_ s') = 0 /\
    length (matrix_data (draw_cache_ s')) =
      (length (matrix_data (draw_cache_ s)) + length qs)%nat.
Proof.
  revert s. induction qs as [|q qs IH]; intros s Hq H0.
  - exists s. cbn. repeat split; auto.
  - inversion Hq as [|? ? Hq1 Hq2]; subst.
    destruct (EnqueueTextureQuad_without_program frame q s Hq1 H0)
      as (s1 & E1 & C1 & S1 & P1 & L1).
    rewrite <- S1 in Hq2.
    destruct (IH s1 Hq2 P1) as (s' & E & C & S' & P' & L).
    exists s'. cbn [enqueue_all]. rewrite bind_run, E1.
    split; [exact E|]. rewrite C, C1, S', S1, L, L1. cbn [length].
    repeat split; auto; lia.
Qed.

(** *** The start of a frame *)

Ltac skip_until_GLC c :=
  repeat lazymatch goal with
  | |- triple _ (GLC c ≫= _) _ => fail
  | |- triple _ (_ ≫= _) _ =>
      apply (triple_bind (fun _ => True)); [apply triple_any|intros]
  end.

Ltac skip_until_modify f :=
  repeat lazymatch goal with
  | |- triple _ (modify f ≫= _) _ => fail
  | |- triple _ (modify f) _ => fail
  | |- triple _ (_ ≫= _) _ =>
      apply (triple_bind (fun _ => True)); [apply triple_any|intros]
  end.

(** With a viewport that has pixels, [BeginDrawingFrame] goes past its
    test. *)
Lemma BeginDrawingFrame_past_the_test (J : GLRenderer -> Prop)
    (rest : Size -> M unit) :
  (forall size, triple (fun _ => True) (rest size) J) ->
  triple (fun s => Size_IsEmpty (ViewportSize (settings s)) = false)
    (EnsureBackbuffer;;
     size ← get (fun s => ViewportSize (settings s));
     if (sz_width size <=? 0) || (sz_height size <=? 0) then mret tt
     else rest size) J.
Proof.
  intros H.
  apply (triple_bind (fun s => Size_IsEmpty (ViewportSize (settings s)) = false)).
  { unfold EnsureBackbuffer. thread field_primitives. }
  intros _. apply triple_get_bind. intros size.
  destruct ((sz_width size <=? 0) || (sz_height size <=? 0)) eqn:E.
  - intros s a s' (N & <-) _. unfold Size_IsEmpty in N. congruence.
  - eapply triple_weaken; [|apply H]. intros; exact Logic.I.
Qed.

Lemma BeginDrawingFrame_blend frame :
  triple (fun s => Size_IsEmpty (ViewportSize (settings s)) = false)
    (BeginDrawingFrame frame)
    (fun s => blend_in_sync s /\ blend_shadow_ s = true).
Proof.
  apply triple_conj.
  - unfold BeginDrawingFrame.
    eapply (BeginDrawingFrame_past_the_test _ (fun size => _)). intros size.
    skip_until_GLC (enable GL_BLEND).
    apply (triple_bind (fun s => last_set sets_blend (calls s) = Some true)).
    { apply triple_GLC. intros s _. now rewrite calls_GLC, last_set_snoc. }
    intros _. apply (triple_bind blend_in_sync).
    { apply triple_modify. intros s H. exact H. }
    thread blend_sync_primitives.
  - unfold BeginDrawingFrame.
    eapply (BeginDrawingFrame_past_the_test _ (fun size => _)). intros size.
    skip_until_modify (set_blend_shadow_ true).
    apply (triple_bind (fun s => blend_shadow_ s = true)).
    { apply triple_modify. reflexivity. }
    thread field_primitives.
Qed.

Lemma BeginDrawingFrame_program frame :
  triple (fun s => Size_IsEmpty (ViewportSize (settings s)) = false)
    (BeginDrawingFrame frame)
    (fun s => program_shadow_ s = 0).
Proof.
  unfold BeginDrawingFrame.
  eapply (BeginDrawingFrame_past_the_test _ (fun size => _)). intros size.
  skip_until_modify (set_program_shadow_ 0).
  apply triple_modify. reflexivity.
Qed.

Lemma BeginDrawingFrame_context frame :
  triple (fun s => Size_IsEmpty (ViewportSize (settings s)) = false)
    (BeginDrawingFrame frame)
    (fun s => active_texture_is GL_TEXTURE0 s /\
              blend_func_is premultiplied_blend s).
Proof.
  apply triple_conj.
  - unfold BeginDrawingFrame.
    eapply (BeginDrawingFrame_past_the_test _ (fun size => _)). intros size.
    skip_until_GLC (activeTexture GL_TEXTURE0).
    apply (triple_bind (active_texture_is GL_TEXTURE0)).
    { apply triple_GLC. intros s _. unfold active_texture_is, active_texture.
      now rewrite calls_GLC, gl_state_snoc. }
    thread active_texture_primitives.
  - unfold BeginDrawingFrame.
    eapply (BeginDrawingFrame_past_the_test _ (fun size => _)). intros size.
    skip_until_GLC (blendFunc GL_ONE GL_ONE_MINUS_SRC_ALPHA).
    apply (triple_bind (blend_func_is premultiplied_blend)).
    { apply triple_GLC. intros s _. unfold blend_func_is, blend_func.
      now rewrite calls_GLC, gl_state_snoc. }
    thread blend_func_primitives.
Qed.

Lemma BeginDrawingFrame_backbuffer frame :
  triple (fun _ => True) (BeginDrawingFrame frame)
    (fun s => is_backbuffer_discarded_ s = false).
Proof.
  unfold BeginDrawingFrame.
  apply (triple_bind (fun s => is_backbuffer_discarded_ s = false)).
  - unfold EnsureBackbuffer. intros s a s' _. rewrite bind_run. unfold get at 1.
    destruct (is_backbuffer_discarded_ s) eqn:E; cbn [negb].
    + rewrite bind_run, GLC_run. now intros [= _ <-].
    + now intros [= _ <-].
  - intros _. thread field_primitives.
Qed.

Lemma BeginDrawingFrame_viewport frame :
  triple (fun s => Size_IsEmpty (ViewportSize (settings s)) = false)
    (BeginDrawingFrame frame)
    (fun s => is_viewport_changed_ s = false).
Proof.
  unfold BeginDrawingFrame.
  eapply (BeginDrawingFrame_past_the_test _ (fun size => _)). intros size.
  apply triple_get_bind. intros changed.
  apply (triple_bind (fun s => is_viewport_changed_ s = false)).
  - destruct changed; unfold when.
    + apply (triple_bind (fun s => is_viewport_changed_ s = false)).
      * apply triple_modify. reflexivity.
      * intros _. field_primitives.
    + intros s a s' (_ & H) [= _ <-]. exact H.
  - intros _. thread field_primitives.
Qed.

Lemma BeginDrawingFrame_empty frame (s : GLRenderer) :
  Size_IsEmpty (ViewportSize (settings s)) = true ->
  BeginDrawingFrame frame s = EnsureBackbuffer s.
Proof.
  intros H. unfold BeginDrawingFrame. rewrite bind_run.
  assert (T : triple (fun s0 => settings s0 = settings s) EnsureBackbuffer
                (fun s0 => settings s0 = settings s)).
  { unfold EnsureBackbuffer. thread field_primitives. }
  destruct (EnsureBackbuffer s) as [[[] s1]|] eqn:E; [|reflexivity].
  rewrite bind_run. unfold get at 1.
  rewrite (T s tt s1 eq_refl E). unfold Size_IsEmpty in H. rewrite H.
  reflexivity.
Qed.

(** ** The shadows of the GL state *)

Lemma total_EnsureScissorTestEnabled : total EnsureScissorTestEnabled.
Proof.
  unfold EnsureScissorTestEnabled.
  structure ltac:(first [apply total_FlushTextureQuadCache]).
Qed.

Lemma total_EnsureScissorTestDisabled : total EnsureScissorTestDisabled.
Proof.
  unfold EnsureScissorTestDisabled.
  structure ltac:(first [apply total_FlushTextureQuadCache]).
Qed.

Lemma total_SetScissorTestRect (r : Rect) : total (SetScissorTestRect r).
Proof.
  unfold SetScissorTestRect.
  structure ltac:(first [ apply total_FlushTextureQuadCache
                        | apply total_EnsureScissorTestEnabled ]).
Qed.

Lemma total_BeginDrawingFrame frame : total (BeginDrawingFrame frame).
Proof. unfold BeginDrawingFrame, EnsureBackbuffer. structure idtac. Qed.

(** X1.  The blend shadow never loses track of the context.  If
    [blend_shadow_] is the blend state the calls issued so far leave the
    context in, it still is after [SetBlendEnabled] (which also makes it the
    requested value), after the dispatch of a quad of any material, after the
    end of a quad list and after each of the three scissor routines. *)
Theorem blend_shadow_tracks_the_context (s : GLRenderer) :
  blend_in_sync s ->
  (forall b, on_return (SetBlendEnabled b) s
               (fun _ s' => blend_in_sync s' /\ blend_shadow_ s' = b)) /\
  (forall frame quad,
     on_return (DoDrawQuad frame quad) s (fun _ s' => blend_in_sync s')) /\
  on_return FinishDrawingQuadList s (fun _ s' => blend_in_sync s') /\
  (forall r, on_return (SetScissorTestRect r) s (fun _ s' => blend_in_sync s')) /\
  on_return EnsureScissorTestEnabled s (fun _ s' => blend_in_sync s') /\
  on_return EnsureScissorTestDisabled s (fun _ s' => blend_in_sync s').
Proof.
  intros H. destruct blend_sync_scissor as (S1 & S2 & S3).
  repeat split; intros.
  - unfold on_return.
    destruct (SetBlendEnabled_run b s) as (s' & l & E & B & _). rewrite E.
    split; [|exact B]. exact (blend_sync_SetBlendEnabled b s tt s' H E).
  - apply (triple_on_return blend_in_sync); [apply blend_sync_DoDrawQuad|exact H].
  - apply (triple_on_return blend_in_sync); [|exact H].
    unfold FinishDrawingQuadList. quad_routines. unfold SetUseProgram.
    thread blend_sync_primitives.
  - apply (triple_on_return blend_in_sync); [apply S1|exact H].
  - apply (triple_on_return blend_in_sync); [apply S2|exact H].
  - apply (triple_on_return blend_in_sync); [apply S3|exact H].
Qed.

(** X2.  The program shadow never loses track of the context.  If
    [program_shadow_] is 0 or the program of the last [useProgram] call, it
    still is after [SetUseProgram] (which also makes it the requested
    program), after the dispatch of a quad of any material, after the end of
    a quad list and after each of the three scissor routines. *)
Theorem program_shadow_tracks_the_context (s : GLRenderer) :
  program_in_sync s ->
  (forall p, exists s',
     SetUseProgram p s = Some (tt, s') /\
     program_in_sync s' /\ program_shadow_ s' = p) /\
  (forall frame quad,
     on_return (DoDrawQuad frame quad) s (fun _ s' => program_in_sync s')) /\
  on_return FinishDrawingQuadList s (fun _ s' => program_in_sync s') /\
  (forall r, on_return (SetScissorTestRect r) s (fun _ s' => program_in_sync s')) /\
  on_return EnsureScissorTestEnabled s (fun _ s' => program_in_sync s') /\
  on_return EnsureScissorTestDisabled s (fun _ s' => program_in_sync s').
Proof.
  intros H. destruct program_sync_scissor as (S1 & S2 & S3).
  repeat split; intros.
  - destruct (total_SetUseProgram p s) as [[[] s'] E]. exists s'.
    split; [exact E|]. split; [exact (program_sync_SetUseProgram p s tt s' H E)|].
    revert E. unfold SetUseProgram. rewrite bind_run. unfold get at 1.
    destruct (p =? program_shadow_ s) eqn:T.
    + intros [= <-]. symmetry. now apply Z.eqb_eq.
    + rewrite bind_run, GLC_run. now intros [= <-].
  - apply (triple_on_return program_in_sync); [apply program_sync_DoDrawQuad|exact H].
  - apply (triple_on_return program_in_sync); [|exact H].
    unfold FinishDrawingQuadList. quad_routines. unfold SetBlendEnabled.
    thread program_sync_primitives.
  - apply (triple_on_return program_in_sync); [apply S1|exact H].
  - apply (triple_on_return program_in_sync); [apply S2|exact H].
  - apply (triple_on_return program_in_sync); [apply S3|exact H].
Qed.

(** X3.  The scissor flag and the scissor rect never lose track of the
    context.  If [is_scissor_enabled_] is the scissor test the calls issued
    so far leave the context with, and [scissor_rect_] the last rect given to
    it (if one was given), both still hold after each of the three scissor
    routines, which always return; after [EnsureScissorTestEnabled] and
    [SetScissorTestRect] the flag is set, after [EnsureScissorTestDisabled] it
    is clear, and after [SetScissorTestRect r] the rect is [r]. *)
Theorem scissor_shadow_tracks_the_context (s : GLRenderer) :
  scissor_in_sync s ->
  (exists s', EnsureScissorTestEnabled s = Some (tt, s') /\
              scissor_in_sync s' /\ is_scissor_enabled_ s' = true) /\
  (exists s', EnsureScissorTestDisabled s = Some (tt, s') /\
              scissor_in_sync s' /\ is_scissor_enabled_ s' = false) /\
  (forall r, exists s',
     SetScissorTestRect r s = Some (tt, s') /\ scissor_in_sync s' /\
     is_scissor_enabled_ s' = true /\ scissor_rect_ s' = r).
Proof.
  intros H. repeat split.
  - destruct (total_EnsureScissorTestEnabled s) as [[[] s'] E]. exists s'.
    split; [exact E|]. split.
    + exact (scissor_sync_EnsureScissorTestEnabled s tt s' H E).
    + exact (scissor_flag_after EnsureScissorTestEnabled true
               (or_introl (conj eq_refl eq_refl)) s tt s' Logic.I E).
  - destruct (total_EnsureScissorTestDisabled s) as [[[] s'] E]. exists s'.
    split; [exact E|]. split.
    + exact (scissor_sync_EnsureScissorTestDisabled s tt s' H E).
    + exact (scissor_flag_after EnsureScissorTestDisabled false
               (or_intror (conj eq_refl eq_refl)) s tt s' Logic.I E).
  - intros r. destruct (total_SetScissorTestRect r s) as [[[] s'] E]. exists s'.
    split; [exact E|]. split.
    + exact (scissor_sync_SetScissorTestRect r s tt s' H E).
    + exact (SetScissorTestRect_sets r s tt s' Logic.I E).
Qed.

(** X4.  Drawing never touches the scissor state.  The dispatch of a quad
    of any material and the end of a quad list leave [is_scissor_enabled_]
    and [scissor_rect_] as they were and issue no scissor-test enable or
    disable and no scissor rect. *)
Theorem drawing_leaves_the_scissor_alone (s : GLRenderer) :
  (forall frame quad,
     on_return (DoDrawQuad frame quad) s (fun _ s' => scissor_kept s s')) /\
  on_return FinishDrawingQuadList s (fun _ s' => scissor_kept s s').
Proof.
  split; intros.
  - apply on_return_respects, scissor_kept_DoDrawQuad.
  - apply on_return_respects, scissor_kept_FlushTextureQuadCache.
Qed.

(** X5.  Texture unit 0 is the active one between quads.  The routines
    that select another unit (YUV video, render pass masks) select unit 0
    again before they return: if unit 0 is active, it still is after the
    dispatch of a quad of any material, after the end of a quad list and
    after each scissor routine.  [FlushTextureQuadCache] relies on it. *)
Theorem texture_unit_0_is_active_between_quads (s : GLRenderer) :
  active_texture_is GL_TEXTURE0 s ->
  (forall frame quad,
     on_return (DoDrawQuad frame quad) s
       (fun _ s' => active_texture_is GL_TEXTURE0 s')) /\
  on_return FinishDrawingQuadList s
    (fun _ s' => active_texture_is GL_TEXTURE0 s') /\
  (forall r, on_return (SetScissorTestRect r) s
               (fun _ s' => active_texture_is GL_TEXTURE0 s')) /\
  on_return EnsureScissorTestEnabled s
    (fun _ s' => active_texture_is GL_TEXTURE0 s') /\
  on_return EnsureScissorTestDisabled s
    (fun _ s' => active_texture_is GL_TEXTURE0 s').
Proof.
  intros H. destruct active_texture_scissor as (S1 & S2 & S3).
  repeat split; intros.
  - eapply triple_on_return; [apply active_texture_DoDrawQuad|exact H].
  - eapply triple_on_return; [|exact H].
    unfold FinishDrawingQuadList. quad_routines.
    unfold SetBlendEnabled, SetUseProgram. thread active_texture_primitives.
  - eapply triple_on_return; [apply S1|exact H].
  - eapply triple_on_return; [apply S2|exact H].
  - eapply triple_on_return; [apply S3|exact H].
Qed.

(** X6.  The blend function between quads is that of premultiplied alpha.
    A flush of textured quads without premultiplied alpha sets a separate
    blend function for the draw call and sets (GL_ONE,
    GL_ONE_MINUS_SRC_ALPHA) again after it: if the blend function is the
    premultiplied one, it still is after the dispatch of a quad of any
    material, after the end of a quad list and after each scissor routine. *)
Theorem premultiplied_blend_function_between_quads (s : GLRenderer) :
  blend_func_is premultiplied_blend s ->
  (forall frame quad,
     on_return (DoDrawQuad frame quad) s
       (fun _ s' => blend_func_is premultiplied_blend s')) /\
  on_return FinishDrawingQuadList s
    (fun _ s' => blend_func_is premultiplied_blend s') /\
  (forall r, on_return (SetScissorTestRect r) s
               (fun _ s' => blend_func_is premultiplied_blend s')) /\
  on_return EnsureScissorTestEnabled s
    (fun _ s' => blend_func_is premultiplied_blend s') /\
  on_return EnsureScissorTestDisabled s
    (fun _ s' => blend_func_is premultiplied_blend s').
Proof.
  intros H. destruct blend_func_scissor as (S1 & S2 & S3).
  repeat split; intros.
  - eapply triple_on_return; [apply blend_func_DoDrawQuad|exact H].
  - eapply triple_on_return; [|exact H].
    unfold FinishDrawingQuadList. quad_routines.
    unfold SetBlendEnabled, SetUseProgram. thread blend_func_primitives.
  - eapply triple_on_return; [apply S1|exact H].
  - eapply triple_on_return; [apply S2|exact H].
  - eapply triple_on_return; [apply S3|exact H].
Qed.

(** X7.  A request for the state the renderer is in already costs nothing.
    Running [SetBlendEnabled], [SetUseProgram], [EnsureScissorTestEnabled],
    [EnsureScissorTestDisabled], [SetScissorTestRect] or [EnsureBackbuffer]
    twice with the same argument gives the same calls and the same renderer
    as running it once. *)
Theorem repeated_state_requests_are_free (s : GLRenderer) :
  (forall b, (SetBlendEnabled b;; SetBlendEnabled b) s = SetBlendEnabled b s) /\
  (forall p, (SetUseProgram p;; SetUseProgram p) s = SetUseProgram p s) /\
  (EnsureScissorTestEnabled;; EnsureScissorTestEnabled) s =
    EnsureScissorTestEnabled s /\
  (EnsureScissorTestDisabled;; EnsureScissorTestDisabled) s =
    EnsureScissorTestDisabled s /\
  (forall r, (SetScissorTestRect r;; SetScissorTestRect r) s =
             SetScissorTestRect r s) /\
  (EnsureBackbuffer;; EnsureBackbuffer) s = EnsureBackbuffer s.
Proof.
  repeat split; intros.
  - apply SetBlendEnabled_twice.
  - apply SetUseProgram_twice.
  - apply EnsureScissorTestEnabled_twice.
  - apply EnsureScissorTestDisabled_twice.
  - apply SetScissorTestRect_twice.
  - apply EnsureBackbuffer_twice.
Qed.

(** ** Draw calls *)

(** X8.  A checkerboard quad, a debug border quad, an IOSurface quad and a
    YUV video quad are each drawn with exactly one draw call, whatever the
    renderer's state: six indices of triangles, and for the debug border a
    line loop of four indices.  The four routines always return. *)
Theorem simple_quads_take_one_draw_call (frame : DrawingFrame) (quad : DrawQuad)
    (s : GLRenderer) :
  (forall color, exists s',
     DrawCheckerboardQuad frame quad color s = Some (tt, s') /\
     draw_calls s' =
       draw_calls s ++ [drawElements GL_TRIANGLES 6 GL_UNSIGNED_SHORT 0]) /\
  (forall color width, exists s',
     DrawDebugBorderQuad frame quad color width s = Some (tt, s') /\
     draw_calls s' =
       draw_calls s ++ [drawElements GL_LINE_LOOP 4 GL_UNSIGNED_SHORT 0]) /\
  (forall size resource orientation, exists s',
     DrawIOSurfaceQuad frame quad size resource orientation s = Some (tt, s') /\
     draw_calls s' =
       draw_calls s ++ [drawElements GL_TRIANGLES 6 GL_UNSIGNED_SHORT 0]) /\
  (forall tex_scale y u v, exists s',
     DrawYUVVideoQuad frame quad tex_scale y u v s = Some (tt, s') /\
     draw_calls s' =
       draw_calls s ++ [drawElements GL_TRIANGLES 6 GL_UNSIGNED_SHORT 0]).
Proof.
  repeat split; intros.
  - apply DrawCheckerboardQuad_draws.
  - apply DrawDebugBorderQuad_draws.
  - apply DrawIOSurfaceQuad_draws.
  - apply DrawYUVVideoQuad_draws.
Qed.

(** X9.  A stream video quad can only be drawn when EGL images are in use.
    Without them [GetVideoStreamTextureProgram] returns no program and
    [DrawStreamVideoQuad] dereferences it; with them the routine returns and
    has issued exactly one draw call. *)
Theorem stream_video_needs_egl_images (frame : DrawingFrame) (quad : DrawQuad)
    (resource : ResourceId) (matrix : Transform) (s : GLRenderer) :
  (using_egl_image (settings s) = false ->
   DrawStreamVideoQuad frame quad resource matrix s = None) /\
  (using_egl_image (settings s) = true ->
   exists s',
     DrawStreamVideoQuad frame quad resource matrix s = Some (tt, s') /\
     draw_calls s' =
       draw_calls s ++ [drawElements GL_TRIANGLES 6 GL_UNSIGNED_SHORT 0]).
Proof.
  split.
  - apply DrawStreamVideoQuad_without_egl.
  - apply DrawStreamVideoQuad_with_egl.
Qed.

(** X10.  A solid colour quad or a content quad (a tile) whose flattened
    device transform is invertible is drawn with exactly one draw call of
    six indices; the routines return. *)
Theorem invertible_quads_take_one_draw_call (frame : DrawingFrame)
    (quad : DrawQuad) (s : GLRenderer) :
  IsInvertible (device_transform_of frame (quadTransform quad)) = true ->
  (forall color, exists s',
     DrawSolidColorQuad frame quad color s = Some (tt, s') /\
     draw_calls s' =
       draw_calls s ++ [drawElements GL_TRIANGLES 6 GL_UNSIGNED_SHORT 0]) /\
  (forall base resource, exists s',
     DrawContentQuad frame quad base resource s = Some (tt, s') /\
     draw_calls s' =
       draw_calls s ++ [drawElements GL_TRIANGLES 6 GL_UNSIGNED_SHORT 0]) /\
  (forall base resource, exists s',
     DrawTileQuad frame quad base resource s = Some (tt, s') /\
     draw_calls s' =
       draw_calls s ++ [drawElements GL_TRIANGLES 6 GL_UNSIGNED_SHORT 0]).
Proof.
  intros H. repeat split; intros.
  - now apply DrawSolidColorQuad_draws.
  - now apply DrawContentQuad_draws.
  - unfold DrawTileQuad. now apply DrawContentQuad_draws.
Qed.

(** ** The batching cache over a quad list *)

(** X11.  The cache never holds more than 8 quads.  Call the cache
    consistent when its program id is 0 exactly when it holds no quad, it
    holds one uv transform and four vertex opacities for each matrix, and at
    most 8 matrices.  The dispatch of any quad keeps it consistent, provided
    a textured quad selects a program whose GL name is not 0 (and is an
    [unsigned], as its resource id).  A flush of a consistent cache returns,
    leaves the empty cache, and issues no draw call when the cache is empty
    and otherwise one draw call of 6 * n indices, n in 1..8. *)
Theorem cache_never_exceeds_capacity (frame : DrawingFrame) (quad : DrawQuad)
    (s : GLRenderer) :
  cache_consistent (draw_cache_ s) ->
  (forall tq, material quad = TEXTURE_CONTENT tq ->
     well_formed (settings s) (quad, tq) /\
     program (selected_program (settings s) (quad, tq)) <> 0) ->
  on_return (DoDrawQuad frame quad) s
    (fun _ s' => cache_consistent (draw_cache_ s')) /\
  (exists s',
     FlushTextureQuadCache s = Some (tt, s') /\
     cache_empty (draw_cache_ s') /\
     draw_calls s' = draw_calls s ++ flush_draws (draw_cache_ s)) /\
  (flush_draws (draw_cache_ s) = [] /\ matrix_data (draw_cache_ s) = [] \/
   exists n, (1 <= n <= 8)%nat /\ length (matrix_data (draw_cache_ s)) = n /\
     flush_draws (draw_cache_ s) =
       [drawElements GL_TRIANGLES (6 * Z.of_nat n) GL_UNSIGNED_SHORT 0]).
Proof.
  intros Hc Ht. split; [now apply DoDrawQuad_consistent|]. split.
  - destruct (FlushTextureQuadCache_consistent s Hc) as (s' & F & E & _ & D).
    exists s'. auto.
  - destruct Hc as (Hz & _ & _ & H8). unfold flush_draws.
    destruct (program_id (draw_cache_ s) =? 0) eqn:E.
    + left. split; [reflexivity|]. apply Hz. now apply Z.eqb_eq.
    + right. exists (length (matrix_data (draw_cache_ s))).
      split; [|split; reflexivity]. split; [|exact H8].
      destruct (matrix_data (draw_cache_ s)) eqn:Em; [|cbn; lia].
      apply Z.eqb_neq in E. exfalso. apply E, Hz. reflexivity.
Qed.

(** X12.  Textured quads whose program has the GL name 0 are never drawn
    and are never dropped from the cache.  From a cache whose program id is
    0, enqueuing any number of such quads and flushing returns, issues no
    call at all, and leaves every one of them in the cache: the cache grows
    by one matrix a quad, also beyond 8. *)
Theorem quads_without_a_program_pile_up (frame : DrawingFrame)
    (qs : list TexturedQuad) (s : GLRenderer) :
  Forall (fun q => program (selected_program (settings s) q) = 0) qs ->
  program_id (draw_cache_ s) = 0 ->
  exists s',
    (enqueue_all frame qs;; FlushTextureQuadCache) s = Some (tt, s') /\
    context_ s' = context_ s /\
    length (matrix_data (draw_cache_ s')) =
      (length (matrix_data (draw_cache_ s)) + length qs)%nat.
Proof.
  intros Hq H0.
  destruct (enqueue_all_without_program frame qs s Hq H0)
    as (s' & E & C & _ & P' & L).
  exists s'. rewrite bind_run, E, (FlushTextureQuadCache_empty s' P'). auto.
Qed.

(** ** The start of a frame *)

(** X13.  [BeginDrawingFrame] always returns.  When the viewport has no
    pixel it does what [EnsureBackbuffer] does and nothing else.  Otherwise
    it leaves a known state, whatever it started from: blending enabled in
    the context and in the shadow, the premultiplied blend function, texture
    unit 0 active, the program shadow 0, the back buffer present and no
    reshape pending. *)
Theorem frame_starts_from_a_known_state (frame : DrawingFrame) (s : GLRenderer) :
  (Size_IsEmpty (ViewportSize (settings s)) = true ->
   BeginDrawingFrame frame s = EnsureBackbuffer s) /\
  (Size_IsEmpty (ViewportSize (settings s)) = false ->
   exists s',
     BeginDrawingFrame frame s = Some (tt, s') /\
     blend_shadow_ s' = true /\ blend_in_sync s' /\
     program_shadow_ s' = 0 /\ program_in_sync s' /\
     active_texture_is GL_TEXTURE0 s' /\
     blend_func_is premultiplied_blend s' /\
     is_backbuffer_discarded_ s' = false /\
     is_viewport_changed_ s' = false).
Proof.
  split; [apply BeginDrawingFrame_empty|]. intros H.
  destruct (total_BeginDrawingFrame frame s) as [[[] s'] E]. exists s'.
  split; [exact E|].
  destruct (BeginDrawingFrame_blend frame s tt s' H E) as [B1 B2].
  pose proof (BeginDrawingFrame_program frame s tt s' H E) as P0.
  destruct (BeginDrawingFrame_context frame s tt s' H E) as [C1 C2].
  pose proof (BeginDrawingFrame_backbuffer frame s tt s' Logic.I E) as K.
  pose proof (BeginDrawingFrame_viewport frame s tt s' H E) as V.
  repeat split; auto. left. exact P0.
Qed.

(** ** Reading pixels back *)

Lemma to_size_t_small (bits z : Z) : 0 <= z < 2 ^ bits -> to_size_t bits z = z.
Proof. intros H. unfold to_size_t. now apply Z.mod_small. Qed.

Lemma load_Some (a : list Z) (i : Z) :
  0 <= i < Z.of_nat (length a) -> exists v, load a i = Some v /\ a !! Z.to_nat i = Some v.
Proof.
  intros H. unfold load. destruct (i <? 0) eqn:E; [lia|].
  destruct (lookup_lt_is_Some_2 a (Z.to_nat i)) as [v Hv]; [lia|].
  exists v. auto.
Qed.

Lemma store_Some (a : list Z) (i v : Z) :
  0 <= i < Z.of_nat (length a) ->
  exists a', store a i v = Some a' /\ length a' = length a /\
    forall j, 0 <= j ->
      a' !! Z.to_nat j = if j =? i then Some v else a !! Z.to_nat j.
Proof.
  intros H. unfold store.
  replace ((0 <=? i) && (i <? Z.of_nat (length a))) with true
    by (symmetry; apply andb_true_iff; lia).
  eexists. split; [reflexivity|]. split; [apply length_insert|].
  intros j Hj. destruct (j =? i) eqn:E.
  - apply Z.eqb_eq in E. subst. apply list_lookup_insert_eq. lia.
  - apply Z.eqb_neq in E. apply list_lookup_insert_ne. lia.
Qed.

(** A loop that takes [n] iterations, through the indices [idx 0], ...,
    [idx (n - 1)], with an invariant. *)
Lemma for_loop_invariant {St} (Inv : nat -> St -> Prop) (idx : nat -> Z)
    (next : Z -> Z) (bound : Z) (body : Z -> St -> option St) (n : nat) :
  (forall k, (k < n)%nat -> idx k < bound /\ next (idx k) = idx (S k)) ->
  ~ idx n < bound ->
  (forall k s, (k < n)%nat -> Inv k s ->
     exists s', body (idx k) s = Some s' /\ Inv (S k) s') ->
  forall k fuel s, (k <= n)%nat -> (n - k < fuel)%nat -> Inv k s ->
    exists s', for_loop fuel next bound body (idx k) s = Some s' /\ Inv n s'.
Proof.
  intros Hidx Hend Hbody k fuel. revert k.
  induction fuel as [|fuel IH]; intros k s Hk Hf HI; [lia|].
  cbn [for_loop]. destruct (Nat.eq_dec k n) as [->|Hne].
  - replace (idx n <? bound) with false by (symmetry; apply Z.ltb_ge; lia).
    eauto.
  - assert (Hlt : (k < n)%nat) by lia.
    destruct (Hidx k Hlt) as [Hb Hn].
    replace (idx k <? bound) with true by (symmetry; apply Z.ltb_lt; lia).
    destruct (Hbody k s Hlt HI) as (s' & -> & HI'). rewrite Hn.
    apply IH; [lia|lia|exact HI'].
Qed.

Lemma copy_pixel_spec (bits : Z) (src d : list Z) (src_y dest_y x : Z) :
  2 ^ 31 <= 2 ^ bits ->
  0 <= src_y -> 0 <= dest_y -> 0 <= x ->
  src_y + x + 4 <= Z.of_nat (length src) ->
  dest_y + x + 4 <= Z.of_nat (length d) ->
  src_y + x + 4 < 2 ^ 31 -> dest_y + x + 4 < 2 ^ 31 ->
  exists d',
    copy_pixel bits src src_y dest_y x d = Some d' /\
    length d' = length d /\
    forall j, 0 <= j ->
      d' !! Z.to_nat j =
      if (dest_y + x <=? j) && (j <? dest_y + x + 4)
      then src !! Z.to_nat (src_y + x + swizzled (j - (dest_y + x)))
      else d !! Z.to_nat j.
Proof.
  intros HB Hs Hd Hx Ls Ld Bs Bd. unfold copy_pixel.
  rewrite !(to_size_t_small bits) by (rewrite ?to_size_t_small; lia).
  destruct (load_Some src (src_y + (x + 2))) as (b0 & -> & S0); [lia|].
  cbn [mbind option_bind].
  destruct (store_Some d (dest_y + (x + 0)) b0) as (d0 & -> & L0 & G0); [lia|].
  cbn [mbind option_bind].
  destruct (load_Some src (src_y + (x + 1))) as (b1 & -> & S1); [lia|].
  cbn [mbind option_bind].
  destruct (store_Some d0 (dest_y + (x + 1)) b1) as (d1 & -> & L1 & G1); [lia|].
  cbn [mbind option_bind].
  destruct (load_Some src (src_y + (x + 0))) as (b2 & -> & S2); [lia|].
  cbn [mbind option_bind].
  destruct (store_Some d1 (dest_y + (x + 2)) b2) as (d2 & -> & L2 & G2); [lia|].
  cbn [mbind option_bind].
  destruct (load_Some src (src_y + (x + 3))) as (b3 & -> & S3); [lia|].
  cbn [mbind option_bind].
  destruct (store_Some d2 (dest_y + (x + 3)) b3) as (d3 & -> & L3 & G3); [lia|].
  exists d3. split; [reflexivity|]. split; [lia|].
  intros j Hj. rewrite G3, G2, G1, G0 by exact Hj. unfold swizzled.
  destruct (j =? dest_y + (x + 3)) eqn:E3;
    [apply Z.eqb_eq in E3; subst j;
     replace (dest_y + (x + 3) - (dest_y + x)) with 3 by lia; cbn;
     replace ((dest_y + x <=? dest_y + (x + 3)) && (dest_y + (x + 3) <? dest_y + x + 4))
       with true by (symmetry; apply andb_true_iff; lia);
     rewrite <- S3; f_equal; lia|].
  destruct (j =? dest_y + (x + 2)) eqn:E2;
    [apply Z.eqb_eq in E2; subst j;
     replace (dest_y + (x + 2) - (dest_y + x)) with 2 by lia; cbn;
     replace ((dest_y + x <=? dest_y + (x + 2)) && (dest_y + (x + 2) <? dest_y + x + 4))
       with true by (symmetry; apply andb_true_iff; lia);
     rewrite <- S2; f_equal; lia|].
  destruct (j =? dest_y + (x + 1)) eqn:E1;
    [apply Z.eqb_eq in E1; subst j;
     replace (dest_y + (x + 1) - (dest_y + x)) with 1 by lia; cbn;
     replace ((dest_y + x <=? dest_y + (x + 1)) && (dest_y + (x + 1) <? dest_y + x + 4))
       with true by (symmetry; apply andb_true_iff; lia);
     rewrite <- S1; f_equal; lia|].
  destruct (j =? dest_y + (x + 0)) eqn:E0;
    [apply Z.eqb_eq in E0; subst j;
     replace (dest_y + (x + 0) - (dest_y + x)) with 0 by lia; cbn;
     replace ((dest_y + x <=? dest_y + (x + 0)) && (dest_y + (x + 0) <? dest_y + x + 4))
       with true by (symmetry; apply andb_true_iff; lia);
     rewrite <- S0; f_equal; lia|].
  apply Z.eqb_neq in E3, E2, E1, E0.
  replace ((dest_y + x <=? j) && (j <? dest_y + x + 4)) with false; [reflexivity|].
  symmetry. apply andb_false_iff. rewrite Z.leb_gt, Z.ltb_ge. lia.
Qed.

Lemma copy_row_spec (bits : Z) (src d : list Z) (src_y dest_y w : Z) :
  2 ^ 31 <= 2 ^ bits ->
  0 <= w -> 0 <= src_y -> 0 <= dest_y ->
  src_y + 4 * w <= Z.of_nat (length src) ->
  dest_y + 4 * w <= Z.of_nat (length d) ->
  src_y + 4 * w < 2 ^ 31 -> dest_y + 4 * w < 2 ^ 31 ->
  exists d',
    for_loop (S (Z.to_nat (4 * w))) (fun x => to_size_t bits (x + 4)) (4 * w)
      (copy_pixel bits src src_y dest_y) 0 d = Some d' /\
    length d' = length d /\
    (forall x c, 0 <= x < w -> 0 <= c < 4 ->
       d' !! Z.to_nat (dest_y + 4 * x + c) =
       src !! Z.to_nat (src_y + 4 * x + swizzled c)) /\
    (forall j, 0 <= j -> j < dest_y \/ dest_y + 4 * w <= j ->
       d' !! Z.to_nat j = d !! Z.to_nat j).
Proof.
  intros HB Hw Hs Hd Ls Ld Bs Bd.
  pose (Inv := fun (k : nat) (d' : list Z) =>
    length d' = length d /\
    (forall x c, 0 <= x < Z.of_nat k -> 0 <= c < 4 ->
       d' !! Z.to_nat (dest_y + 4 * x + c) =
       src !! Z.to_nat (src_y + 4 * x + swizzled c)) /\
    (forall j, 0 <= j -> j < dest_y \/ dest_y + 4 * Z.of_nat k <= j ->
       d' !! Z.to_nat j = d !! Z.to_nat j)).
  destruct (for_loop_invariant Inv (fun k => 4 * Z.of_nat k)
              (fun x => to_size_t bits (x + 4)) (4 * w)
              (copy_pixel bits src src_y dest_y) (Z.to_nat w))
    with (k := 0%nat) (fuel := S (Z.to_nat (4 * w))) (s := d)
    as (d' & E & L & A & B).
  - intros k Hk. split; [lia|]. rewrite to_size_t_small; lia.
  - lia.
  - intros k s Hk (L & A & B).
    destruct (copy_pixel_spec bits src s src_y dest_y (4 * Z.of_nat k))
      as (s' & E' & L' & Hg); try lia.
    exists s'. split; [exact E'|]. split; [lia|]. split.
    + intros x c Hx Hc. rewrite Hg by lia.
      destruct (Z.eq_dec x (Z.of_nat k)) as [->|Hne].
      * replace ((dest_y + 4 * Z.of_nat k <=? dest_y + 4 * Z.of_nat k + c) &&
                 (dest_y + 4 * Z.of_nat k + c <? dest_y + 4 * Z.of_nat k + 4))
          with true by (symmetry; apply andb_true_iff; lia).
        do 2 f_equal.
        replace (dest_y + 4 * Z.of_nat k + c - (dest_y + 4 * Z.of_nat k)) with c by lia.
        reflexivity.
      * replace ((dest_y + 4 * Z.of_nat k <=? dest_y + 4 * x + c) &&
                 (dest_y + 4 * x + c <? dest_y + 4 * Z.of_nat k + 4))
          with false
          by (symmetry; apply andb_false_iff; rewrite Z.leb_gt, Z.ltb_ge; lia).
        apply A; lia.
    + intros j Hj Hout. rewrite Hg by lia.
      replace ((dest_y + 4 * Z.of_nat k <=? j) && (j <? dest_y + 4 * Z.of_nat k + 4))
        with false
        by (symmetry; apply andb_false_iff; rewrite Z.leb_gt, Z.ltb_ge; lia).
      apply B; lia.
  - lia.
  - lia.
  - split; [reflexivity|]. split; [intros; lia|]. reflexivity.
  - exists d'. split; [exact E|]. split; [exact L|]. split.
    + intros x c Hx Hc. apply A; lia.
    + intros j Hj Hout. apply B; lia.
Qed.

Lemma row_index_lt (w x y k c : Z) :
  0 <= x < w -> 0 <= y < k -> 0 <= c < 4 -> 4 * (y * w + x) + c < 4 * w * k.
Proof. intros. nia. Qed.

Lemma copy_pixels_spec (bits : Z) (rect : Rect) (src dest : list Z) :
  32 <= bits ->
  0 <= r_width rect -> 0 <= r_height rect ->
  r_width rect * r_height rect * 4 < 2 ^ 31 ->
  Z.of_nat (length src) = r_width rect * r_height rect * 4 ->
  r_width rect * r_height rect * 4 <= Z.of_nat (length dest) ->
  exists out,
    copy_pixels bits rect src dest = Some out /\
    length out = length dest /\
    (forall x y c,
       0 <= x < r_width rect -> 0 <= y < r_height rect -> 0 <= c < 4 ->
       byte_at out (r_width rect) x y c =
       byte_at src (r_width rect) x (r_height rect - 1 - y) (swizzled c)) /\
    (forall j, r_width rect * r_height rect * 4 <= j ->
       out !! Z.to_nat j = dest !! Z.to_nat j).
Proof.
  destruct rect as [rx ry w h]. cbn [r_width r_height].
  intros Hbits Hw Hh Hsmall Ls Ld.
  assert (HB : 2 ^ 31 <= 2 ^ bits) by (apply Z.pow_le_mono_r; lia).
  assert (H31 : 0 < 2 ^ 31) by lia.
  unfold copy_pixels. cbn [r_width r_height].
  destruct (Z.eq_dec w 0) as [->|Hw0].
  { (* no column: the loop takes no step *)
    rewrite (to_size_t_small bits (0 * 4)) by lia.
    rewrite Z.mul_0_r, (to_size_t_small bits 0) by lia.
    cbn. exists dest. repeat split; intros; lia. }
  destruct (Z.eq_dec h 0) as [->|Hh0].
  { rewrite (to_size_t_small bits 0) by lia.
    rewrite Z.mul_0_l, (to_size_t_small bits 0) by lia.
    cbn. exists dest. repeat split; intros; lia. }
  assert (Hwh : w <= w * h) by nia.
  assert (Hhw : h <= w * h) by nia.
  rewrite (to_size_t_small bits (w * 4)) by lia.
  rewrite (to_size_t_small bits h) by lia.
  rewrite (to_size_t_small bits (h * (w * 4))) by lia.
  pose (Inv := fun (k : nat) (d' : list Z) =>
    length d' = length dest /\
    (forall x y c, 0 <= x < w -> 0 <= y < Z.of_nat k -> 0 <= c < 4 ->
       d' !! Z.to_nat (4 * (y * w + x) + c) =
       src !! Z.to_nat (4 * ((h - 1 - y) * w + x) + swizzled c)) /\
    (forall j, 4 * w * Z.of_nat k <= j -> d' !! Z.to_nat j = dest !! Z.to_nat j)).
  destruct (for_loop_invariant Inv (fun k => 4 * w * Z.of_nat k)
              (fun dest_y => to_size_t bits (dest_y + w * 4)) (h * (w * 4))
              (fun dest_y dest_pixels =>
                 for_loop (S (Z.to_nat (w * 4)))
                   (fun x => to_size_t bits (x + 4)) (w * 4)
                   (copy_pixel bits src
                      (to_size_t bits
                         (to_size_t bits (h * (w * 4) - dest_y) - w * 4)) dest_y)
                   0 dest_pixels)
              (Z.to_nat h))
    with (k := 0%nat) (fuel := S (Z.to_nat (h * (w * 4)))) (s := dest)
    as (out & E & L & A & B).
  - intros k Hk. split; [nia|]. rewrite to_size_t_small; nia.
  - nia.
  - intros k s Hk (L & A & B).
    assert (Hk' : 0 <= Z.of_nat k < h) by lia.
    assert (Hrow : 4 * w * Z.of_nat k + 4 * w <= 4 * w * h) by nia.
    rewrite (to_size_t_small bits (h * (w * 4) - 4 * w * Z.of_nat k)) by nia.
    rewrite (to_size_t_small bits (h * (w * 4) - 4 * w * Z.of_nat k - w * 4)) by nia.
    replace (w * 4) with (4 * w) by lia.
    destruct (copy_row_spec bits src s
                (h * (4 * w) - 4 * w * Z.of_nat k - 4 * w)
                (4 * w * Z.of_nat k) w)
      as (s' & E' & L' & A' & B'); try nia.
    exists s'. split; [exact E'|]. split; [lia|]. split.
    + intros x y c Hx Hy Hc.
      destruct (Z.eq_dec y (Z.of_nat k)) as [->|Hne].
      * replace (4 * (Z.of_nat k * w + x) + c)
          with (4 * w * Z.of_nat k + 4 * x + c) by lia.
        rewrite A' by lia. f_equal. f_equal. lia.
      * rewrite B'.
        -- apply A; lia.
        -- nia.
        -- left. apply row_index_lt; lia.
    + intros j Hj. rewrite B' by nia. apply B. nia.
  - lia.
  - nia.
  - split; [reflexivity|]. split; [intros; lia|]. reflexivity.
  - replace (4 * w * Z.of_nat 0) with 0 in E by lia.
    exists out. split; [exact E|]. split; [exact L|]. split.
    + intros x y c Hx Hy Hc. unfold byte_at. rewrite A by lia. reflexivity.
    + intros j Hj. apply B. nia.
Qed.

Lemma swizzled_range (c : Z) : 0 <= c < 4 -> 0 <= swizzled c < 4.
Proof.
  intros Hc. unfold swizzled.
  destruct (Z.eqb_spec c 0); [lia|]. destruct (Z.eqb_spec c 2); lia.
Qed.

Lemma swizzled_twice (c : Z) : swizzled (swizzled c) = c.
Proof.
  unfold swizzled.
  destruct (Z.eqb_spec c 0) as [->|]; [reflexivity|].
  destruct (Z.eqb_spec c 2) as [->|]; [reflexivity|].
  destruct (Z.eqb_spec c 0); [lia|]. destruct (Z.eqb_spec c 2); [lia|reflexivity].
Qed.

(** Every byte index below [4 * w * h] is the channel [c] of a pixel [(x, y)]
    of the rectangle. *)
Lemma byte_index_split (w h j : Z) :
  0 < w -> 0 <= j < w * h * 4 ->
  exists x y c,
    0 <= x < w /\ 0 <= y < h /\ 0 <= c < 4 /\ j = 4 * (y * w + x) + c.
Proof.
  intros Hw Hj.
  exists ((j / 4) mod w), ((j / 4) / w), (j mod 4).
  pose proof (Z.div_mod j 4 ltac:(lia)) as D4.
  pose proof (Z.mod_pos_bound j 4 ltac:(lia)) as M4.
  pose proof (Z.div_mod (j / 4) w ltac:(lia)) as Dw.
  pose proof (Z.mod_pos_bound (j / 4) w Hw) as Mw.
  assert (0 <= j / 4) by (apply Z.div_pos; lia).
  assert (0 <= j / 4 / w) by (apply Z.div_pos; lia).
  assert (j / 4 < w * h) by (apply Z.div_lt_upper_bound; lia).
  assert (j / 4 / w < h) by (apply Z.div_lt_upper_bound; lia).
  repeat split; try lia.
Qed.


(** ** Reading pixels back *)

(** X14.  The copy loop of [GetFramebufferPixels] on a rectangle of [w] by
    [h] pixels, with [size_t] of at least 32 bits, [4 * w * h] below 2^31, a
    source of [4 * w * h] bytes and a destination of at least as many:
    the loop ends without an access outside the arrays; the pixel in column
    [x] of row [y] of the result is the pixel in column [x] of row
    [h - 1 - y] of the source with channels 0 and 2 exchanged and channels
    1 and 3 kept; the destination keeps its length and its bytes from
    [4 * w * h] on. *)
Theorem readback_flips_rows_and_swaps_red_and_blue
    (bits : Z) (rect : Rect) (src_pixels dest_pixels : list Z) :
  32 <= bits ->
  0 <= r_width rect -> 0 <= r_height rect ->
  r_width rect * r_height rect * 4 < 2 ^ 31 ->
  Z.of_nat (length src_pixels) = r_width rect * r_height rect * 4 ->
  r_width rect * r_height rect * 4 <= Z.of_nat (length dest_pixels) ->
  exists out,
    copy_pixels bits rect src_pixels dest_pixels = Some out /\
    length out = length dest_pixels /\
    (forall x y c,
       0 <= x < r_width rect -> 0 <= y < r_height rect -> 0 <= c < 4 ->
       byte_at out (r_width rect) x y c =
       byte_at src_pixels (r_width rect) x (r_height rect - 1 - y)
         (if c =? 0 then 2 else if c =? 2 then 0 else c)) /\
    (forall j, r_width rect * r_height rect * 4 <= j ->
       out !! Z.to_nat j = dest_pixels !! Z.to_nat j).
Proof. apply copy_pixels_spec. Qed.

(** X15.  The copy loop of [GetFramebufferPixels] undoes itself: when the
    source and the two destinations have exactly [4 * w * h] bytes, copying
    the source and then copying the result gives the source back. *)
Theorem copying_the_copy_restores_the_source
    (bits : Z) (rect : Rect) (src dest dest' : list Z) :
  32 <= bits ->
  0 <= r_width rect -> 0 <= r_height rect ->
  r_width rect * r_height rect * 4 < 2 ^ 31 ->
  Z.of_nat (length src) = r_width rect * r_height rect * 4 ->
  Z.of_nat (length dest) = r_width rect * r_height rect * 4 ->
  Z.of_nat (length dest') = r_width rect * r_height rect * 4 ->
  exists mid,
    copy_pixels bits rect src dest = Some mid /\
    copy_pixels bits rect mid dest' = Some src.
Proof.
  intros Hbits Hw Hh Hsmall Ls Ld Ld'.
  destruct (copy_pixels_spec bits rect src dest) as (mid & E1 & L1 & A1 & _);
    try lia.
  destruct (copy_pixels_spec bits rect mid dest') as (out & E2 & L2 & A2 & _);
    try lia.
  exists mid. split; [exact E1|]. rewrite E2. f_equal.
  apply list_eq. intros i.
  destruct (Z_lt_dec (Z.of_nat i) (r_width rect * r_height rect * 4)) as [Hi|Hi].
  - assert (0 < r_width rect) by nia.
    destruct (byte_index_split (r_width rect) (r_height rect) (Z.of_nat i))
      as (x & y & c & Hx & Hy & Hc & Ei); [lia|lia|].
    pose proof (A2 x y c Hx Hy Hc) as S2.
    pose proof (A1 x (r_height rect - 1 - y) (swizzled c) Hx ltac:(lia)
                  (swizzled_range c Hc)) as S1.
    rewrite S1, swizzled_twice in S2.
    replace (r_height rect - 1 - (r_height rect - 1 - y)) with y in S2 by lia.
    unfold byte_at in S2. rewrite <- Ei, Nat2Z.id in S2. exact S2.
  - rewrite (lookup_ge_None_2 out), (lookup_ge_None_2 src) by lia. reflexivity.
Qed.


(** ** The current context *)

Lemma context_run_snoc (l : list Call) (c : Call) :
  context_run (l ++ [c]) =
  (default (context_run l).1 (makes_current c),
   (context_run l).2 && implb (on_compositor_context c) (context_run l).1).
Proof. unfold context_run. now rewrite fold_left_app. Qed.

Lemma context_discipline_GLC (c : Call) (b : bool) :
  implb (on_compositor_context c) b = true ->
  triple (context_discipline b) (GLC c)
    (context_discipline (default b (makes_current c))).
Proof.
  intros H. apply triple_GLC. intros s E. unfold context_discipline in *.
  rewrite calls_GLC, context_run_snoc, E. cbn [fst snd andb]. now rewrite H.
Qed.

Lemma context_discipline_modify (f : GLRenderer -> GLRenderer) (b : bool) :
  (forall s, context_ (f s) = context_ s) ->
  triple (context_discipline b) (modify f) (context_discipline b).
Proof.
  intros C. apply triple_modify. intros s.
  unfold context_discipline, calls. now rewrite C.
Qed.

Ltac context_primitives := idtac;
  lazymatch goal with
  | |- triple _ (GLC _) _ => apply context_discipline_GLC; reflexivity
  | |- triple _ (modify _) _ =>
      apply context_discipline_modify; intros ?; reflexivity
  end.

Lemma context_discipline_DoDrawQuad frame quad :
  triple (context_discipline true) (DoDrawQuad frame quad)
    (context_discipline true).
Proof.
  quad_routines. unfold SetBlendEnabled, SetUseProgram.
  thread context_primitives.
Qed.

Lemma context_discipline_scissor :
  (forall r, triple (context_discipline true) (SetScissorTestRect r)
               (context_discipline true)) /\
  triple (context_discipline true) EnsureScissorTestEnabled
    (context_discipline true) /\
  triple (context_discipline true) EnsureScissorTestDisabled
    (context_discipline true).
Proof.
  repeat split; intros; scissor_routines; quad_routines;
    unfold SetBlendEnabled, SetUseProgram; thread context_primitives.
Qed.

Lemma context_discipline_BeginDrawingFrame frame (b : bool) :
  triple (fun s => context_discipline b s /\
                   Size_IsEmpty (ViewportSize (settings s)) = false)
    (BeginDrawingFrame frame) (context_discipline true).
Proof.
  unfold BeginDrawingFrame.
  apply (triple_bind
           (fun s => context_discipline b s /\
                     Size_IsEmpty (ViewportSize (settings s)) = false)).
  { apply triple_conj.
    - eapply triple_weaken; [intros s H; exact (proj1 H)|].
      unfold EnsureBackbuffer. thread context_primitives.
    - eapply triple_weaken; [intros s H; exact (proj2 H)|].
      unfold EnsureBackbuffer. thread field_primitives. }
  intros _. apply triple_get_bind. intros size.
  destruct ((sz_width size <=? 0) || (sz_height size <=? 0)) eqn:E.
  - intros s a s' ((_ & N) & <-) _. unfold Size_IsEmpty in N. congruence.
  - eapply triple_weaken; [intros s H; exact (proj1 (proj1 H))|].
    thread context_primitives.
Qed.


(** X21.  The calls on [context_] go to the current context.  Say that a
    renderer keeps the discipline if, of the calls issued so far, every
    call on [context_] came while the compositor's context was current.
    [BeginDrawingFrame] on a viewport with pixels returns, keeps the
    discipline and leaves the compositor's context current, whichever
    context was current before.  From then on the dispatch of a quad of any
    material, the end of a quad list and the scissor routines keep the
    discipline and leave the compositor's context current: a filter that
    makes the off-screen context current hands the context back before the
    renderer issues its next call. *)
Theorem calls_go_to_the_current_context (s : GLRenderer) :
  (forall frame current,
     context_discipline current s ->
     Size_IsEmpty (ViewportSize (settings s)) = false ->
     exists s',
       BeginDrawingFrame frame s = Some (tt, s') /\
       context_discipline true s') /\
  (context_discipline true s ->
   (forall frame quad,
      on_return (DoDrawQuad frame quad) s
        (fun _ s' => context_discipline true s')) /\
   on_return FinishDrawingQuadList s
     (fun _ s' => context_discipline true s') /\
   (forall r, on_return (SetScissorTestRect r) s
                (fun _ s' => context_discipline true s')) /\
   on_return EnsureScissorTestEnabled s
     (fun _ s' => context_discipline true s') /\
   on_return EnsureScissorTestDisabled s
     (fun _ s' => context_discipline true s')).
Proof.
  split.
  - intros frame current D N.
    destruct (total_BeginDrawingFrame frame s) as [[[] s'] E].
    exists s'. split; [exact E|].
    exact (context_discipline_BeginDrawingFrame frame current s tt s'
             (conj D N) E).
  - intros H. destruct context_discipline_scissor as (S1 & S2 & S3).
    repeat split; intros.
    + eapply triple_on_return; [apply context_discipline_DoDrawQuad|exact H].
    + eapply triple_on_return; [|exact H].
      unfold FinishDrawingQuadList. quad_routines.
      unfold SetBlendEnabled, SetUseProgram. thread context_primitives.
    + eapply triple_on_return; [apply S1|exact H].
    + eapply triple_on_return; [apply S2|exact H].
    + eapply triple_on_return; [apply S3|exact H].
Qed.


(** ** Picture quads: the texture they are rastered into *)

Lemma total_DrawContentQuad frame quad base resource :
  total (DrawContentQuad frame quad base resource).
Proof.
  unfold DrawContentQuad, lock_texture_id. cbv zeta.
  structure total_primitives.
Qed.

Lemma DrawContentQuad_keeps_resources frame quad base resource
    (I : GLRenderer -> Prop) :
  (forall s s',
     resource_provider_ s' = resource_provider_ s ->
     on_demand_tile_raster_bitmap_ s' = on_demand_tile_raster_bitmap_ s ->
     on_demand_tile_raster_resource_id_ s' =
       on_demand_tile_raster_resource_id_ s ->
     I s -> I s') ->
  triple I (DrawContentQuad frame quad base resource) I.
Proof.
  intros HI.
  assert (K : forall s0,
    triple (fun s => resource_provider_ s = resource_provider_ s0 /\
              on_demand_tile_raster_bitmap_ s =
                on_demand_tile_raster_bitmap_ s0 /\
              on_demand_tile_raster_resource_id_ s =
                on_demand_tile_raster_resource_id_ s0)
      (DrawContentQuad frame quad base resource)
      (fun s => resource_provider_ s = resource_provider_ s0 /\
              on_demand_tile_raster_bitmap_ s =
                on_demand_tile_raster_bitmap_ s0 /\
              on_demand_tile_raster_resource_id_ s =
                on_demand_tile_raster_resource_id_ s0)).
  { intros s0. quad_routines. unfold SetBlendEnabled, SetUseProgram.
    thread field_primitives. }
  intros s a s' Hs E.
  destruct (K s s a s' (conj eq_refl (conj eq_refl eq_refl)) E) as (A & B & C).
  exact (HI s s' A B C Hs).
Qed.

Lemma starts_with_GLC (p : list Call) (c : Call) :
  triple (starts_with p) (GLC c) (starts_with p).
Proof.
  intros s a s' [l E] R. rewrite GLC_run in R. injection R as _ <-.
  exists (l ++ [c]). unfold calls in *. cbn. rewrite map_app, E, <- app_assoc.
  reflexivity.
Qed.

Ltac starts_with_primitives := idtac;
  lazymatch goal with
  | |- triple _ (GLC _) _ => apply starts_with_GLC
  | |- triple _ (modify _) _ =>
      let H := fresh in apply triple_modify; intros ? H; exact H
  end.

Lemma starts_with_DrawContentQuad frame quad base resource (p : list Call) :
  triple (starts_with p) (DrawContentQuad frame quad base resource)
    (starts_with p).
Proof.
  quad_routines. unfold SetBlendEnabled, SetUseProgram.
  thread starts_with_primitives.
Qed.


(** X20.  Picture quads are rastered into a texture that the renderer
    keeps.  [DrawPictureQuad] always returns; afterwards the bitmap has the
    texture size of the quad.  If it had that size before, no texture is
    created or deleted: the resource provider and the resource id are what
    they were, so picture quads of one size share the texture.  If not, the
    old texture is deleted (if there is one) and a new one is created with
    the size of the quad.  In both cases the quad is rastered and its pixels
    are set on that texture before anything else is asked of the context. *)
Theorem picture_quads_share_the_raster_texture
    (frame : DrawingFrame) (quad : DrawQuad) (picture : PictureDrawQuad)
    (s : GLRenderer) :
  exists s',
    DrawPictureQuad frame quad picture s = Some (tt, s') /\
    on_demand_tile_raster_bitmap_ s' = texture_size (picture_base picture) /\
    (on_demand_tile_raster_bitmap_ s = texture_size (picture_base picture) ->
     resource_provider_ s' = resource_provider_ s /\
     on_demand_tile_raster_resource_id_ s' =
       on_demand_tile_raster_resource_id_ s) /\
    (on_demand_tile_raster_bitmap_ s <> texture_size (picture_base picture) ->
     (on_demand_tile_raster_resource_id_ s', resource_provider_ s') =
     CreateGLTexture
       (if on_demand_tile_raster_resource_id_ s =? 0
        then resource_provider_ s
        else DeleteResource (resource_provider_ s)
               (on_demand_tile_raster_resource_id_ s))
       (texture_size (picture_base picture)) GL_RGBA
       GL_TEXTURE_POOL_UNMANAGED_CHROMIUM TextureUsageAny) /\
    starts_with
      (calls s ++
       [Raster (picture_pile picture) (content_rect picture)
          (contents_scale picture);
        SetPixels (on_demand_tile_raster_resource_id_ s')
          (texture_size (picture_base picture))]) s'.
Proof.
  (* the renderer once the texture is there *)
  set (size := texture_size (picture_base picture)).
  remember (DrawContentQuad frame quad (picture_base picture)) as D eqn:ED.
  assert (Hdiffers :
    on_demand_tile_raster_bitmap_ s <> size ->
    exists s1,
      ((modify (set_on_demand_tile_raster_bitmap_ size);;
        old ← get on_demand_tile_raster_resource_id_;
        when (negb (old =? 0))
          (modify (fun s =>
             set_resource_provider_
               (DeleteResource (resource_provider_ s) old) s));;
        rp ← get resource_provider_;
        let '(new_id, rp') :=
          CreateGLTexture rp size GL_RGBA GL_TEXTURE_POOL_UNMANAGED_CHROMIUM
            TextureUsageAny in
        modify (set_resource_provider_ rp');;
        modify (set_on_demand_tile_raster_resource_id_ new_id));;
       GLC (Raster (picture_pile picture) (content_rect picture)
              (contents_scale picture));;
       resource ← get on_demand_tile_raster_resource_id_;
       GLC (SetPixels resource size);;
       D resource) s =
      (GLC (Raster (picture_pile picture) (content_rect picture)
              (contents_scale picture));;
       GLC (SetPixels (on_demand_tile_raster_resource_id_ s1) size);;
       D (on_demand_tile_raster_resource_id_ s1)) s1 /\
      context_ s1 = context_ s /\
      on_demand_tile_raster_bitmap_ s1 = size /\
      (on_demand_tile_raster_bitmap_ s = size ->
       resource_provider_ s1 = resource_provider_ s /\
       on_demand_tile_raster_resource_id_ s1 =
         on_demand_tile_raster_resource_id_ s) /\
      (on_demand_tile_raster_bitmap_ s <> size ->
       (on_demand_tile_raster_resource_id_ s1, resource_provider_ s1) =
       CreateGLTexture
         (if on_demand_tile_raster_resource_id_ s =? 0
          then resource_provider_ s
          else DeleteResource (resource_provider_ s)
                 (on_demand_tile_raster_resource_id_ s))
         size GL_RGBA GL_TEXTURE_POOL_UNMANAGED_CHROMIUM TextureUsageAny)).
  { intros N.
    destruct (CreateGLTexture
                (if on_demand_tile_raster_resource_id_ s =? 0
                 then resource_provider_ s
                 else DeleteResource (resource_provider_ s)
                        (on_demand_tile_raster_resource_id_ s))
                size GL_RGBA GL_TEXTURE_POOL_UNMANAGED_CHROMIUM
                TextureUsageAny) as [new_id rp'] eqn:EC.
    exists (set_on_demand_tile_raster_resource_id_ new_id
              (set_resource_provider_ rp'
                 (set_on_demand_tile_raster_bitmap_ size s))).
    split; [|split; [reflexivity|split; [reflexivity|split]]].
    - unfold mbind, M_bind, modify, get, when, GLC. cbn.
      destruct (on_demand_tile_raster_resource_id_ s =? 0) eqn:E0;
        cbn in EC |- *; rewrite EC; reflexivity.
    - intros E. contradiction.
    - intros _. reflexivity. }
  assert (Hprep : exists s1,
    DrawPictureQuad frame quad picture s =
      (GLC (Raster (picture_pile picture) (content_rect picture)
              (contents_scale picture));;
       GLC (SetPixels (on_demand_tile_raster_resource_id_ s1) size);;
       D (on_demand_tile_raster_resource_id_ s1)) s1 /\
    context_ s1 = context_ s /\
    on_demand_tile_raster_bitmap_ s1 = size /\
    (on_demand_tile_raster_bitmap_ s = size ->
     resource_provider_ s1 = resource_provider_ s /\
     on_demand_tile_raster_resource_id_ s1 =
       on_demand_tile_raster_resource_id_ s) /\
    (on_demand_tile_raster_bitmap_ s <> size ->
     (on_demand_tile_raster_resource_id_ s1, resource_provider_ s1) =
     CreateGLTexture
       (if on_demand_tile_raster_resource_id_ s =? 0
        then resource_provider_ s
        else DeleteResource (resource_provider_ s)
               (on_demand_tile_raster_resource_id_ s))
       size GL_RGBA GL_TEXTURE_POOL_UNMANAGED_CHROMIUM TextureUsageAny)).
  { unfold DrawPictureQuad. fold size. rewrite <- ED.
    rewrite bind_run. unfold get at 1.
    destruct (Z.eqb_spec (sz_width (on_demand_tile_raster_bitmap_ s))
                (sz_width size)) as [Ew|Nw];
      [destruct (Z.eqb_spec (sz_height (on_demand_tile_raster_bitmap_ s))
                   (sz_height size)) as [Eh|Nh]|]; cbn [negb orb when].
    - (* the bitmap has the size of the quad *)
      exists s. split; [|split; [reflexivity|]].
      + reflexivity.
      + assert (on_demand_tile_raster_bitmap_ s = size)
          by (destruct (on_demand_tile_raster_bitmap_ s), size; cbn in *;
              congruence).
        repeat split; auto. intros N. contradiction.
    - now apply Hdiffers; intros E; rewrite E in Nh.
    - now apply Hdiffers; intros E; rewrite E in Nw. }
  destruct Hprep as (s1 & E & C1 & B1 & Same & Differs).
  subst D. rewrite E, bind_run, GLC_run, bind_run, GLC_run.
  set (s3 := set_context_ _ (set_context_ _ s1)).
  destruct (total_DrawContentQuad frame quad (picture_base picture)
              (on_demand_tile_raster_resource_id_ s1) s3) as [[[] s'] E'].
  rewrite E'. exists s'. split; [reflexivity|].
  destruct (DrawContentQuad_keeps_resources frame quad (picture_base picture)
              (on_demand_tile_raster_resource_id_ s1)
              (fun x => resource_provider_ x = resource_provider_ s1 /\
                        on_demand_tile_raster_bitmap_ x =
                          on_demand_tile_raster_bitmap_ s1 /\
                        on_demand_tile_raster_resource_id_ x =
                          on_demand_tile_raster_resource_id_ s1))
    with (s := s3) (a := tt) (s' := s') as (R1 & R2 & R3).
  { intros x x' A B C (A' & B' & C'). repeat split; congruence. }
  { repeat split. }
  { exact E'. }
  rewrite R1, R2, R3. split; [exact B1|]. split; [exact Same|].
  split; [exact Differs|].
  apply (starts_with_DrawContentQuad frame quad (picture_base picture)
           (on_demand_tile_raster_resource_id_ s1) _ s3 tt s'); [|exact E'].
  exists []. unfold calls, s3. cbn. rewrite C1, !map_app, app_nil_r, <- app_assoc.
  reflexivity.
Qed.


(** ** The life cycle *)

Section LifecycleProperties.

Variable ReleaseCachedData : ResourceProvider -> ResourceProvider.
Variable GetReadLockFence : ResourceProvider -> option Fence.
Variable SetReadLockFence : ResourceProvider -> option Fence -> ResourceProvider.

(** Freeing textures changes the resource provider and nothing else. *)
Lemma free_all_run (l : list ScopedResource) (s : GLRenderer) :
  exists rp, free_all l s = Some (tt, set_resource_provider_ rp s).
Proof.
  revert s. induction l as [|t l IH]; intros s.
  - exists (resource_provider_ s). destruct s; reflexivity.
  - cbn [free_all]. unfold Free, when.
    destruct (negb (res_id t =? 0)).
    + destruct (IH (set_resource_provider_
                      (DeleteResource (resource_provider_ s) (res_id t)) s))
        as [rp E].
      exists rp. unfold mbind, M_bind, modify. rewrite E. reflexivity.
    + destruct (IH s) as [rp E]. exists rp.
      unfold mbind, M_bind, mret, M_ret. exact E.
Qed.

Lemma ReleaseRenderPassTextures_run (s : GLRenderer) :
  exists rp,
    ReleaseRenderPassTextures s =
    Some (tt, set_resource_provider_ rp (set_render_pass_textures_ ∅ s)).
Proof.
  unfold ReleaseRenderPassTextures, mbind, M_bind, get, modify.
  apply free_all_run.
Qed.

(** What [EnforceMemoryPolicy] drops when the renderer is not visible. *)
Lemma EnforceMemoryPolicy_hidden (h : Host) :
  visible_ h = false ->
  exists h',
    EnforceMemoryPolicy ReleaseCachedData h = Some h' /\
    visible_ h' = false /\
    discard_backbuffer_when_not_visible_ h' =
      discard_backbuffer_when_not_visible_ h /\
    using_set_visibility h' = using_set_visibility h /\
    render_pass_textures_ (gl h') = ∅ /\
    is_backbuffer_discarded_ (gl h') =
      is_backbuffer_discarded_ (gl h) ||
      discard_backbuffer_when_not_visible_ h /\
    calls (gl h') = calls (gl h) ++ [flush] /\
    requests h' =
      requests h ++
      (if negb (is_backbuffer_discarded_ (gl h)) &&
          discard_backbuffer_when_not_visible_ h
       then [OutputSurface_DiscardBackbuffer; SetFullRootLayerDamage]
       else []).
Proof.
  intros V. unfold EnforceMemoryPolicy. rewrite V. cbn [negb].
  destruct (ReleaseRenderPassTextures_run (gl h)) as [rp E].
  unfold in_gl at 3. rewrite E. cbn [mbind option_bind].
  destruct h as [g v d r l f q ps sv ap]. cbn in V |- *. subst v.
  destruct d; cbn.
  - unfold DiscardBackbuffer. cbn.
    destruct (is_backbuffer_discarded_ g) eqn:D; cbn.
    + eexists. split; [reflexivity|]. cbn. unfold calls, requests. cbn.
      rewrite map_app, app_nil_r. repeat split; auto.
    + eexists. split; [reflexivity|]. cbn. unfold calls, requests. cbn.
      rewrite !map_app, <- app_assoc. repeat split; auto.
  - eexists. split; [reflexivity|]. cbn. unfold calls, requests. cbn.
    rewrite map_app, orb_false_r, andb_false_r, app_nil_r. repeat split; auto.
Qed.

Lemma EnforceMemoryPolicy_visible (h : Host) :
  visible_ h = true -> EnforceMemoryPolicy ReleaseCachedData h = Some h.
Proof. intros V. unfold EnforceMemoryPolicy. rewrite V. reflexivity. Qed.

Lemma SetVisible_true (h : Host) :
  exists h',
    SetVisible ReleaseCachedData true h = Some h' /\
    visible_ h' = true /\ gl h' = gl h.
Proof.
  unfold SetVisible. destruct (visible_ h) eqn:V; cbn [eqb].
  - exists h. auto.
  - rewrite EnforceMemoryPolicy_visible by reflexivity. cbn.
    destruct (using_set_visibility h); eexists; (split; [reflexivity|]);
      split; reflexivity.
Qed.

Lemma onMemoryAllocationChanged_visible
    (allocation : WebGraphicsMemoryAllocation) (h : Host) :
  visible_ h = true ->
  exists h',
    onMemoryAllocationChanged ReleaseCachedData allocation h = Some h' /\
    visible_ h' = true /\ gl h' = gl h.
Proof.
  intros V. unfold onMemoryAllocationChanged.
  destruct (negb (bytesLimitWhenVisible allocation =? 0));
    [destruct (enforceButDoNotKeepAsPolicy allocation) eqn:E|];
    cbn [mbind option_bind ask];
    rewrite EnforceMemoryPolicy_visible by exact V; cbn [option_bind];
    try rewrite E;
    try destruct (enforceButDoNotKeepAsPolicy allocation);
    eexists; (split; [reflexivity|]); split; first [exact V|reflexivity].
Qed.

Lemma SwapBuffers_run (latency_info : LatencyInfo) (h : Host) :
  exists h',
    SwapBuffers GetReadLockFence SetReadLockFence latency_info h = Some h' /\
    visible_ h' = visible_ h /\
    gl h' =
      set_resource_provider_
        (SetReadLockFence (resource_provider_ (gl h))
           (Some (length (fences_ h)))) (gl h) /\
    last_swap_fence_ h' = GetReadLockFence (resource_provider_ (gl h)) /\
    fences_ h' =
      match last_swap_fence_ h with
      | Some fence => <[fence := true]> (fences_ h)
      | None => fences_ h
      end ++ [false] /\
    swap_buffer_rect_ h' = mkRect 0 0 0 0.
Proof.
  unfold SwapBuffers.
  destruct (using_partial_swap h && AllowPartialSwap h);
    cbn [mbind option_bind ask];
    destruct (last_swap_fence_ h) eqn:L; cbn; rewrite L; cbn;
    eexists; (split; [reflexivity|]); cbn; rewrite ?length_insert;
    repeat split; reflexivity.
Qed.

Lemma kept_refl (h : Host) : visible_ h = true -> kept h h.
Proof. intros V. repeat split; auto. Qed.

Lemma kept_trans (h1 h2 h3 : Host) : kept h1 h2 -> kept h2 h3 -> kept h1 h3.
Proof.
  intros (_ & A & B & C) (V & A' & B' & C').
  repeat split; auto; congruence.
Qed.

Lemma operate_kept (o : Operation) (h : Host) :
  visible_ h = true -> hides o = false ->
  exists h',
    operate ReleaseCachedData GetReadLockFence SetReadLockFence o h = Some h' /\
    kept h h'.
Proof.
  intros V N. destruct o as [[|]|allocation|latency_info|]; cbn [operate].
  - destruct (SetVisible_true h) as (h' & E & V' & Eg).
    exists h'. split; [exact E|]. unfold kept. rewrite Eg. auto.
  - discriminate N.
  - destruct (onMemoryAllocationChanged_visible allocation h V)
      as (h' & E & V' & Eg).
    exists h'. split; [exact E|]. unfold kept. rewrite Eg. auto.
  - destruct (SwapBuffers_run latency_info h) as (h' & E & V' & Eg & _).
    exists h'. split; [exact E|]. unfold kept. rewrite Eg, V'.
    destruct (gl h). auto.
  - eexists. split; [reflexivity|]. unfold kept. cbn. destruct (gl h). auto.
Qed.

(** X17.  A visible renderer keeps what it has.  Whatever sequence of
    [SetVisible true], [onMemoryAllocationChanged], [SwapBuffers] and
    [ViewportChanged] a visible renderer goes through, every one of them
    returns, the renderer stays visible, the back buffer is discarded after
    them exactly if it was before, the render pass textures are the same and
    no call has been issued on the context. *)
Theorem visible_renderer_keeps_what_it_has (l : list Operation) (h : Host) :
  visible_ h = true ->
  forallb (fun o => negb (hides o)) l = true ->
  exists h',
    operate_all ReleaseCachedData GetReadLockFence SetReadLockFence l h =
      Some h' /\
    visible_ h' = true /\
    is_backbuffer_discarded_ (gl h') = is_backbuffer_discarded_ (gl h) /\
    render_pass_textures_ (gl h') = render_pass_textures_ (gl h) /\
    calls (gl h') = calls (gl h).
Proof.
  revert h. induction l as [|o l IH]; intros h V N.
  - exists h. split; [reflexivity|]. apply kept_refl, V.
  - cbn [forallb] in N. apply andb_true_iff in N as [No Nl].
    apply negb_true_iff in No.
    destruct (operate_kept o h V No) as (h1 & E1 & K1).
    destruct (IH h1 (proj1 K1) Nl) as (h' & E' & K').
    exists h'. split.
    + cbn [operate_all]. rewrite E1. exact E'.
    + eapply kept_trans; eassumption.
Qed.

(** *** Fences *)

Lemma swaps_keep_passed (fence : Fence) (l : list LatencyInfo) (h : Host) :
  HasPassed fence h = Some true ->
  exists h',
    swaps GetReadLockFence SetReadLockFence l h = Some h' /\
    HasPassed fence h' = Some true.
Proof.
  unfold HasPassed. revert h. induction l as [|i l IH]; intros h F.
  - exists h. auto.
  - destruct (SwapBuffers_run i h) as (h1 & E & _ & _ & _ & Ef & _).
    cbn [swaps]. rewrite E. cbn [mbind option_bind]. apply IH.
    rewrite Ef. pose proof (lookup_lt_Some _ _ _ F) as Lt.
    destruct (last_swap_fence_ h) as [fence'|].
    + rewrite lookup_app_l by (rewrite length_insert; exact Lt).
      destruct (Nat.eq_dec fence' fence) as [->|Ne].
      * apply list_lookup_insert_eq, Lt.
      * rewrite list_lookup_insert_ne by exact Ne. exact F.
    + rewrite lookup_app_l by exact Lt. exact F.
Qed.

(** X16.  A read lock fence passes at the second swap after the one that
    installed it.  Let the resource provider return the read lock fence it
    was last given, and let the fences that the renderer and the provider
    hold be allocated.  Then [SwapBuffers] hands the provider a new fence,
    and after any further swaps this fence has passed exactly when there
    were at least two of them. *)
Theorem read_fence_passes_at_the_second_swap_after_it
    (i : LatencyInfo) (h : Host) :
  (forall rp fence, GetReadLockFence (SetReadLockFence rp fence) = fence) ->
  fences_allocated GetReadLockFence h ->
  exists h1 fence,
    SwapBuffers GetReadLockFence SetReadLockFence i h = Some h1 /\
    GetReadLockFence (resource_provider_ (gl h1)) = Some fence /\
    forall l,
      exists h',
        swaps GetReadLockFence SetReadLockFence l h1 = Some h' /\
        HasPassed fence h' = Some (2 <=? length l)%nat.
Proof.
  intros Law Ok.
  destruct (SwapBuffers_run i h) as (h1 & E1 & _ & G1 & L1 & F1 & _).
  exists h1, (length (fences_ h)). split; [exact E1|].
  assert (R1 : GetReadLockFence (resource_provider_ (gl h1)) =
               Some (length (fences_ h))).
  { rewrite G1. destruct (gl h). cbn. apply Law. }
  split; [exact R1|].
  assert (Len1 : forall F : list bool,
            length F = length (fences_ h) ->
            (F ++ [false]) !! length (fences_ h) = Some false).
  { intros F EF. rewrite lookup_app_r by lia. rewrite EF, Nat.sub_diag.
    reflexivity. }
  assert (P1 : fences_ h1 !! length (fences_ h) = Some false).
  { rewrite F1. apply Len1. destruct (last_swap_fence_ h);
      [apply length_insert|reflexivity]. }
  assert (LenF1 : length (fences_ h1) = S (length (fences_ h))).
  { rewrite F1, length_app. cbn.
    destruct (last_swap_fence_ h); rewrite ?length_insert; lia. }
  intros [|i2 l].
  { exists h1. split; [reflexivity|exact P1]. }
  destruct (SwapBuffers_run i2 h1) as (h2 & E2 & _ & G2 & L2 & F2 & _).
  cbn [swaps]. rewrite E2. cbn [mbind option_bind].
  assert (P2 : fences_ h2 !! length (fences_ h) = Some false).
  { rewrite F2. rewrite lookup_app_l
      by (destruct (last_swap_fence_ h1); rewrite ?length_insert; lia).
    destruct (last_swap_fence_ h1) as [fence'|] eqn:EL; [|exact P1].
    rewrite list_lookup_insert_ne; [exact P1|].
    assert (fence' < length (fences_ h))%nat; [|lia].
    apply Ok. right. symmetry. exact L1. }
  assert (LenF2 : length (fences_ h2) = S (S (length (fences_ h)))).
  { rewrite F2, length_app. cbn.
    destruct (last_swap_fence_ h1); rewrite ?length_insert; lia. }
  destruct l as [|i3 l].
  { exists h2. split; [reflexivity|exact P2]. }
  destruct (SwapBuffers_run i3 h2) as (h3 & E3 & _ & G3 & L3 & F3 & _).
  cbn [swaps]. rewrite E3. cbn [mbind option_bind].
  replace (2 <=? length (i2 :: i3 :: l))%nat with true by reflexivity.
  apply swaps_keep_passed. unfold HasPassed.
  rewrite F3, L2, R1.
  rewrite lookup_app_l by (rewrite length_insert; lia).
  apply list_lookup_insert_eq. lia.
Qed.

(** *** Hiding and memory allocations *)

Lemma SetVisible_false (h : Host) :
  visible_ h = true ->
  exists h',
    SetVisible ReleaseCachedData false h = Some h' /\
    visible_ h' = false /\
    render_pass_textures_ (gl h') = ∅ /\
    is_backbuffer_discarded_ (gl h') =
      is_backbuffer_discarded_ (gl h) ||
      discard_backbuffer_when_not_visible_ h /\
    calls (gl h') = calls (gl h) ++ [flush] /\
    requests h' =
      requests h ++
      (if negb (is_backbuffer_discarded_ (gl h)) &&
          discard_backbuffer_when_not_visible_ h
       then [OutputSurface_DiscardBackbuffer; SetFullRootLayerDamage]
       else []) ++
      (if using_set_visibility h then [setVisibilityCHROMIUM false] else []).
Proof.
  intros V. unfold SetVisible. rewrite V. cbn [eqb].
  destruct (EnforceMemoryPolicy_hidden (set_visible_ false h) eq_refl)
    as (h1 & E & V1 & D1 & U1 & T1 & B1 & C1 & R1).
  rewrite E. cbn [mbind option_bind]. rewrite U1.
  change (using_set_visibility (set_visible_ false h))
    with (using_set_visibility h).
  change (gl (set_visible_ false h)) with (gl h) in *.
  change (discard_backbuffer_when_not_visible_ (set_visible_ false h))
    with (discard_backbuffer_when_not_visible_ h) in *.
  change (requests (set_visible_ false h)) with (requests h) in *.
  destruct (using_set_visibility h).
  - eexists. split; [reflexivity|]. unfold ask, requests in *. cbn.
    rewrite map_app, R1, <- app_assoc. repeat split; auto.
  - exists h1. rewrite app_nil_r. repeat split; auto.
Qed.

(** X19.  [onMemoryAllocationChanged] always returns and keeps the
    visibility.  The suggestion of the allocation decides what is enforced
    now: the back buffer ends up discarded if it was, or if the renderer is
    not visible and the allocation does not suggest a back buffer.  It
    becomes the renderer's policy only if the allocation is to be kept: with
    [enforceButDoNotKeepAsPolicy], [discard_backbuffer_when_not_visible_]
    is afterwards what it was before.  The client gets no policy when the
    limit when visible is zero, and else one policy, to enforce or to set. *)
Theorem enforced_allocation_does_not_change_the_policy
    (allocation : WebGraphicsMemoryAllocation) (h : Host) :
  exists h',
    onMemoryAllocationChanged ReleaseCachedData allocation h = Some h' /\
    visible_ h' = visible_ h /\
    discard_backbuffer_when_not_visible_ h' =
      (if enforceButDoNotKeepAsPolicy allocation
       then discard_backbuffer_when_not_visible_ h
       else negb (suggestHaveBackbuffer allocation)) /\
    is_backbuffer_discarded_ (gl h') =
      is_backbuffer_discarded_ (gl h) ||
      negb (visible_ h) && negb (suggestHaveBackbuffer allocation) /\
    requests h' =
      requests h ++ policy_requests allocation ++
      (if negb (visible_ h) && negb (is_backbuffer_discarded_ (gl h)) &&
          negb (suggestHaveBackbuffer allocation)
       then [OutputSurface_DiscardBackbuffer; SetFullRootLayerDamage]
       else []).
Proof.
  unfold onMemoryAllocationChanged.
  set (h0 := if negb (bytesLimitWhenVisible allocation =? 0) then _ else _).
  assert (H0 : exists h1, h0 = Some h1 /\ visible_ h1 = visible_ h /\
            gl h1 = gl h /\
            discard_backbuffer_when_not_visible_ h1 =
              discard_backbuffer_when_not_visible_ h /\
            requests h1 = requests h ++ policy_requests allocation).
  { unfold h0, policy_requests, ask, requests.
    destruct (bytesLimitWhenVisible allocation =? 0); cbn [negb].
    - exists h. rewrite app_nil_r. auto.
    - destruct (enforceButDoNotKeepAsPolicy allocation);
        eexists; (split; [reflexivity|]); cbn; rewrite map_app; auto. }
  destruct H0 as (h1 & -> & V1 & G1 & D1 & R1). cbn [mbind option_bind].
  destruct (visible_ h) eqn:V.
  - rewrite EnforceMemoryPolicy_visible by exact V1. cbn [option_bind negb andb].
    rewrite orb_false_r, app_nil_r.
    destruct (enforceButDoNotKeepAsPolicy allocation);
      eexists; (split; [reflexivity|]); cbn; rewrite ?G1, ?D1; auto.
  - destruct (EnforceMemoryPolicy_hidden
                (set_discard_backbuffer_when_not_visible_
                   (negb (suggestHaveBackbuffer allocation)) h1) V1)
      as (h2 & E & V2 & D2 & U2 & T2 & B2 & C2 & R2).
    rewrite E. cbn [option_bind negb andb].
    change (gl (set_discard_backbuffer_when_not_visible_
                  (negb (suggestHaveBackbuffer allocation)) h1))
      with (gl h1) in *.
    change (requests (set_discard_backbuffer_when_not_visible_
                  (negb (suggestHaveBackbuffer allocation)) h1))
      with (requests h1) in *.
    change (discard_backbuffer_when_not_visible_
              (set_discard_backbuffer_when_not_visible_
                 (negb (suggestHaveBackbuffer allocation)) h1))
      with (negb (suggestHaveBackbuffer allocation)) in *.
    rewrite G1 in B2, R2. rewrite R1, <- app_assoc in R2.
    destruct (enforceButDoNotKeepAsPolicy allocation);
      eexists; (split; [reflexivity|]); cbn; rewrite ?D1; auto.
Qed.



(** X18.  Hiding a visible renderer releases every render pass texture,
    discards the back buffer if [discard_backbuffer_when_not_visible_] is
    set (asking the output surface and then for full damage, once, if it was
    not discarded yet), flushes the context as its only call and, with the
    visibility extension, tells the context last.  Showing the renderer
    again changes nothing of this: the back buffer stays discarded until the
    next [BeginDrawingFrame], which returns with the back buffer present. *)
Theorem hiding_drops_and_the_next_frame_restores
    (frame : DrawingFrame) (h : Host) :
  visible_ h = true ->
  exists h1 h2 s,
    SetVisible ReleaseCachedData false h = Some h1 /\
    visible_ h1 = false /\
    render_pass_textures_ (gl h1) = ∅ /\
    is_backbuffer_discarded_ (gl h1) =
      is_backbuffer_discarded_ (gl h) ||
      discard_backbuffer_when_not_visible_ h /\
    calls (gl h1) = calls (gl h) ++ [flush] /\
    requests h1 =
      requests h ++
      (if negb (is_backbuffer_discarded_ (gl h)) &&
          discard_backbuffer_when_not_visible_ h
       then [OutputSurface_DiscardBackbuffer; SetFullRootLayerDamage]
       else []) ++
      (if using_set_visibility h then [setVisibilityCHROMIUM false] else []) /\
    SetVisible ReleaseCachedData true h1 = Some h2 /\
    visible_ h2 = true /\
    gl h2 = gl h1 /\
    BeginDrawingFrame frame (gl h2) = Some (tt, s) /\
    is_backbuffer_discarded_ s = false.
Proof.
  intros V.
  destruct (SetVisible_false h V)
    as (h1 & E1 & V1 & T1 & B1 & C1 & R1).
  destruct (SetVisible_true h1) as (h2 & E2 & V2 & G2).
  destruct (total_BeginDrawingFrame frame (gl h2)) as [[[] s] E3].
  exists h1, h2, s. repeat split; auto.
  exact (BeginDrawingFrame_backbuffer frame (gl h2) tt s Logic.I E3).
Qed.

End LifecycleProperties.

End Properties.

(** * The reference realisation at work *)

Import Exact Examples.

Lemma is_uint32_by_computation (z : Z) :
  (0 <=? z) && (z <? 2 ^ 32) = true -> is_uint32 z.
Proof. unfold is_uint32. intros H. apply andb_true_iff in H. lia. Qed.

(** The scenarios of the specification. *)

Example two_adjacent_textured_quads_make_one_draw_call :
  let run := DoDrawQuad frame (fst (textured 5 left_half));;
             DoDrawQuad frame (fst (textured 5 right_half));;
             FinishDrawingQuadList in
  succeeds run renderer = true /\
  draw_calls (after run renderer) =
  [drawElements GL_TRIANGLES 12 GL_UNSIGNED_SHORT 0].
Proof. split; reflexivity. Qed.

Example opaque_solid_quad_is_one_draw_call_without_blending :
  let run := DoDrawQuad frame (solid identity) in
  succeeds run renderer = true /\
  draw_calls (after run renderer) =
  [drawElements GL_TRIANGLES 6 GL_UNSIGNED_SHORT 0] /\
  blend_shadow_ (after run renderer) = false /\
  List.filter enables_blending (calls (after run renderer)) = [].
Proof. repeat split; reflexivity. Qed.

(** ** Exact arithmetic on pixel-aligned quads *)

Section ExactArithmetic.
Local Open Scope Q_scope.

Lemma within_epsilon_refl (a : Q) : within_epsilon a a = true.
Proof.
  unfold within_epsilon, Qltb. apply negb_true_iff.
  destruct (Qle_bool float_epsilon (Qabs (a - a))) eqn:E; [|reflexivity].
  apply Qle_bool_iff in E.
  assert (H : Qabs (a - a) == 0).
  { assert (Z0 : a - a == 0) by ring. rewrite Z0. reflexivity. }
  rewrite H in E. exfalso.
  apply (Qlt_not_le 0 float_epsilon); [reflexivity|exact E].
Qed.

Lemma integral_inject (z : Z) : integral (inject_Z z).
Proof. exists z. reflexivity. Qed.

Lemma integral_plus (a b : Q) : integral a -> integral b -> integral (a + b).
Proof.
  intros [x Hx] [y Hy]. exists (x + y)%Z.
  rewrite Hx, Hy, inject_Z_plus. reflexivity.
Qed.

Lemma integral_opp (a : Q) : integral a -> integral (- a).
Proof. intros [x Hx]. exists (- x)%Z. rewrite Hx, inject_Z_opp. reflexivity. Qed.

Lemma integral_min (a b : Q) : integral a -> integral b -> integral (Qmin a b).
Proof.
  intros [x Hx] [y Hy]. destruct (Q.min_dec a b) as [E|E].
  - exists x. now rewrite E.
  - exists y. now rewrite E.
Qed.

Lemma integral_max (a b : Q) : integral a -> integral b -> integral (Qmax a b).
Proof.
  intros [x Hx] [y Hy]. destruct (Q.max_dec a b) as [E|E].
  - exists x. now rewrite E.
  - exists y. now rewrite E.
Qed.

Lemma nearest_of_integer (z : Z) : nearest (inject_Z z) = z.
Proof.
  unfold nearest.
  assert (L := Qfloor_le (inject_Z z + (1 # 2))).
  assert (U := Qlt_floor (inject_Z z + (1 # 2))).
  assert (L' : (Qfloor (inject_Z z + (1 # 2)) <= z)%Z).
  { apply Z.lt_succ_r. rewrite Zlt_Qlt.
    eapply Qle_lt_trans; [exact L|]. unfold Z.succ. rewrite inject_Z_plus.
    apply Qplus_lt_r. reflexivity. }
  assert (U' : (z <= Qfloor (inject_Z z + (1 # 2)))%Z).
  { apply Z.lt_succ_r. rewrite Zlt_Qlt. unfold Z.succ.
    eapply Qle_lt_trans; [|exact U]. rewrite <- (Qplus_0_r (inject_Z z)) at 1.
    apply Qplus_le_r. discriminate. }
  lia.
Qed.

(** An integer coordinate is its own nearest integer. *)
Lemma near_integral (v d : Q) : integral v -> 0 < d -> near v d = true.
Proof.
  intros [z Hz] Hd. unfold near, Qltb. apply negb_true_iff.
  assert (F : nearest v = z).
  { unfold nearest. rewrite (Qfloor_comp _ (inject_Z z + (1 # 2))) by now rewrite Hz.
    apply nearest_of_integer. }
  rewrite F.
  destruct (Qle_bool d (Qabs (inject_Z z - v))) eqn:E; [|reflexivity].
  apply Qle_bool_iff in E.
  assert (H : Qabs (inject_Z z - v) == 0).
  { assert (Z0 : inject_Z z - v == 0) by (rewrite Hz; ring).
    rewrite Z0. reflexivity. }
  rewrite H in E. exfalso. apply (Qlt_not_le _ _ Hd E).
Qed.

Lemma map_quad_identity (q : QuadF Q) :
  map_quad identity q =
  (mkQuadF (shift 0 0 (p1 q)) (shift 0 0 (p2 q)) (shift 0 0 (p3 q))
           (shift 0 0 (p4 q)), false).
Proof. reflexivity. Qed.

(** Under the identity transform every quad sits on whole pixels, its
    rects being integer rects: no anti-aliasing, and the two out-parameters
    keep their values. *)
Lemma identity_transform_needs_no_anti_aliasing (quad : DrawQuad)
    (local_quad : QuadF Q) (edge : list Q) :
  SetupQuadForAntialiasing identity quad local_quad edge =
  (false, local_quad, edge).
Proof.
  apply (no_aa_when_pixel_aligned (G := gfx)).
  - unfold device_layer_quad_of. cbn [MapQuad gfx]. rewrite map_quad_identity.
    cbn -[within_epsilon]. unfold is_rectilinear, shift.
    cbn -[within_epsilon Qplus inject_Z].
    rewrite !within_epsilon_refl. apply orb_true_r.
  - unfold device_layer_quad_of. cbn [MapQuad gfx]. rewrite map_quad_identity.
    cbn -[near Qmin Qmax Qplus Qminus Qopp inject_Z].
    unfold is_nearest_rect_within_distance, bounding_box, min4, max4, shift.
    cbn -[near Qmin Qmax Qplus Qminus Qopp inject_Z].
    rewrite !near_integral; [reflexivity| | | | | | | |]; try reflexivity;
      repeat first [ apply integral_plus | apply integral_opp
                   | apply integral_min | apply integral_max
                   | apply integral_inject | (exists 0%Z; reflexivity) ].
Qed.

Lemma Qeq_bool_false (a b : Q) : ~ a == b -> Qeq_bool a b = false.
Proof.
  intros N. destruct (Qeq_bool a b) eqn:E; [|reflexivity].
  apply Qeq_bool_eq in E. contradiction.
Qed.

(** The entries of window * projection, flattened, for a target of [w] by
    [h] pixels. *)
Lemma screen_space_entries (l r b t w h : Q) :
  ~ r - l == 0 -> ~ t - b == 0 -> w == r - l ->
  let m := flatten (mul (mul (window w h) (ortho l r b t)) identity) in
  entry m 0 0 == 1 /\ entry m 0 1 == 0 /\ entry m 0 3 == - l /\
  entry m 1 0 == 0 /\ entry m 1 1 == h / (t - b) /\
  entry m 1 3 == h / 2 - h * (t + b) / (2 * (t - b)) /\
  entry m 3 0 == 0 /\ entry m 3 1 == 0 /\ entry m 3 3 == 1.
Proof.
  intros Nw Nh Ew. unfold ortho.
  rewrite (Qeq_bool_false _ _ Nw), (Qeq_bool_false _ _ Nh). cbn [orb].
  cbn -[Qplus Qmult Qdiv Qopp Qminus Qeq].
  repeat split; rewrite ?Ew; field; repeat split; assumption.
Qed.

Lemma within_epsilon_eq (a b : Q) : a == b -> within_epsilon a b = true.
Proof.
  intros E. unfold within_epsilon, Qltb. apply negb_true_iff.
  destruct (Qle_bool float_epsilon (Qabs (a - b))) eqn:L; [|reflexivity].
  apply Qle_bool_iff in L.
  assert (H : Qabs (a - b) == 0).
  { assert (Z0 : a - b == 0) by (rewrite E; ring). rewrite Z0. reflexivity. }
  rewrite H in L. exfalso.
  apply (Qlt_not_le 0 float_epsilon); [reflexivity|exact L].
Qed.

Lemma integral_eq (a : Q) (z : Z) : a == inject_Z z -> integral a.
Proof. intros E. exists z. exact E. Qed.

Lemma on_pixels_rectilinear (q : QuadF Q) : on_pixels q -> is_rectilinear q = true.
Proof.
  intros (x0 & x1 & y0 & y1 & A1 & A2 & B1 & B2 & C1 & C2 & D1 & D2).
  unfold is_rectilinear. apply orb_true_iff. right.
  rewrite !andb_true_iff. repeat split; apply within_epsilon_eq.
  - now rewrite A2, B2.
  - now rewrite B1, C1.
  - now rewrite C2, D2.
  - now rewrite D1, A1.
Qed.

Lemma on_pixels_near (q : QuadF Q) (d : Q) :
  on_pixels q -> 0 < d ->
  is_nearest_rect_within_distance (bounding_box q) d = true.
Proof.
  intros (x0 & x1 & y0 & y1 & A1 & A2 & B1 & B2 & C1 & C2 & D1 & D2) Hd.
  pose proof (integral_eq _ _ A1). pose proof (integral_eq _ _ A2).
  pose proof (integral_eq _ _ B1). pose proof (integral_eq _ _ B2).
  pose proof (integral_eq _ _ C1). pose proof (integral_eq _ _ C2).
  pose proof (integral_eq _ _ D1). pose proof (integral_eq _ _ D2).
  unfold is_nearest_rect_within_distance, bounding_box, min4, max4.
  cbn [rf_x rf_y rf_width rf_height].
  rewrite !near_integral; [reflexivity| | | | | | | |]; try exact Hd;
    repeat first [ apply integral_plus | apply integral_opp
                 | apply integral_min | apply integral_max | assumption ].
Qed.

Lemma map_point_moves_pixels (m : Matrix) (tx sy ty : Z) (p : PointF Q)
    (x y : Z) :
  moves_pixels m tx sy ty ->
  pf_x p == inject_Z x -> pf_y p == inject_Z y ->
  pf_x (fst (map_point m p)) == inject_Z (x + tx) /\
  pf_y (fst (map_point m p)) == inject_Z (sy * y + ty).
Proof.
  intros (E00 & E01 & E03 & E10 & E11 & E13 & E30 & E31 & E33) Hx Hy.
  unfold map_point. cbn [fst pf_x pf_y].
  rewrite E00, E01, E03, E10, E11, E13, E30, E31, E33, Hx, Hy.
  rewrite !inject_Z_plus, !inject_Z_mult. split; field; discriminate.
Qed.

Lemma map_quad_moves_pixels (m : Matrix) (tx sy ty : Z) (q : QuadF Q) :
  moves_pixels m tx sy ty -> on_pixels q -> on_pixels (fst (map_quad m q)).
Proof.
  intros M (x0 & x1 & y0 & y1 & A1 & A2 & B1 & B2 & C1 & C2 & D1 & D2).
  unfold map_quad. destruct (is_translation m) eqn:T.
  - destruct M as (_ & _ & E03 & _ & _ & E13 & _).
    exists (x0 + tx)%Z, (x1 + tx)%Z, (y0 + ty)%Z, (y1 + ty)%Z.
    cbn [fst p1 p2 p3 p4 shift pf_x pf_y].
    rewrite E03, E13, A1, A2, B1, B2, C1, C2, D1, D2, !inject_Z_plus.
    repeat split; reflexivity.
  - destruct (map_point_moves_pixels m tx sy ty (p1 q) x0 y0 M A1 A2) as [PA1 PA2].
    destruct (map_point_moves_pixels m tx sy ty (p2 q) x1 y0 M B1 B2) as [PB1 PB2].
    destruct (map_point_moves_pixels m tx sy ty (p3 q) x1 y1 M C1 C2) as [PC1 PC2].
    destruct (map_point_moves_pixels m tx sy ty (p4 q) x0 y1 M D1 D2) as [PD1 PD2].
    destruct (map_point m (p1 q)) as [a ca], (map_point m (p2 q)) as [b cb],
      (map_point m (p3 q)) as [c cc], (map_point m (p4 q)) as [d cd].
    cbn [fst] in *.
    exists (x0 + tx)%Z, (x1 + tx)%Z, (sy * y0 + ty)%Z, (sy * y1 + ty)%Z.
    cbn [fst p1 p2 p3 p4]. repeat split; assumption.
Qed.

Lemma rect_on_pixels (r : Rect) : on_pixels (QuadF_of_Rect r).
Proof.
  exists (r_x r), (r_x r + r_width r)%Z, (r_y r), (r_y r + r_height r)%Z.
  cbn. rewrite !inject_Z_plus. repeat split; reflexivity.
Qed.

Lemma inject_Z_minus_nonzero (a b : Z) :
  a <> b -> ~ inject_Z a - inject_Z b == 0.
Proof. intros N E. apply N. unfold Qeq in E. cbn in E. lia. Qed.

(** The matrices of [InitializeMatrices] move whole pixels to whole pixels:
    by the origin of the target, and upside down when flipped. *)
Lemma initialized_frame_moves_pixels (f : DrawingFrame) (r : Rect) (flip : bool) :
  (0 < r_width r)%Z -> (0 < r_height r)%Z ->
  moves_pixels (device_transform_of (InitializeMatrices f r flip) identity)
    (- r_x r) (if flip then -1 else 1)
    (if flip then Rect_bottom r else - r_y r).
Proof.
  intros Hw Hh.
  unfold device_transform_of, InitializeMatrices.
  cbn [projection_matrix window_matrix set_matrices].
  cbn [projection_for window_for platform Transform_mul FlattenTo2d gfx].
  unfold Rect_right, Rect_bottom.
  assert (Nw : ~ inject_Z (r_x r + r_width r) - inject_Z (r_x r) == 0)
    by (apply inject_Z_minus_nonzero; lia).
  assert (Ew : inject_Z (r_width r) ==
               inject_Z (r_x r + r_width r) - inject_Z (r_x r))
    by (rewrite inject_Z_plus; ring).
  destruct flip.
  - assert (Nh : ~ inject_Z (r_y r) - inject_Z (r_y r + r_height r) == 0)
      by (apply inject_Z_minus_nonzero; lia).
    destruct (screen_space_entries _ _ _ _ _ (inject_Z (r_height r)) Nw Nh Ew)
      as (E00 & E01 & E03 & E10 & E11 & E13 & E30 & E31 & E33).
    unfold moves_pixels. rewrite E00, E01, E03, E10, E11, E13, E30, E31, E33.
    rewrite !inject_Z_plus, !inject_Z_opp in *.
    repeat split; try reflexivity; field; exact Nh.
  - assert (Nh : ~ inject_Z (r_y r + r_height r) - inject_Z (r_y r) == 0)
      by (apply inject_Z_minus_nonzero; lia).
    destruct (screen_space_entries _ _ _ _ _ (inject_Z (r_height r)) Nw Nh Ew)
      as (E00 & E01 & E03 & E10 & E11 & E13 & E30 & E31 & E33).
    unfold moves_pixels. rewrite E00, E01, E03, E10, E11, E13, E30, E31, E33.
    rewrite !inject_Z_plus, !inject_Z_opp in *.
    repeat split; try reflexivity; field; exact Nh.
Qed.

(** A quad whose own transform is the identity, in a frame that
    [InitializeMatrices] has set up for a target with pixels, sits on whole
    pixels in device space. *)
Lemma identity_quad_needs_no_anti_aliasing (f : DrawingFrame) (r : Rect)
    (flip : bool) (quad : DrawQuad) (local_quad : QuadF Q) (edge : list Q) :
  (0 < r_width r)%Z -> (0 < r_height r)%Z ->
  quadTransform quad = identity ->
  SetupQuadForAntialiasing
    (device_transform_of (InitializeMatrices f r flip) (quadTransform quad))
    quad local_quad edge =
  (false, local_quad, edge).
Proof.
  intros Hw Hh ->.
  assert (H : on_pixels
                (device_layer_quad_of
                   (device_transform_of (InitializeMatrices f r flip) identity)
                   quad)).
  { unfold device_layer_quad_of. cbn [MapQuad gfx].
    eapply map_quad_moves_pixels;
      [apply initialized_frame_moves_pixels; assumption|apply rect_on_pixels]. }
  apply (no_aa_when_pixel_aligned (G := gfx)).
  - apply on_pixels_rectilinear, H.
  - apply on_pixels_near; [exact H|reflexivity].
Qed.

End ExactArithmetic.



(** ** Batches on concrete renderers *)

(** After the context was lost the texture program has the GL name 0.  One
    textured quad enqueued into the empty cache and flushed: the flush
    returns at its first test, no draw call is issued, and the data of the
    quad stays in the cache. *)
Lemma quads_of_a_missing_program_are_never_drawn :
  cache_empty (draw_cache_ renderer_after_context_loss) /\
  succeeds (enqueue_and_flush [textured 5 left_half])
    renderer_after_context_loss = true /\
  draw_calls (after (enqueue_and_flush [textured 5 left_half])
                renderer_after_context_loss) = [] /\
  quads_in (draw_cache_ (after (enqueue_and_flush [textured 5 left_half])
                           renderer_after_context_loss)) = 1%nat /\
  ~ cache_empty (draw_cache_ (after (enqueue_and_flush [textured 5 left_half])
                                renderer_after_context_loss)).
Proof.
  repeat split.
  intros (_ & _ & _ & H). apply (f_equal (@length _)) in H.
  change (1%nat = 0%nat) in H. discriminate H.
Qed.

Lemma compatible_quads_are_drawn_in_one_call_witness :
  exists s',
    (enqueue_all frame two_halves;; FlushTextureQuadCache) renderer =
      Some (tt, s') /\
    draw_calls s' =
      draw_calls renderer ++ [drawElements GL_TRIANGLES 12 GL_UNSIGNED_SHORT 0] /\
    cache_empty (draw_cache_ s').
Proof.
  refine (proj1 (compatible_quads_are_drawn_in_one_call frame
                   (textured 5 left_half) [textured 5 right_half] renderer
                   _ _ _ _ _)).
  - repeat split.
  - simpl; lia.
  - repeat constructor.
  - split; apply is_uint32_by_computation; reflexivity.
  - intros H; discriminate H.
Defined.

(** The linked programs have names that tell them apart. *)
Lemma linked_programs_are_told_apart :
  names_tell_variants_apart (settings renderer).
Proof.
  intros k k' p p' [->| ->] [->| ->]; destruct p, p'; cbn; intros H;
    try discriminate H; split; reflexivity.
Qed.


(** With linked programs a flipped quad does not join the batch of a plain
    one: the batch is drawn, with one call of six indices, and the flipped
    quad starts a batch of its own. *)
Example flipped_quad_starts_a_new_batch :
  flushes_first (settings renderer_with_batch) (draw_cache_ renderer_with_batch)
    (textured_flipped 5 right_half) = true /\
  draw_calls
    (after (EnqueueTextureQuad frame (fst (textured_flipped 5 right_half))
              (snd (textured_flipped 5 right_half))) renderer_with_batch) =
  [drawElements GL_TRIANGLES 6 GL_UNSIGNED_SHORT 0] /\
  quads_in
    (draw_cache_
       (after (EnqueueTextureQuad frame (fst (textured_flipped 5 right_half))
                 (snd (textured_flipped 5 right_half))) renderer_with_batch)) =
  1%nat.
Proof. repeat split; reflexivity. Qed.


(** C5, at the failing input.  One textured quad was enqueued after the
    context was lost, under a texture program of GL name 0.  The end of the
    quad list, the dispatch of a solid colour quad and a scissor rect all
    call [FlushTextureQuadCache], which takes the program id 0 for an empty
    cache and returns: they find the data of the quad in the cache and leave
    it there, and the draw call of the solid colour quad and the two scissor
    calls are issued with one quad in the cache. *)
Lemma stale_batch_survives_every_boundary :
  (context_ renderer_with_stale_batch = [] /\
   quads_in (draw_cache_ renderer_with_stale_batch) = 1%nat) /\
  (succeeds FinishDrawingQuadList renderer_with_stale_batch = true /\
   quads_in (draw_cache_ (after FinishDrawingQuadList
                            renderer_with_stale_batch)) = 1%nat) /\
  (succeeds (DoDrawQuad frame (solid identity)) renderer_with_stale_batch = true /\
   draw_calls (after (DoDrawQuad frame (solid identity))
                 renderer_with_stale_batch) =
     [drawElements GL_TRIANGLES 6 GL_UNSIGNED_SHORT 0] /\
   forallb (issued_with_quads 1)
     (context_ (after (DoDrawQuad frame (solid identity))
                  renderer_with_stale_batch)) = true) /\
  (succeeds (SetScissorTestRect (mkRect 0 0 10 10))
     renderer_with_stale_batch = true /\
   calls (after (SetScissorTestRect (mkRect 0 0 10 10))
            renderer_with_stale_batch) =
     [enable GL_SCISSOR_TEST; scissor 0 0 10 10] /\
   forallb (issued_with_quads 1)
     (context_ (after (SetScissorTestRect (mkRect 0 0 10 10))
                  renderer_with_stale_batch)) = true).
Proof. repeat split. Qed.

Lemma cache_is_flushed_at_boundaries_witness :
  exists s',
    FinishDrawingQuadList renderer_with_batch = Some (tt, s') /\
    cache_empty (draw_cache_ s').
Proof.
  refine (proj2 (proj2 (proj2 (proj2
            (cache_is_flushed_at_boundaries renderer_with_batch _))))).
  intros H. change (38 = 0) in H. discriminate H.
Defined.

(** ** Quads that are skipped, on concrete renderers *)

Lemma background_filters_skipped_when_transparent_witness :
  DrawBackgroundFilters frame_of_transparent_pass (nested [1; 2])
    (pass_quad [1; 2]) identity identity renderer =
  Some ((frame_of_transparent_pass, None), renderer).
Proof.
  apply (background_filters_skipped_when_transparent frame_of_transparent_pass
           (nested [1; 2]) (pass_quad [1; 2]) identity identity transparent_pass
           renderer); reflexivity.
Defined.

Lemma render_pass_quad_without_texture_is_skipped_witness :
  exists s' l,
    DrawRenderPassQuad frame (nested []) (pass_quad []) renderer =
      Some (frame, s') /\
    calls s' = calls renderer ++ l /\ Forall is_blend_toggle l /\
    draw_calls s' = draw_calls renderer.
Proof.
  apply (render_pass_quad_without_texture_is_skipped frame (nested [])
           (pass_quad []) renderer).
  left. reflexivity.
Defined.

Lemma non_invertible_quad_is_skipped_witness :
  exists s',
    DrawSolidColorQuad frame (solid squash) red renderer = Some (tt, s') /\
    draw_calls s' = draw_calls renderer.
Proof.
  refine (proj1 (proj1 (non_invertible_quad_is_skipped frame (solid squash)
                          renderer) _) red).
  reflexivity.
Defined.

(** ** The blend state on concrete renderers *)

(** A frame has begun, so blending is enabled.  An opaque tile whose
    transform squashes the plane onto a line needs no blending and no
    anti-aliasing, its device transform is not invertible, and the content
    routine returns before it touches the blend state: blending is still
    enabled after the dispatch. *)
Lemma content_quad_that_is_skipped_keeps_the_old_blend_state :
  succeeds (BeginDrawingFrame frame) renderer = true /\
  blend_shadow_ renderer_in_frame = true /\
  ShouldDrawWithBlending (tile squash) || use_aa_of frame (tile squash) = false /\
  DrawContentQuad frame (tile squash) tile_base 5 renderer_in_frame =
    Some (tt, renderer_in_frame) /\
  DoDrawQuad frame (tile squash) renderer_in_frame =
    Some (frame, renderer_in_frame) /\
  blend_shadow_ renderer_in_frame <>
    ShouldDrawWithBlending (tile squash) || use_aa_of frame (tile squash).
Proof.
  repeat split; try reflexivity.
  intros H. change (true = false) in H. discriminate H.
Qed.

Lemma blend_follows_blending_or_aa_witness :
  exists s',
    DrawSolidColorQuad frame (solid identity) red renderer_in_frame =
      Some (tt, s') /\
    blend_shadow_ s' =
      ShouldDrawWithBlending (solid identity) || use_aa_of frame (solid identity).
Proof.
  refine (proj1 (blend_follows_blending_or_aa frame (solid identity)
                   renderer_in_frame _) red).
  reflexivity.
Defined.

(** ** Checkerboards on concrete renderers *)

Lemma checkerboard_ignores_alpha_witness :
  DrawCheckerboardQuad frame (checkerboard red) red renderer =
  DrawCheckerboardQuad frame (checkerboard red) translucent_red renderer.
Proof.
  refine (proj1 (checkerboard_ignores_alpha frame (checkerboard red) red
                   translucent_red renderer _)).
  reflexivity.
Defined.

(** ** The shadows, on concrete renderers *)

Lemma blend_shadow_tracks_the_context_witness :
  on_return (DoDrawQuad frame (solid identity)) renderer_in_frame
    (fun _ s' => blend_in_sync s').
Proof.
  refine (proj1 (proj2 (blend_shadow_tracks_the_context renderer_in_frame _))
            frame (solid identity)).
  reflexivity.
Defined.

Lemma program_shadow_tracks_the_context_witness :
  on_return (DoDrawQuad frame (solid identity)) renderer_in_frame
    (fun _ s' => program_in_sync s').
Proof.
  refine (proj1 (proj2 (program_shadow_tracks_the_context renderer_in_frame _))
            frame (solid identity)).
  left. reflexivity.
Defined.

Lemma scissor_shadow_tracks_the_context_witness :
  exists s',
    SetScissorTestRect (mkRect 0 0 10 10) renderer_with_scissor = Some (tt, s') /\
    scissor_in_sync s' /\ is_scissor_enabled_ s' = true /\
    scissor_rect_ s' = mkRect 0 0 10 10.
Proof.
  refine (proj2 (proj2 (scissor_shadow_tracks_the_context renderer_with_scissor _))
            (mkRect 0 0 10 10)).
  split; [reflexivity|left; reflexivity].
Defined.

Lemma texture_unit_0_is_active_between_quads_witness :
  on_return (DoDrawQuad frame (solid identity)) renderer
    (fun _ s' => active_texture_is GL_TEXTURE0 s').
Proof.
  refine (proj1 (texture_unit_0_is_active_between_quads renderer _)
            frame (solid identity)).
  reflexivity.
Defined.

Lemma premultiplied_blend_function_between_quads_witness :
  on_return (DoDrawQuad frame (solid identity)) renderer_in_frame
    (fun _ s' => blend_func_is premultiplied_blend s').
Proof.
  refine (proj1 (premultiplied_blend_function_between_quads renderer_in_frame _)
            frame (solid identity)).
  reflexivity.
Defined.

(** ** Draw calls, on concrete renderers *)

Lemma stream_video_needs_egl_images_witness :
  DrawStreamVideoQuad frame stream_video 5 identity renderer = None.
Proof.
  refine (proj1 (stream_video_needs_egl_images frame stream_video 5 identity
                   renderer) _).
  reflexivity.
Defined.

Lemma invertible_quads_take_one_draw_call_witness :
  exists s',
    DrawSolidColorQuad frame (solid identity) red renderer = Some (tt, s') /\
    draw_calls s' =
      draw_calls renderer ++ [drawElements GL_TRIANGLES 6 GL_UNSIGNED_SHORT 0].
Proof.
  refine (proj1 (invertible_quads_take_one_draw_call frame (solid identity)
                   renderer _) red).
  reflexivity.
Defined.

Lemma cache_never_exceeds_capacity_witness :
  on_return (DoDrawQuad frame (fst (textured 5 left_half))) renderer
    (fun _ s' => cache_consistent (draw_cache_ s')).
Proof.
  refine (proj1 (cache_never_exceeds_capacity frame (fst (textured 5 left_half))
                   renderer _ _)).
  - repeat split; auto. simpl. lia.
  - intros tq H. injection H as <-.
    split; [split; apply is_uint32_by_computation; reflexivity|].
    intros H; discriminate H.
Defined.

Lemma quads_without_a_program_pile_up_witness :
  exists s',
    (enqueue_all frame two_halves;; FlushTextureQuadCache)
      renderer_after_context_loss = Some (tt, s') /\
    context_ s' = context_ renderer_after_context_loss /\
    length (matrix_data (draw_cache_ s')) =
      (length (matrix_data (draw_cache_ renderer_after_context_loss)) +
       length two_halves)%nat.
Proof.
  refine (quads_without_a_program_pile_up frame two_halves
            renderer_after_context_loss _ _).
  - repeat constructor.
  - reflexivity.
Defined.

Lemma frame_starts_from_a_known_state_witness :
  exists s',
    BeginDrawingFrame frame renderer = Some (tt, s') /\
    blend_shadow_ s' = true /\ blend_in_sync s' /\
    program_shadow_ s' = 0 /\ program_in_sync s' /\
    active_texture_is GL_TEXTURE0 s' /\
    blend_func_is premultiplied_blend s' /\
    is_backbuffer_discarded_ s' = false /\
    is_viewport_changed_ s' = false.
Proof.
  refine (proj2 (frame_starts_from_a_known_state frame renderer) _).
  reflexivity.
Defined.


(** ** Reading pixels back, on an image of two by two pixels *)

Lemma readback_flips_rows_and_swaps_red_and_blue_witness :
  exists out,
    copy_pixels 64 (mkRect 0 0 2 2)
      [10; 11; 12; 13; 20; 21; 22; 23; 30; 31; 32; 33; 40; 41; 42; 43]
      [0; 0; 0; 0; 0; 0; 0; 0; 0; 0; 0; 0; 0; 0; 0; 0; 7] = Some out /\
    length out = 17%nat /\
    (forall x y c,
       0 <= x < 2 -> 0 <= y < 2 -> 0 <= c < 4 ->
       byte_at out 2 x y c =
       byte_at [10; 11; 12; 13; 20; 21; 22; 23; 30; 31; 32; 33; 40; 41; 42; 43]
         2 x (2 - 1 - y) (if c =? 0 then 2 else if c =? 2 then 0 else c)) /\
    (forall j, 2 * 2 * 4 <= j ->
       out !! Z.to_nat j =
       [0; 0; 0; 0; 0; 0; 0; 0; 0; 0; 0; 0; 0; 0; 0; 0; 7] !! Z.to_nat j).
Proof.
  refine (readback_flips_rows_and_swaps_red_and_blue 64 (mkRect 0 0 2 2)
            [10; 11; 12; 13; 20; 21; 22; 23; 30; 31; 32; 33; 40; 41; 42; 43]
            [0; 0; 0; 0; 0; 0; 0; 0; 0; 0; 0; 0; 0; 0; 0; 0; 7]
            _ _ _ _ _ _);
    simpl; lia.
Defined.

Lemma copying_the_copy_restores_the_source_witness :
  exists copy,
    copy_pixels 32 (mkRect 0 0 1 2) [1; 2; 3; 4; 5; 6; 7; 8]
      [0; 0; 0; 0; 0; 0; 0; 0] = Some copy /\
    copy_pixels 32 (mkRect 0 0 1 2) copy [9; 9; 9; 9; 9; 9; 9; 9] =
    Some [1; 2; 3; 4; 5; 6; 7; 8].
Proof.
  refine (copying_the_copy_restores_the_source 32 (mkRect 0 0 1 2)
            [1; 2; 3; 4; 5; 6; 7; 8] [0; 0; 0; 0; 0; 0; 0; 0]
            [9; 9; 9; 9; 9; 9; 9; 9] _ _ _ _ _ _ _);
    simpl; lia.
Defined.

(** The copy of the two by two image, computed. *)
Example copy_pixels_two_by_two :
  copy_pixels 64 (mkRect 0 0 2 2)
    [10; 11; 12; 13; 20; 21; 22; 23; 30; 31; 32; 33; 40; 41; 42; 43]
    [0; 0; 0; 0; 0; 0; 0; 0; 0; 0; 0; 0; 0; 0; 0; 0; 7] =
  Some [32; 31; 30; 33; 42; 41; 40; 43; 12; 11; 10; 13; 22; 21; 20; 23; 7].
Proof. vm_compute. reflexivity. Qed.


(** ** The current context, on a concrete renderer *)

Lemma calls_go_to_the_current_context_witness :
  (exists s',
     BeginDrawingFrame frame renderer = Some (tt, s') /\
     context_discipline true s') /\
  on_return (DoDrawQuad frame (solid identity)) renderer_in_frame
    (fun _ s' => context_discipline true s').
Proof.
  split.
  - refine (proj1 (calls_go_to_the_current_context renderer) frame true _ _);
      reflexivity.
  - refine (proj1 (proj2 (calls_go_to_the_current_context renderer_in_frame) _)
              frame (solid identity)).
    reflexivity.
Defined.

(** A draw call while the off-screen context is current breaks the
    discipline. *)
Example a_call_on_a_context_that_is_not_current :
  context_run
    [Offscreen_makeContextCurrent;
     drawElements GL_TRIANGLES 6 GL_UNSIGNED_SHORT 0] = (false, false).
Proof. reflexivity. Qed.


(** ** Picture quads, on a concrete renderer *)

(** The first picture quad creates the texture, the second one uses it. *)
Example picture_quads_of_one_size_share_a_texture :
  succeeds (DrawPictureQuad frame picture_quad picture;;
            DrawPictureQuad frame picture_quad picture) renderer = true /\
  on_demand_tile_raster_resource_id_
    (after (DrawPictureQuad frame picture_quad picture) renderer) = 1 /\
  resource_provider_
    (after (DrawPictureQuad frame picture_quad picture) renderer) = 2 /\
  on_demand_tile_raster_resource_id_
    (after (DrawPictureQuad frame picture_quad picture;;
            DrawPictureQuad frame picture_quad picture) renderer) = 1 /\
  resource_provider_
    (after (DrawPictureQuad frame picture_quad picture;;
            DrawPictureQuad frame picture_quad picture) renderer) = 2.
Proof. repeat split; reflexivity. Qed.


(** ** The life cycle, on concrete renderers *)

Lemma read_fence_passes_at_the_second_swap_after_it_witness :
  exists h1 fence,
    SwapBuffers get_fence set_fence 0 host_with_fence = Some h1 /\
    get_fence (resource_provider_ (gl h1)) = Some fence /\
    forall l,
      exists h',
        swaps get_fence set_fence l h1 = Some h' /\
        HasPassed fence h' = Some (2 <=? length l)%nat.
Proof.
  refine (read_fence_passes_at_the_second_swap_after_it
            get_fence set_fence 0 host_with_fence _ _).
  - reflexivity.
  - intros fence [H|H]; discriminate H.
Defined.

Lemma visible_renderer_keeps_what_it_has_witness :
  exists h',
    operate_all (fun rp => rp) (fun _ => None) (fun rp _ => rp)
      [do_SetVisible true; do_onMemoryAllocationChanged allocation;
       do_SwapBuffers 7; do_ViewportChanged] host = Some h' /\
    visible_ h' = true /\
    is_backbuffer_discarded_ (gl h') = is_backbuffer_discarded_ (gl host) /\
    render_pass_textures_ (gl h') = render_pass_textures_ (gl host) /\
    calls (gl h') = calls (gl host).
Proof.
  refine (visible_renderer_keeps_what_it_has
            (fun rp => rp) (fun _ => None) (fun rp _ => rp)
            [do_SetVisible true; do_onMemoryAllocationChanged allocation;
             do_SwapBuffers 7; do_ViewportChanged] host _ _);
    reflexivity.
Defined.

Lemma hiding_drops_and_the_next_frame_restores_witness :
  exists h1 h2 s,
    SetVisible (fun rp => rp) false host = Some h1 /\
    visible_ h1 = false /\
    render_pass_textures_ (gl h1) = ∅ /\
    is_backbuffer_discarded_ (gl h1) =
      is_backbuffer_discarded_ (gl host) ||
      discard_backbuffer_when_not_visible_ host /\
    calls (gl h1) = calls (gl host) ++ [flush] /\
    requests h1 =
      requests host ++
      (if negb (is_backbuffer_discarded_ (gl host)) &&
          discard_backbuffer_when_not_visible_ host
       then [OutputSurface_DiscardBackbuffer; SetFullRootLayerDamage]
       else []) ++
      (if using_set_visibility host then [setVisibilityCHROMIUM false] else []) /\
    SetVisible (fun rp => rp) true h1 = Some h2 /\
    visible_ h2 = true /\
    gl h2 = gl h1 /\
    BeginDrawingFrame frame (gl h2) = Some (tt, s) /\
    is_backbuffer_discarded_ s = false.
Proof.
  refine (hiding_drops_and_the_next_frame_restores
            (fun rp => rp) frame host _).
  reflexivity.
Defined.

(** Three swaps: the fence of the first has passed, the other two have not;
    the renderer holds the second, the provider the third. *)
Example fences_after_three_swaps :
  option_map (fun h => (fences_ h, last_swap_fence_ h,
                        get_fence (resource_provider_ (gl h))))
    (swaps get_fence set_fence [1; 2; 3] host_with_fence) =
  Some ([true; false; false], Some 1%nat, Some 2%nat).
Proof. reflexivity. Qed.

(** A partial swap posts the damage clamped to the viewport, counted from
    the bottom. *)
Example partial_swap_posts_the_flipped_rect :
  option_map requests
    (SwapBuffers (fun _ => None) (fun rp _ => rp) 5
       (set_swap_buffer_rect_ (mkRect 10 20 200 30) host)) =
  Some [PostSubBuffer (mkRect 10 50 90 30) 5].
Proof. reflexivity. Qed.

(** A hidden renderer that keeps its back buffer loses it to an allocation
    that is enforced but not kept; its policy stays as it was. *)
Example enforced_allocation_on_a_hidden_renderer :
  option_map
    (fun h => (is_backbuffer_discarded_ (gl h),
               discard_backbuffer_when_not_visible_ h))
    (h ← SetVisible (fun rp => rp) false
           (set_discard_backbuffer_when_not_visible_ false host);
     onMemoryAllocationChanged (fun rp => rp) allocation h) =
  Some (true, false).
Proof. reflexivity. Qed.


(** ** Anti-aliasing, on concrete quads *)

Lemma three_ways_to_do_without_anti_aliasing_witness :
  SetupQuadForAntialiasing (device_transform_of frame identity)
    (textured 5 left_half).1 unit_quad [] = (false, unit_quad, []).
Proof.
  apply (proj1 (three_ways_to_do_without_anti_aliasing
                  (device_transform_of frame identity)
                  (textured 5 left_half).1 unit_quad []));
    reflexivity.
Defined.
